(** * The reporting and pre-flight harness of [tests/conftest.py]

    A shallow embedding of the pytest harness of the gold-trading end-to-end
    suite: the outcome reduction of the three phase reports, the JSON report
    store, the reachability probe, the credential and authenticated-page
    fixtures, and the session hooks that collect one record per test.

    A Python [str] is the [string] of the bytes of its UTF-8 encoding; a
    Python [float] is a binary64 number, a [spec_float] of precision 53;
    dictionaries keyed by strings are [gmap]; the file system is a finite
    map from paths to file texts; exceptions and [pytest.skip] are explicit
    results of a small state-and-error monad. *)

From Stdlib Require Import ZArith QArith String Ascii List Lia DecimalString DecimalZ DecimalPos.
From Stdlib Require Import Qabs Qpower SpecFloat.
From stdpp Require Import base option list gmap strings.

Local Open Scope string_scope.
Local Open Scope list_scope.

(* ===================================================================== *)
(** * Phase reports                                                       *)
(* ===================================================================== *)

(** The three values of [TestReport.outcome]. *)
Inductive Outcome : Type := passed | failed | skipped.

#[global] Instance Outcome_eq_dec : EqDecision Outcome.
Proof. solve_decision. Defined.

(** The name pytest writes into the record for an outcome. *)
Definition outcome_name (o : Outcome) : string :=
  match o with
  | passed => "passed"
  | failed => "failed"
  | skipped => "skipped"
  end.

(** What [str(r.longrepr)] does: it returns a text or raises. *)
Inductive StrResult : Type :=
  | Str (s : string)
  | StrRaises.

(** The precision and the exponent bound of binary64, and its addition and
    division, rounded to nearest with ties to even. *)
Definition float_prec : Z := 53.
Definition float_emax : Z := 1024.

Definition float_add (x y : spec_float) : spec_float :=
  SFadd float_prec float_emax x y.

Definition float_div (x y : spec_float) : spec_float :=
  SFdiv float_prec float_emax x y.

(** A phase report as the hooks read it.  [outcome] and [duration] are read
    with [getattr(rep, ..., None)], so each may be missing. *)
Record TestReport : Type := mkReport {
  when : string;
  outcome : option Outcome;
  duration : option spec_float;
  longrepr : StrResult
}.

(* ===================================================================== *)
(** * Outcome reduction ([pytest_runtest_teardown], lines 300-330)        *)
(* ===================================================================== *)

(** [_phase_outcome(rep)]: [getattr(rep, "outcome", None) if rep else None]. *)
Definition _phase_outcome (rep : option TestReport) : option Outcome :=
  match rep with
  | Some r => outcome r
  | None => None
  end.

(** [x == "failed"] on an optional outcome. *)
Definition is_outcome (x : option Outcome) (o : Outcome) : bool :=
  match x with
  | Some o' => bool_decide (o' = o)
  | None => false
  end.

(** The [if / elif] chain that sets [final_outcome]. *)
Definition final_outcome (rep_setup rep_call rep_teardown : option TestReport)
  : Outcome :=
  if is_outcome (_phase_outcome rep_setup) failed then failed
  else if is_outcome (_phase_outcome rep_call) failed then failed
  else if is_outcome (_phase_outcome rep_teardown) failed then failed
  else if is_outcome (_phase_outcome rep_setup) skipped
          || is_outcome (_phase_outcome rep_call) skipped then skipped
  else passed.

(** The loop [total_duration += float(r.duration)] over the reports that
    exist and have a duration: binary64 additions, from the left. *)
Fixpoint sum_durations (rs : list (option TestReport)) (acc : spec_float)
  : spec_float :=
  match rs with
  | [] => acc
  | Some r :: rs' =>
      match duration r with
      | Some d => sum_durations rs' (float_add acc d)
      | None => sum_durations rs' acc
      end
  | None :: rs' => sum_durations rs' acc
  end.

Definition total_duration (rep_setup rep_call rep_teardown : option TestReport)
  : spec_float :=
  sum_durations [rep_setup; rep_call; rep_teardown] (S754_zero false).

(** A number of a JSON document: a Python [int] or a Python [float]. *)
Inductive jnumber : Type :=
  | JInt (z : Z)
  | JFloat (x : spec_float).

(** Nearest integer, ties to the even one. *)
Definition round_half_even (q : Q) : Z :=
  let n := Qnum q in
  let d := Zpos (Qden q) in
  let f := (n / d)%Z in
  let r := (2 * (n mod d))%Z in
  if (r <? d)%Z then f
  else if (d <? r)%Z then (f + 1)%Z
  else if Z.even f then f else (f + 1)%Z.

(** The absolute value of a finite float with mantissa [m] and exponent
    [e], in millionths. *)
Definition millionths (m : positive) (e : Z) : Q :=
  (inject_Z (Zpos m) * Qpower (2 # 1) e * (1000000 # 1))%Q.

(** The float nearest to [k] millionths, of the sign [s]. *)
Definition float_of_millionths (s : bool) (k : Z) : spec_float :=
  match k with
  | Zpos p => float_div (S754_finite s p 0) (S754_finite false 1000000 0)
  | _ => S754_zero s
  end.

(** [round(x, 6)] on a float: the digits of [x] are cut after the sixth
    decimal, the exact value of [x] being rounded to the nearest millionth
    with ties to even, and the decimal is read back as the nearest float;
    the sign is kept, also on a zero; infinities and NaN are returned as
    they are. *)
Definition round6 (x : spec_float) : spec_float :=
  match x with
  | S754_finite s m e => float_of_millionths s (round_half_even (millionths m e))
  | _ => x
  end.

Definition placeholder : string := "Test failed (unable to stringify longrepr).".

(** The [try: str(r.longrepr) except Exception: ...] of the error loop. *)
Definition stringify (r : TestReport) : string :=
  match longrepr r with
  | Str s => s
  | StrRaises => placeholder
  end.

(** The loop over [(rep_call, rep_setup, rep_teardown)]: the first report
    whose outcome is failed gives the text, and the loop stops there. *)
Fixpoint first_failed (rs : list (option TestReport)) : option string :=
  match rs with
  | [] => None
  | Some r :: rs' =>
      if is_outcome (outcome r) failed then Some (stringify r)
      else first_failed rs'
  | None :: rs' => first_failed rs'
  end.

Definition error_text (final : Outcome)
    (rep_setup rep_call rep_teardown : option TestReport) : option string :=
  if bool_decide (final = failed)
  then first_failed [rep_call; rep_setup; rep_teardown]
  else None.

(* ===================================================================== *)
(** * JSON documents and the [json] module                                *)
(* ===================================================================== *)

(** The values [json.dumps] writes and [json.loads] returns.  A dictionary
    keeps its keys in insertion order. *)
#[warnings="-register-all"] Inductive json : Type :=
  | JNull
  | JBool (b : bool)
  | JNum (n : jnumber)
  | JStr (s : string)
  | JList (l : list json)
  | JObj (kvs : list (string * json)).

(** The two functions of the [json] module the harness calls.  [json_dumps]
    takes the [indent] argument; [json_loads] answers [None] where
    [json.loads] raises. *)
Class JsonCodec : Type := {
  json_dumps : option nat -> json -> string;
  json_loads : string -> option json
}.

(** The contract of the module: what was dumped loads back unchanged. *)
Definition codec_law (C : JsonCodec) : Prop :=
  forall (indent : option nat) (v : json),
    json_loads (json_dumps indent v) = Some v.

(** [isinstance(data, list)] on a loaded document. *)
Definition is_json_list (v : json) : bool :=
  match v with
  | JList _ => true
  | _ => false
  end.

(** [doc[key]] on a loaded document: the value of the entry [key] of a
    dictionary, nothing on any other document. *)
Definition json_get (key : string) (doc : json) : option json :=
  match doc with
  | JObj kvs => snd <$> List.find (fun kv => String.eqb (fst kv) key) kvs
  | _ => None
  end.

(* ===================================================================== *)
(** * Naming helpers                                                      *)
(* ===================================================================== *)

Definition newline : string := String (ascii_of_nat 10) EmptyString.

(** [str.replace(old, new)] for a non-empty [old]: occurrences are replaced
    from the left and do not overlap.  [skip] counts the characters of an
    occurrence that are still to be dropped. *)
Fixpoint replace_aux (old new : string) (skip : nat) (s : string) : string :=
  match s with
  | EmptyString => EmptyString
  | String c s' =>
      match skip with
      | S k => replace_aux old new k s'
      | O =>
          if String.prefix old s
          then new +:+ replace_aux old new (String.length old - 1) s'
          else String c (replace_aux old new 0 s')
      end
  end.

Definition replace (old new s : string) : string := replace_aux old new 0 s.

(** [_safe_filename(text)] *)
Definition _safe_filename (text : string) : string :=
  let safe := replace "::" "__" (replace "\" "__" (replace "/" "__" text)) in
  let safe := replace " " "_" (replace "]" "_" (replace "[" "_" safe)) in
  let safe := replace ":" "_" safe in
  safe.

(* ===================================================================== *)
(** * The report store                                                    *)
(* ===================================================================== *)

(** A [pathlib.Path] is the list of its components; [p / name] adds one. *)
Abbreviation Path := (list string).

Definition path_join (p : Path) (name : string) : Path := p ++ [name].

(** [p.parent]: the directory a file is written into. *)
Definition parent (p : Path) : Path := removelast p.

(** Files hold text; directories are a set of paths. *)
Record FileSystem : Type := mkFS {
  files : gmap Path string;
  dirs : gset Path
}.

Definition write_text (fs : FileSystem) (p : Path) (txt : string) : FileSystem :=
  {| files := <[p := txt]> (files fs); dirs := dirs fs |}.

(** The path itself and every parent of it. *)
Definition with_parents (p : Path) : list Path :=
  map (fun n => take n p) (seq 1 (length p)).

(** [_ensure_dir(path)]: [mkdir(parents=True, exist_ok=True)]. *)
Definition _ensure_dir (fs : FileSystem) (p : Path) : FileSystem :=
  {| files := files fs; dirs := dirs fs ∪ list_to_set (with_parents p) |}.

Section Store.
Context {codec : JsonCodec}.

(** The list [_append_json_array] starts from: the loaded file when it
    exists and holds a list, the empty list otherwise. *)
Definition load_array (fs : FileSystem) (file_path : Path) : list json :=
  match files fs !! file_path with
  | Some txt =>
      match json_loads txt with
      | Some (JList data) => data
      | Some _ => []
      | None => []
      end
  | None => []
  end.

(** [_append_json_array(file_path, record)] *)
Definition _append_json_array (fs : FileSystem) (file_path : Path)
    (record : json) : FileSystem :=
  let data := load_array fs file_path in
  let data := data ++ [record] in
  write_text fs file_path (json_dumps (Some 2%nat) (JList data)).

(** [_append_jsonl(file_path, record)]: open in append mode, write one
    line. *)
Definition _append_jsonl (fs : FileSystem) (file_path : Path)
    (record : json) : FileSystem :=
  let old := default EmptyString (files fs !! file_path) in
  write_text fs file_path (old +:+ json_dumps None record +:+ newline).

(** The text of a file loads as a JSON list. *)
Definition parses_as_list (txt : string) : bool :=
  match json_loads txt with
  | Some v => is_json_list v
  | None => false
  end.

(** The lines [_append_jsonl] writes for a sequence of records. *)
Fixpoint jsonl_lines (records : list json) : string :=
  match records with
  | [] => EmptyString
  | r :: rest => json_dumps None r +:+ newline +:+ jsonl_lines rest
  end.

(** Appending several records, one call each. *)
Definition append_all (fs : FileSystem) (file_path : Path)
    (records : list json) : FileSystem :=
  fold_left (fun fs' r => _append_json_array fs' file_path r) records fs.
End Store.

(* ===================================================================== *)
(** * Effects: the network, the browser page, exceptions and skips        *)
(* ===================================================================== *)

(** The result of a library call that may raise an [Exception]. *)
Inductive Exc (A : Type) : Type :=
  | Ok (a : A)
  | Err (e : string).
Arguments Ok {A} a.
Arguments Err {A} e.

(** What [urlparse(url)] gives: the attributes the probe reads.  Reading
    [port] raises [ValueError] on a malformed port. *)
Record ParseResult : Type := mkParsed {
  scheme : string;
  hostname : option string;
  port : Exc (option Z)
}.

(** A page handle of the browser driver. *)
Record Page : Type := mkPage { page_id : nat }.

Inductive PageAction : Type :=
  | Goto (url : string)
  | Fill (selector value : string)
  | Click (selector : string)
  | WaitForLoadState (state : string).

(** What a fixture or a test body does to the outside, in order. *)
Inductive Event : Type :=
  | EvConnect (host : string) (port : Z) (timeout : Q)
  | EvPage (p : Page) (a : PageAction).

(** How a phase, a fixture or a test body ends: it returns, it raises an
    [Exception], or it raises pytest's [Skipped] (which is not an
    [Exception], so [except Exception] lets it through). *)
Inductive Result (A : Type) : Type :=
  | Returned (a : A)
  | Raised (e : string)
  | Skipped (reason : string).
Arguments Returned {A} a.
Arguments Raised {A} e.
Arguments Skipped {A} reason.

(** The outside world: the answers of the libraries and of the network. *)
Record World : Type := mkWorld {
  urlparse : string -> Exc ParseResult;
  create_connection : string -> Z -> Q -> Exc unit;
  page_action : Page -> PageAction -> Exc unit;
  phase_duration : string -> string -> option spec_float;
  longrepr_of : Result unit -> StrResult
}.

(** Computations that append to the trace of events. *)
Definition M (A : Type) : Type := list Event -> Result A * list Event.

Definition ret {A} (a : A) : M A := fun t => (Returned a, t).

Definition bind {A B} (m : M A) (k : A -> M B) : M B :=
  fun t =>
    match m t with
    | (Returned a, t') => k a t'
    | (Raised e, t') => (Raised e, t')
    | (Skipped r, t') => (Skipped r, t')
    end.

Notation "x <- m ;; k" := (bind m (fun x => k))
  (at level 60, m at next level, right associativity).
Notation "m ;;; k" := (bind m (fun _ => k))
  (at level 60, right associativity).

(** [raise] of an [Exception], and [pytest.skip(reason)]. *)
Definition raise {A} (e : string) : M A := fun t => (Raised e, t).
Definition pytest_skip {A} (reason : string) : M A := fun t => (Skipped reason, t).

(** A pure library call that may raise. *)
Definition lift_exc {A} (x : Exc A) : M A :=
  match x with
  | Ok a => ret a
  | Err e => raise e
  end.

(** [try: m except Exception: h] *)
Definition try_except {A} (m : M A) (h : string -> M A) : M A :=
  fun t =>
    match m t with
    | (Raised e, t') => h e t'
    | other => other
    end.

Section Effects.
Variable w : World.

(** [socket.create_connection((host, port), timeout=...)], entered and
    left as a context manager. *)
Definition connect (host : string) (p : Z) (timeout : Q) : M unit :=
  fun t =>
    let t' := t ++ [EvConnect host p timeout] in
    match create_connection w host p timeout with
    | Ok _ => (Returned tt, t')
    | Err e => (Raised e, t')
    end.

(** One call on the page. *)
Definition page_do (pg : Page) (a : PageAction) : M unit :=
  fun t =>
    let t' := t ++ [EvPage pg a] in
    match page_action w pg a with
    | Ok _ => (Returned tt, t')
    | Err e => (Raised e, t')
    end.

(** [_is_reachable(url, timeout_seconds)] *)
Definition _is_reachable (url : string) (timeout_seconds : Q) : M bool :=
  try_except
    (parsed <- lift_exc (urlparse w url) ;;
     match hostname parsed with
     | None => ret false
     | Some host =>
         if bool_decide (host = EmptyString) then ret false
         else
           p <- lift_exc (port parsed) ;;
           let p := match p with
                    | Some n => n
                    | None =>
                        if bool_decide (scheme parsed = "https")
                        then 443%Z else 80%Z
                    end in
           connect host p timeout_seconds ;;;
           ret true
     end)
    (fun _ => ret false).
End Effects.

(* ===================================================================== *)
(** * Configuration and fixtures                                          *)
(* ===================================================================== *)

(** [os.getenv(key, default)] over the process environment. *)
Definition getenv (environ : gmap string string) (key dflt : string) : string :=
  default dflt (environ !! key).

(** [str.isspace] on the characters of one byte: tab, line feed, vertical
    tab, form feed, carriage return, the four separators 28 to 31, and
    space. *)
Definition is_space (c : ascii) : bool :=
  let n := nat_of_ascii c in
  ((9 <=? n)%nat && (n <=? 13)%nat) || ((28 <=? n)%nat && (n <=? 32)%nat).

(** [str.isspace] on the characters of two bytes: U+0085 (C2 85) and
    U+00A0 (C2 A0). *)
Definition is_space2 (c d : ascii) : bool :=
  (nat_of_ascii c =? 194)%nat
  && ((nat_of_ascii d =? 133)%nat || (nat_of_ascii d =? 160)%nat).

(** [str.isspace] on the characters of three bytes: U+1680 (E1 9A 80),
    U+2000 to U+200A (E2 80 80 to E2 80 8A), U+2028, U+2029 and U+202F
    (E2 80 A8, A9, AF), U+205F (E2 81 9F) and U+3000 (E3 80 80).  No
    character of four bytes is white space. *)
Definition is_space3 (c d e : ascii) : bool :=
  let c := nat_of_ascii c in
  let d := nat_of_ascii d in
  let e := nat_of_ascii e in
  ((c =? 225)%nat && (d =? 154)%nat && (e =? 128)%nat)
  || ((c =? 226)%nat && (d =? 128)%nat
      && (((128 <=? e)%nat && (e <=? 138)%nat)
          || (e =? 168)%nat || (e =? 169)%nat || (e =? 175)%nat))
  || ((c =? 226)%nat && (d =? 129)%nat && (e =? 159)%nat)
  || ((c =? 227)%nat && (d =? 128)%nat && (e =? 128)%nat).

(** The number of bytes of the white-space character [s] starts with; zero
    when [s] starts with another character or is empty. *)
Definition space_width (s : string) : nat :=
  match s with
  | EmptyString => 0
  | String c r =>
      if is_space c then 1
      else
        match r with
        | EmptyString => 0
        | String d r' =>
            if is_space2 c d then 2
            else
              match r' with
              | EmptyString => 0
              | String e _ => if is_space3 c d e then 3 else 0
              end
        end
  end.

(** [str.lstrip()]: the white-space characters at the start are dropped.
    [skip] counts the bytes of a character that are still to be dropped. *)
Fixpoint lstrip_aux (skip : nat) (s : string) : string :=
  match s with
  | EmptyString => EmptyString
  | String _ s' =>
      match skip with
      | S k => lstrip_aux k s'
      | O =>
          match space_width s with
          | O => s
          | S k => lstrip_aux k s'
          end
      end
  end.

Definition lstrip (s : string) : string := lstrip_aux 0 s.

(** [s.isspace() or s == ""]: [s] is made of white-space characters only. *)
Fixpoint all_space_aux (skip : nat) (s : string) : bool :=
  match s with
  | EmptyString => true
  | String _ s' =>
      match skip with
      | S k => all_space_aux k s'
      | O =>
          match space_width s with
          | O => false
          | S k => all_space_aux k s'
          end
      end
  end.

Definition all_space (s : string) : bool := all_space_aux 0 s.

(** [str.rstrip()]: the text is cut where only white space follows. *)
Fixpoint rstrip (s : string) : string :=
  match s with
  | EmptyString => EmptyString
  | String c s' => if all_space s then EmptyString else String c (rstrip s')
  end.

(** [str.strip()] with no argument. *)
Definition strip (s : string) : string := rstrip (lstrip s).

(** [w] is one white-space character. *)
Definition is_one_space (w : string) : Prop :=
  space_width w <> 0 /\ space_width w = String.length w.

(** [pw_config.BASE_URL], which the [base_url] fixture returns. *)
Definition base_url (environ : gmap string string) : string :=
  getenv environ "BASE_URL" "http://localhost:3000".

Record Credentials : Type := mkCredentials {
  username : string;
  password : string
}.

(** The [credentials] fixture. *)
Definition credentials (environ : gmap string string) : Credentials :=
  {| username := strip (getenv environ "TEST_USER" "");
     password := strip (getenv environ "TEST_PASS" "") |}.

Definition dquote : string := String (ascii_of_nat 34) EmptyString.

(** The [data-testid] selector of [pages/login_page.py]. *)
Definition testid (name : string) : string :=
  "[data-testid=" +:+ dquote +:+ name +:+ dquote +:+ "]".

(** The skip reason of the reachability gate. *)
Definition unreachable_reason (url : string) : string :=
  "BASE_URL not reachable: " +:+ url +:+ ". " +:+
  "Start your local app (if using localhost) or set BASE_URL to a reachable staging/demo URL.".

(** The skip reason of the credential gate. *)
Definition missing_credentials_reason : string :=
  "Missing TEST_USER/TEST_PASS in .env. Please set them before running UI tests.".

(** [needle] occurs in [s]. *)
Definition mentions (s needle : string) : Prop :=
  exists pre post : string, s = pre +:+ needle +:+ post.

(** An event that drives the page: navigation or a step of the login. *)
Definition is_page_event (e : Event) : bool :=
  match e with
  | EvPage _ _ => true
  | EvConnect _ _ _ => false
  end.

Section Fixtures.
Variable w : World.

(** [LoginPage(page).login(username, password)] *)
Definition login (pg : Page) (user pass : string) : M unit :=
  page_do w pg (Fill (testid "login-username") user) ;;;
  page_do w pg (Fill (testid "login-password") pass) ;;;
  page_do w pg (Click (testid "login-submit")) ;;;
  page_do w pg (WaitForLoadState "networkidle").

(** The [logged_in_page] fixture. *)
Definition logged_in_page (pg : Page) (url : string) (creds : Credentials)
  : M Page :=
  reachable <- _is_reachable w url 2 ;;
  if negb reachable then pytest_skip (unreachable_reason url)
  else if bool_decide (username creds = EmptyString)
          || bool_decide (password creds = EmptyString)
  then pytest_skip missing_credentials_reason
  else
    page_do w pg (Goto url) ;;;
    login pg (username creds) (password creds) ;;;
    ret pg.
End Fixtures.

(* ===================================================================== *)
(** * Records, run state and the reporting hooks                          *)
(* ===================================================================== *)

(** The [environment] entry of a record. *)
Record Environment : Type := mkEnvironment {
  env_base_url : string;
  env_headless : string;
  env_python : string;
  env_os : string
}.

(** The [record] dictionary built after a test (one per test and run). *)
Record TestExecutionRecord : Type := mkRecord {
  r_run_id : string;
  r_run_started_at : string;
  r_recorded_at : string;
  r_nodeid : string;
  r_outcome : Outcome;
  r_duration_seconds : spec_float;
  r_error : option string;
  r_environment : Environment
}.

Definition json_of_option_string (x : option string) : json :=
  match x with
  | Some s => JStr s
  | None => JNull
  end.

(** The record as the JSON document that is written to the files. *)
Definition record_to_json (r : TestExecutionRecord) : json :=
  JObj [ ("run_id", JStr (r_run_id r));
         ("run_started_at", JStr (r_run_started_at r));
         ("recorded_at", JStr (r_recorded_at r));
         ("nodeid", JStr (r_nodeid r));
         ("outcome", JStr (outcome_name (r_outcome r)));
         ("duration_seconds", JNum (JFloat (r_duration_seconds r)));
         ("error", json_of_option_string (r_error r));
         ("environment",
           JObj [ ("base_url", JStr (env_base_url (r_environment r)));
                  ("headless", JStr (env_headless (r_environment r)));
                  ("python", JStr (env_python (r_environment r)));
                  ("os", JStr (env_os (r_environment r))) ]) ].

(** The attributes [pytest_configure] attaches to the pytest config. *)
Record Config : Type := mkConfig {
  _run_started_at : string;
  _run_stamp : string;
  _run_id : string;
  _results : list TestExecutionRecord;
  _reports_dir : Path;
  _reports_runs_dir : Path;
  _reports_tests_dir : Path;
  _reports_history_jsonl : Path
}.

(** What the hooks read from the process: the clock ([_now_iso_ist] and
    [_run_file_stamp]), the environment variables, the interpreter and the
    platform, and the working directory. *)
Record Ambient : Type := mkAmbient {
  now_iso : string;
  file_stamp : string;
  environ : gmap string string;
  python_version : string;
  os_platform : string;
  cwd : Path
}.

(** The module global [_PYTEST_CONFIG] (the same object as
    [session.config]) and the file system. *)
Record State : Type := mkState {
  _PYTEST_CONFIG : option Config;
  fs : FileSystem
}.

(** A test item: its node id and the [_rep_by_phase] attribute, absent until
    the first report is attached. *)
Record Item : Type := mkItem {
  nodeid : string;
  _rep_by_phase : option (gmap string TestReport)
}.

(** [pytest_configure(config)] *)
Definition pytest_configure (amb : Ambient) (st : State) : State :=
  let root := cwd amb in
  let reports := path_join root "reports" in
  let runs := path_join reports "runs" in
  let tests := path_join reports "tests" in
  let config :=
    {| _run_started_at := now_iso amb;
       _run_stamp := file_stamp amb;
       _run_id := "run_" +:+ file_stamp amb;
       _results := [];
       _reports_dir := reports;
       _reports_runs_dir := runs;
       _reports_tests_dir := tests;
       _reports_history_jsonl := path_join reports "history.jsonl" |} in
  {| _PYTEST_CONFIG := Some config;
     fs := _ensure_dir (_ensure_dir (fs st) runs) tests |}.

(** [pytest_runtest_makereport(item, call)]: store the report under its
    phase name. *)
Definition pytest_runtest_makereport (item : Item) (rep : TestReport) : Item :=
  {| nodeid := nodeid item;
     _rep_by_phase := Some (<[when rep := rep]> (default ∅ (_rep_by_phase item))) |}.

(** The record [pytest_runtest_teardown] builds for an item. *)
Definition build_record (amb : Ambient) (config : Config) (item : Item)
  : TestExecutionRecord :=
  let reps := default ∅ (_rep_by_phase item) in
  let rep_setup := reps !! "setup" in
  let rep_call := reps !! "call" in
  let rep_teardown := reps !! "teardown" in
  let final := final_outcome rep_setup rep_call rep_teardown in
  {| r_run_id := _run_id config;
     r_run_started_at := _run_started_at config;
     r_recorded_at := now_iso amb;
     r_nodeid := nodeid item;
     r_outcome := final;
     r_duration_seconds := round6 (total_duration rep_setup rep_call rep_teardown);
     r_error := error_text final rep_setup rep_call rep_teardown;
     r_environment :=
       {| env_base_url := getenv (environ amb) "BASE_URL" "";
          env_headless := getenv (environ amb) "HEADLESS" "true";
          env_python := python_version amb;
          env_os := os_platform amb |} |}.

(** The config after [config._results] was updated in place. *)
Definition with_results (config : Config) (results : list TestExecutionRecord)
  : Config :=
  {| _run_started_at := _run_started_at config;
     _run_stamp := _run_stamp config;
     _run_id := _run_id config;
     _results := results;
     _reports_dir := _reports_dir config;
     _reports_runs_dir := _reports_runs_dir config;
     _reports_tests_dir := _reports_tests_dir config;
     _reports_history_jsonl := _reports_history_jsonl config |}.

(** The file of the per-test history of a node id. *)
Definition per_test_file (config : Config) (node : string) : Path :=
  path_join (_reports_tests_dir config) (_safe_filename node +:+ ".json").

Section Hooks.
Context {codec : JsonCodec}.

(** [pytest_runtest_teardown(item, nextitem)] *)
Definition pytest_runtest_teardown (amb : Ambient) (st : State) (item : Item)
  : State :=
  match _PYTEST_CONFIG st with
  | None => st
  | Some config =>
      let record := build_record amb config item in
      let config' := with_results config (_results config ++ [record]) in
      let fs1 := _append_json_array (fs st)
                   (per_test_file config (nodeid item)) (record_to_json record) in
      let fs2 := _append_jsonl fs1 (_reports_history_jsonl config)
                   (record_to_json record) in
      {| _PYTEST_CONFIG := Some config'; fs := fs2 |}
  end.
End Hooks.

(** The [totals] entry of the run summary. *)
Record Totals : Type := mkTotals {
  total : nat;
  n_passed : nat;
  n_failed : nat;
  n_skipped : nat
}.

Record Summary : Type := mkSummary {
  s_run_id : string;
  s_run_started_at : string;
  s_run_finished_at : string;
  s_exitstatus : Z;
  s_totals : Totals;
  s_results : list TestExecutionRecord
}.

(** [sum(1 for r in results if r["outcome"] == o)] *)
Fixpoint count_outcome (o : Outcome) (results : list TestExecutionRecord) : nat :=
  match results with
  | [] => 0
  | r :: rest =>
      (if bool_decide (r_outcome r = o) then 1 else 0) + count_outcome o rest
  end.

(** The [summary] dictionary of [pytest_sessionfinish]. *)
Definition run_summary (amb : Ambient) (config : Config) (exitstatus : Z)
  : Summary :=
  let results := _results config in
  {| s_run_id := _run_id config;
     s_run_started_at := _run_started_at config;
     s_run_finished_at := now_iso amb;
     s_exitstatus := exitstatus;
     s_totals :=
       {| total := length results;
          n_passed := count_outcome passed results;
          n_failed := count_outcome failed results;
          n_skipped := count_outcome skipped results |};
     s_results := results |}.

Definition jnat (n : nat) : json := JNum (JInt (Z.of_nat n)).

Definition summary_to_json (s : Summary) : json :=
  JObj [ ("run_id", JStr (s_run_id s));
         ("run_started_at", JStr (s_run_started_at s));
         ("run_finished_at", JStr (s_run_finished_at s));
         ("exitstatus", JNum (JInt (s_exitstatus s)));
         ("totals",
           JObj [ ("total", jnat (total (s_totals s)));
                  ("passed", jnat (n_passed (s_totals s)));
                  ("failed", jnat (n_failed (s_totals s)));
                  ("skipped", jnat (n_skipped (s_totals s))) ]);
         ("results", JList (map record_to_json (s_results s))) ].

(** The summary file of a run. *)
Definition run_file (config : Config) : Path :=
  path_join (_reports_runs_dir config) (_run_id config +:+ ".json").

Section SessionFinish.
Context {codec : JsonCodec}.

(** [pytest_sessionfinish(session, exitstatus)].  Without the attributes of
    [pytest_configure], reading [config._reports_runs_dir] raises. *)
Definition pytest_sessionfinish (amb : Ambient) (st : State) (exitstatus : Z)
  : Exc State :=
  match _PYTEST_CONFIG st with
  | None => Err "AttributeError"
  | Some config =>
      let summary := run_summary amb config exitstatus in
      Ok {| _PYTEST_CONFIG := Some config;
            fs := write_text (fs st) (run_file config)
                    (json_dumps (Some 2%nat) (summary_to_json summary)) |}
  end.
End SessionFinish.

(* ===================================================================== *)
(** * The host runner                                                     *)
(* ===================================================================== *)

(** pytest runs a test in three phases and builds a report after each one;
    the call phase runs only when setup passed.  The implementations of the
    hook [pytest_runtest_teardown] are called inside the teardown phase, the
    one of [conftest.py] before the runner's own, which runs the fixture
    finalizers; the teardown report is built after all of them. *)

Definition phase_outcome_of {A} (r : Result A) : Outcome :=
  match r with
  | Returned _ => passed
  | Raised _ => failed
  | Skipped _ => skipped
  end.

Definition forget {A} (r : Result A) : Result unit :=
  match r with
  | Returned _ => Returned tt
  | Raised e => Raised e
  | Skipped s => Skipped s
  end.

(** A test: the fixture set-up that provides its page, its body, and the
    finalizers of its fixtures; and what the process reads while its record
    is written. *)
Record TestCase : Type := mkTestCase {
  tc_nodeid : string;
  tc_setup : M Page;
  tc_call : Page -> M unit;
  tc_finalizers : M unit;
  tc_ambient : Ambient
}.

Section Runner.
Variable w : World.
Context {codec : JsonCodec}.

(** The report the runner builds for a phase. *)
Definition make_report (node phase : string) (r : Result unit) : TestReport :=
  {| when := phase;
     outcome := Some (phase_outcome_of r);
     duration := phase_duration w node phase;
     longrepr := longrepr_of w r |}.

(** The setup and call phases of a test, each followed by
    [pytest_runtest_makereport]. *)
Definition run_setup_call (tc : TestCase) (t : list Event) : Item * list Event :=
  let item := {| nodeid := tc_nodeid tc; _rep_by_phase := None |} in
  match tc_setup tc t with
  | (Returned pg, t1) =>
      let item := pytest_runtest_makereport item
                    (make_report (tc_nodeid tc) "setup" (Returned tt)) in
      let '(r_call, t2) := tc_call tc pg t1 in
      (pytest_runtest_makereport item
         (make_report (tc_nodeid tc) "call" r_call), t2)
  | (r_setup, t1) =>
      (pytest_runtest_makereport item
         (make_report (tc_nodeid tc) "setup" (forget r_setup)), t1)
  end.

(** The whole protocol of one test that is not interrupted. *)
Definition run_test (tc : TestCase) (st : State) (t : list Event)
  : State * Item * list Event :=
  let '(item, t2) := run_setup_call tc t in
  let st' := pytest_runtest_teardown (tc_ambient tc) st item in
  let '(r_teardown, t3) := tc_finalizers tc t2 in
  let item' := pytest_runtest_makereport item
                 (make_report (tc_nodeid tc) "teardown" r_teardown) in
  (st', item', t3).

(** The tests of a session, one after the other. *)
Fixpoint run_tests (tcs : list TestCase) (st : State) (t : list Event)
  : State * list Event :=
  match tcs with
  | [] => (st, t)
  | tc :: rest =>
      let '(st', _, t') := run_test tc st t in
      run_tests rest st' t'
  end.

(** A session: configure, run the tests, write the summary. *)
Definition run_session (amb_start : Ambient) (tcs : list TestCase)
    (amb_end : Ambient) (exitstatus : Z) (st : State)
  : Exc State * list Event :=
  let st1 := pytest_configure amb_start st in
  let '(st2, t) := run_tests tcs st1 [] in
  (pytest_sessionfinish amb_end st2 exitstatus, t).
End Runner.

(* ===================================================================== *)
(** * Interrupted sessions                                                *)
(* ===================================================================== *)

(** A [KeyboardInterrupt] or a [pytest.exit] in a phase is not turned into
    a report: it leaves the protocol of the test at once and ends the
    session, which still calls [pytest_sessionfinish].  When it comes in the
    setup or in the call phase, no teardown hook is called for the test;
    when it comes in the fixture finalizers, the hook of [conftest.py] has
    run already. *)
Inductive AbortPoint : Type :=
  | BeforeTeardownHook
  | InFinalizers.

Section Interrupted.
Variable w : World.
Context {codec : JsonCodec}.

(** What the protocol of a test interrupted at [point] does to the state. *)
Definition abort_test (tc : TestCase) (point : AbortPoint) (st : State)
    (t : list Event) : State :=
  match point with
  | BeforeTeardownHook => st
  | InFinalizers =>
      pytest_runtest_teardown (tc_ambient tc) st (fst (run_setup_call w tc t))
  end.

(** The tests [finished] run to their end; then [last], if any, is started
    and interrupted, and no test runs after it. *)
Definition run_until_abort (finished : list TestCase)
    (last : option (TestCase * AbortPoint)) (st : State) (t : list Event)
  : State :=
  let '(st', t') := run_tests w finished st t in
  match last with
  | Some (tc, point) => abort_test tc point st' t'
  | None => st'
  end.

(** A session that may be interrupted: configure, run the tests up to the
    interruption, write the summary. *)
Definition run_interrupted_session (amb_start : Ambient)
    (finished : list TestCase) (last : option (TestCase * AbortPoint))
    (amb_end : Ambient) (exitstatus : Z) (st : State) : Exc State :=
  pytest_sessionfinish amb_end
    (run_until_abort finished last (pytest_configure amb_start st) [])
    exitstatus.
End Interrupted.


(** The tests of a session whose protocol reached the teardown hook. *)
Definition reached_hook (finished : list TestCase)
    (last : option (TestCase * AbortPoint)) : list TestCase :=
  finished ++ match last with
              | Some (tc, InFinalizers) => [tc]
              | _ => []
              end.

(* ===================================================================== *)
(** * The reduction rule and the error text as the specification words them *)
(* ===================================================================== *)

(** The five rules in priority order, the first match wins: setup failed,
    call failed, teardown failed, setup or call skipped, otherwise passed. *)
Definition spec_reduction (setup call teardown : option Outcome) : Outcome :=
  match setup, call, teardown with
  | Some failed, _, _ => failed
  | _, Some failed, _ => failed
  | _, _, Some failed => failed
  | Some skipped, _, _ => skipped
  | _, Some skipped, _ => skipped
  | _, _, _ => passed
  end.

(** The failure text of the first failing phase, searched in the order call,
    setup, teardown; the fixed placeholder where stringifying raises. *)
Definition spec_error_detail (rep_setup rep_call rep_teardown : option TestReport)
  : option string :=
  let failing (rep : option TestReport) : option TestReport :=
    match rep with
    | Some r => if is_outcome (outcome r) failed then Some r else None
    | None => None
    end in
  let text (r : TestReport) : string :=
    match longrepr r with
    | Str s => s
    | StrRaises => "Test failed (unable to stringify longrepr)."
    end in
  match failing rep_call, failing rep_setup, failing rep_teardown with
  | Some r, _, _ => Some (text r)
  | None, Some r, _ => Some (text r)
  | None, None, Some r => Some (text r)
  | None, None, None => None
  end.

(** The host and port the specification says the probe connects to: the
    explicit port of the URL, else 443 for the https scheme and 80
    otherwise; nothing where the URL does not parse or has no host name. *)
Definition spec_probe_target (w : World) (url : string) : option (string * Z) :=
  match urlparse w url with
  | Err _ => None
  | Ok parsed =>
      match hostname parsed, port parsed with
      | None, _ => None
      | Some _, Err _ => None
      | Some host, Ok explicit =>
          if bool_decide (host = "") then None
          else Some (host,
                     match explicit with
                     | Some n => n
                     | None => if bool_decide (scheme parsed = "https")
                               then 443%Z else 80%Z
                     end)
      end
  end.

Definition is_ok {A} (x : Exc A) : bool :=
  match x with
  | Ok _ => true
  | Err _ => false
  end.

(** The page events of a trace: navigation and the steps of the login. *)
Definition page_events (t : list Event) : list Event :=
  List.filter is_page_event t.

(** The same test with another body. *)
Definition with_call (tc : TestCase) (body : Page -> M unit) : TestCase :=
  {| tc_nodeid := tc_nodeid tc;
     tc_setup := tc_setup tc;
     tc_call := body;
     tc_finalizers := tc_finalizers tc;
     tc_ambient := tc_ambient tc |}.


(* ===================================================================== *)
(** * A reference codec for JSON text                                     *)
(* ===================================================================== *)

(** A printer and a parser of compact JSON text, an instance of
    [JsonCodec].  An integer is written as mantissa, the letter e and a
    decimal exponent; a float as in a hexadecimal literal, mantissa, the
    letter p and the binary exponent, with a mantissa of zero for the two
    zeros, the two infinities and NaN; a string escapes the double quote and
    the backslash with a backslash.  The [indent] argument does not change
    the text. *)
Module MiniJson.

Definition dq : ascii := ascii_of_nat 34.
Definition bs : ascii := ascii_of_nat 92.

Definition print_int (z : Z) : string :=
  NilZero.string_of_int (Z.to_int z).

(** A character of an integer literal: a digit or the minus sign. *)
Definition is_num_char (c : ascii) : bool :=
  let n := nat_of_ascii c in
  ((48 <=? n)%nat && (n <=? 57)%nat) || (n =? 45)%nat.

(** The longest prefix of integer characters, and what follows it. *)
Fixpoint span_num (s : string) : string * string :=
  match s with
  | EmptyString => (EmptyString, EmptyString)
  | String c r =>
      if is_num_char c
      then let '(a, b) := span_num r in (String c a, b)
      else (EmptyString, s)
  end.

Definition parse_int (s : string) : option (Z * string) :=
  let '(a, r) := span_num s in
  match NilZero.int_of_string a with
  | Some d => Some (Z.of_int d, r)
  | None => None
  end.

Fixpoint escape (s : string) : string :=
  match s with
  | EmptyString => EmptyString
  | String c r =>
      if Ascii.eqb c dq || Ascii.eqb c bs
      then String bs (String c (escape r))
      else String c (escape r)
  end.

(** Reads the characters of a string literal up to its closing quote. *)
Fixpoint read_string (s : string) : option (string * string) :=
  match s with
  | EmptyString => None
  | String c r =>
      if Ascii.eqb c dq then Some (EmptyString, r)
      else if Ascii.eqb c bs then
        match r with
        | EmptyString => None
        | String c' r' =>
            match read_string r' with
            | Some (x, rest) => Some (String c' x, rest)
            | None => None
            end
        end
      else
        match read_string r with
        | Some (x, rest) => Some (String c x, rest)
        | None => None
        end
  end.

Definition print_string (s : string) : string :=
  String dq (escape s +:+ String dq EmptyString).

(** The mantissa and the exponent a float is written with. *)
Definition float_code (x : spec_float) : Z * Z :=
  match x with
  | S754_zero s => (0, if s then 1 else 0)%Z
  | S754_infinity s => (0, if s then 3 else 2)%Z
  | S754_nan => (0, 4)%Z
  | S754_finite s m e => (if s then Zneg m else Zpos m, e)
  end.

Definition float_of_code (a b : Z) : spec_float :=
  match a with
  | Zpos m => S754_finite false m b
  | Zneg m => S754_finite true m b
  | Z0 =>
      if (b =? 0)%Z then S754_zero false
      else if (b =? 1)%Z then S754_zero true
      else if (b =? 2)%Z then S754_infinity false
      else if (b =? 3)%Z then S754_infinity true
      else S754_nan
  end.

Definition print_number (n : jnumber) : string :=
  match n with
  | JInt z => print_int z +:+ "e" +:+ print_int 0
  | JFloat x =>
      print_int (fst (float_code x)) +:+ "p" +:+ print_int (snd (float_code x))
  end.

Fixpoint print (v : json) : string :=
  let fix print_items (l : list json) : string :=
    match l with
    | [] => EmptyString
    | [x] => print x
    | x :: rest => print x +:+ "," +:+ print_items rest
    end in
  let fix print_fields (l : list (string * json)) : string :=
    match l with
    | [] => EmptyString
    | [(k, x)] => print_string k +:+ ":" +:+ print x
    | (k, x) :: rest =>
        print_string k +:+ ":" +:+ print x +:+ "," +:+ print_fields rest
    end in
  match v with
  | JNull => "null"
  | JBool true => "true"
  | JBool false => "false"
  | JNum n => print_number n
  | JStr s => print_string s
  | JList l => "[" +:+ print_items l +:+ "]"
  | JObj kvs => "{" +:+ print_fields kvs +:+ "}"
  end.

(** [s] starts with [lit]: the rest of [s] after it. *)
Fixpoint expect (lit s : string) : option string :=
  match lit with
  | EmptyString => Some s
  | String c lit' =>
      match s with
      | String c' s' => if Ascii.eqb c c' then expect lit' s' else None
      | EmptyString => None
      end
  end.

Definition parse_number (s : string) : option (json * string) :=
  match parse_int s with
  | Some (m, r) =>
      match expect "e" r with
      | Some r' =>
          match parse_int r' with
          | Some (e, r'') => Some (JNum (JInt (m * 10 ^ e)), r'')
          | None => None
          end
      | None =>
          match expect "p" r with
          | Some r' =>
              match parse_int r' with
              | Some (e, r'') => Some (JNum (JFloat (float_of_code m e)), r'')
              | None => None
              end
          | None => None
          end
      end
  | None => None
  end.

Definition parse_literal (lit : string) (v : json) (s : string)
  : option (json * string) :=
  match expect lit s with
  | Some r => Some (v, r)
  | None => None
  end.

(** The parser, by recursive descent; [fuel] bounds the nesting and the
    number of items. *)
Fixpoint parse_value (fuel : nat) (s : string) : option (json * string) :=
  match fuel with
  | O => None
  | S n =>
      match s with
      | EmptyString => None
      | String c r =>
          if Ascii.eqb c "n" then parse_literal "ull" JNull r
          else if Ascii.eqb c "t" then parse_literal "rue" (JBool true) r
          else if Ascii.eqb c "f" then parse_literal "alse" (JBool false) r
          else if Ascii.eqb c dq then
            match read_string r with
            | Some (x, rest) => Some (JStr x, rest)
            | None => None
            end
          else if Ascii.eqb c "[" then
            match expect "]" r with
            | Some rest => Some (JList [], rest)
            | None =>
                match parse_items n r with
                | Some (l, rest) => Some (JList l, rest)
                | None => None
                end
            end
          else if Ascii.eqb c "{" then
            match expect "}" r with
            | Some rest => Some (JObj [], rest)
            | None =>
                match parse_fields n r with
                | Some (l, rest) => Some (JObj l, rest)
                | None => None
                end
            end
          else parse_number s
      end
  end
with parse_items (fuel : nat) (s : string) : option (list json * string) :=
  match fuel with
  | O => None
  | S n =>
      match parse_value n s with
      | Some (x, String c r) =>
          if Ascii.eqb c "," then
            match parse_items n r with
            | Some (l, rest) => Some (x :: l, rest)
            | None => None
            end
          else if Ascii.eqb c "]" then Some ([x], r)
          else None
      | _ => None
      end
  end
with parse_fields (fuel : nat) (s : string)
  : option (list (string * json) * string) :=
  match fuel with
  | O => None
  | S n =>
      match expect (String dq EmptyString) s with
      | Some r =>
          match read_string r with
          | Some (k, r1) =>
              match expect ":" r1 with
              | Some r2 =>
                  match parse_value n r2 with
                  | Some (x, String c r3) =>
                      if Ascii.eqb c "," then
                        match parse_fields n r3 with
                        | Some (l, rest) => Some ((k, x) :: l, rest)
                        | None => None
                        end
                      else if Ascii.eqb c "}" then Some ([(k, x)], r3)
                      else None
                  | _ => None
                  end
              | None => None
              end
          | None => None
          end
      | None => None
      end
  end.

(** The measures that bound the fuel the parser needs. *)
Fixpoint jsize (v : json) : nat :=
  let fix lsize (l : list json) : nat :=
    match l with
    | [] => 0
    | x :: rest => S (jsize x + lsize rest)
    end in
  let fix fsize (l : list (string * json)) : nat :=
    match l with
    | [] => 0
    | (_, x) :: rest => S (jsize x + fsize rest)
    end in
  match v with
  | JList l => S (lsize l)
  | JObj kvs => S (fsize kvs)
  | _ => 1
  end.

Fixpoint lsize (l : list json) : nat :=
  match l with
  | [] => 0
  | x :: rest => S (jsize x + lsize rest)
  end.

Fixpoint fsize (l : list (string * json)) : nat :=
  match l with
  | [] => 0
  | (_, x) :: rest => S (jsize x + fsize rest)
  end.

Fixpoint print_items (l : list json) : string :=
  match l with
  | [] => EmptyString
  | [x] => print x
  | x :: rest => print x +:+ "," +:+ print_items rest
  end.

Fixpoint print_fields (l : list (string * json)) : string :=
  match l with
  | [] => EmptyString
  | [(k, x)] => print_string k +:+ ":" +:+ print x
  | (k, x) :: rest =>
      print_string k +:+ ":" +:+ print x +:+ "," +:+ print_fields rest
  end.

(** What may follow a value in a text: nothing, or a character that is not
    part of an integer literal. *)
Definition safe (rest : string) : Prop :=
  match rest with
  | EmptyString => True
  | String c _ => is_num_char c = false
  end.

(** The text starts with a character of an integer literal. *)
Definition starts_num (s : string) : Prop :=
  match s with
  | EmptyString => False
  | String c _ => is_num_char c = true
  end.

(** The text starts with a character that is neither a closing bracket
    nor a closing brace. *)
Definition starts_open (s : string) : Prop :=
  match s with
  | EmptyString => False
  | String c _ => Ascii.eqb "]" c = false /\ Ascii.eqb "}" c = false
  end.

Definition dumps (indent : option nat) (v : json) : string := print v.

Definition loads (s : string) : option json :=
  match parse_value (S (String.length s)) s with
  | Some (v, EmptyString) => Some v
  | _ => None
  end.

Definition codec : JsonCodec :=
  {| json_dumps := dumps; json_loads := loads |}.

End MiniJson.

(* ===================================================================== *)
(** * Sample worlds and tests                                             *)
(* ===================================================================== *)

Module Samples.

(** [urlparse] on the two URLs of the samples; any other text is taken as
    malformed. *)
Definition sample_urlparse (url : string) : Exc ParseResult :=
  if bool_decide (url = "http://localhost:3000")
  then Ok {| scheme := "http"; hostname := Some "localhost";
             port := Ok (Some 3000%Z) |}
  else if bool_decide (url = "https://shop.example")
  then Ok {| scheme := "https"; hostname := Some "shop.example";
             port := Ok None |}
  else Err "ValueError".

(** A quarter of a second. *)
Definition quarter_second : spec_float :=
  S754_finite false 4503599627370496 (-54).

Definition sample_longrepr (r : Result unit) : StrResult :=
  match r with
  | Returned _ => Str "None"
  | Raised e => Str e
  | Skipped reason => Str ("Skipped: " +:+ reason)
  end.

(** Nothing listens: every connection is refused. *)
Definition world_down : World :=
  {| urlparse := sample_urlparse;
     create_connection := fun _ _ _ => Err "ConnectionRefusedError";
     page_action := fun _ _ => Ok tt;
     phase_duration := fun _ _ => Some quarter_second;
     longrepr_of := sample_longrepr |}.

(** The application is up: every connection and page action succeeds. *)
Definition world_up : World :=
  {| urlparse := sample_urlparse;
     create_connection := fun _ _ _ => Ok tt;
     page_action := fun _ _ => Ok tt;
     phase_duration := fun _ _ => Some quarter_second;
     longrepr_of := sample_longrepr |}.

Definition sample_environ : gmap string string :=
  {[ "BASE_URL" := "http://localhost:3000";
     "TEST_USER" := "alice";
     "TEST_PASS" := "   " ]}.

Definition sample_ambient : Ambient :=
  {| now_iso := "2026-02-16T00:49:11+05:30";
     file_stamp := "2026-02-16T004911+0530";
     environ := sample_environ;
     python_version := "3.12.1";
     os_platform := "Linux";
     cwd := ["home"; "qa"; "project"] |}.

Definition sample_page : Page := {| page_id := 1 |}.

(** A body that opens the purchase page. *)
Definition sample_body (w : World) (pg : Page) : M unit :=
  page_do w pg (Goto "/buy-gold").

(** A test on the authenticated page, as the three tests of the suite. *)
Definition sample_test (w : World) (environ : gmap string string) : TestCase :=
  {| tc_nodeid := "tests/test_buy_gold_happy_amount.py::test_buy_gold_happy_path_by_amount";
     tc_setup := logged_in_page w sample_page (base_url environ)
                   (credentials environ);
     tc_call := sample_body w;
     tc_finalizers := ret tt;
     tc_ambient := sample_ambient |}.

(** The same test with a fixture finalizer that raises. *)
Definition sample_test_failing_teardown (w : World)
    (environ : gmap string string) : TestCase :=
  {| tc_nodeid := tc_nodeid (sample_test w environ);
     tc_setup := tc_setup (sample_test w environ);
     tc_call := sample_body w;
     tc_finalizers := raise "RuntimeError: browser has been closed";
     tc_ambient := sample_ambient |}.

Definition empty_fs : FileSystem := {| files := ∅; dirs := ∅ |}.

Definition fresh_state : State := {| _PYTEST_CONFIG := None; fs := empty_fs |}.

Definition sample_config : Config :=
  {| _run_started_at := "2026-02-16T00:49:11+05:30";
     _run_stamp := "2026-02-16T004911+0530";
     _run_id := "run_2026-02-16T004911+0530";
     _results := [];
     _reports_dir := ["home"; "qa"; "project"; "reports"];
     _reports_runs_dir := ["home"; "qa"; "project"; "reports"; "runs"];
     _reports_tests_dir := ["home"; "qa"; "project"; "reports"; "tests"];
     _reports_history_jsonl :=
       ["home"; "qa"; "project"; "reports"; "history.jsonl"] |}.

Definition sample_record (node : string) (o : Outcome) : TestExecutionRecord :=
  {| r_run_id := "run_2026-02-16T004911+0530";
     r_run_started_at := "2026-02-16T00:49:11+05:30";
     r_recorded_at := "2026-02-16T00:49:15+05:30";
     r_nodeid := node;
     r_outcome := o;
     r_duration_seconds := quarter_second;
     r_error := None;
     r_environment :=
       {| env_base_url := "http://localhost:3000"; env_headless := "true";
          env_python := "3.12.1"; env_os := "Linux" |} |}.

(** The state at the end of a run that collected three records. *)
Definition collected_state : State :=
  {| _PYTEST_CONFIG :=
       Some (with_results sample_config
               [ sample_record "tests/test_buy.py::test_a" passed;
                 sample_record "tests/test_buy.py::test_b" failed;
                 sample_record "tests/test_buy.py::test_c" passed ]);
     fs := {| files := ∅;
              dirs := {[ ["home"; "qa"; "project"; "reports"; "runs"] ]} |} |}.

(** A password of a space, a no-break space (U+00A0) and an ideographic
    space (U+3000). *)
Definition blank_password : string :=
  String (ascii_of_nat 32)
    (String (ascii_of_nat 194) (String (ascii_of_nat 160)
       (String (ascii_of_nat 227) (String (ascii_of_nat 128)
          (String (ascii_of_nat 128) EmptyString))))).

Definition blank_environ : gmap string string :=
  {[ "BASE_URL" := "http://localhost:3000";
     "TEST_USER" := "alice";
     "TEST_PASS" := blank_password ]}.

(** A history file that holds a JSON string instead of a list. *)
Definition corrupted_text : string := dquote +:+ "not a list" +:+ dquote.

Definition history_path : Path :=
  per_test_file sample_config "tests/test_buy.py::test_a".

Definition corrupted_fs : FileSystem :=
  {| files := {[ history_path := corrupted_text ]}; dirs := ∅ |}.

(** An environment with both credentials set. *)
Definition good_environ : gmap string string :=
  {[ "BASE_URL" := "http://localhost:3000";
     "TEST_USER" := "alice";
     "TEST_PASS" := "s3cret" ]}.

(** The application is up, but the purchase page does not open. *)
Definition world_broken : World :=
  {| urlparse := sample_urlparse;
     create_connection := fun _ _ _ => Ok tt;
     page_action := fun _ a =>
       match a with
       | Goto "/buy-gold" => Err "TimeoutError: page.goto"
       | _ => Ok tt
       end;
     phase_duration := fun _ _ => Some quarter_second;
     longrepr_of := sample_longrepr |}.

(** The same test under another node id. *)
Definition sample_test_named (w : World) (environ : gmap string string)
    (node : string) : TestCase :=
  {| tc_nodeid := node;
     tc_setup := tc_setup (sample_test w environ);
     tc_call := sample_body w;
     tc_finalizers := ret tt;
     tc_ambient := sample_ambient |}.

Definition sample_suite (w : World) (environ : gmap string string)
  : list TestCase :=
  [ sample_test_named w environ
      "tests/test_buy_gold_happy_amount.py::test_buy_gold_happy_path_by_amount";
    sample_test_named w environ
      "tests/test_buy_gold_happy_grams.py::test_buy_gold_happy_path_by_grams";
    sample_test_named w environ
      "tests/test_buy_gold_negative_insufficient_funds.py::test_buy_gold_negative_insufficient_funds" ].

(** The outcomes and error texts a session leaves in the results. *)
Definition session_outcomes (w : World) (environ : gmap string string)
  : option (list (Outcome * option string)) :=
  let st := fst (run_tests (codec := MiniJson.codec) w (sample_suite w environ)
                   (pytest_configure sample_ambient fresh_state) []) in
  map (fun r => (r_outcome r, r_error r)) <$> (_results <$> _PYTEST_CONFIG st).

(** The totals of the summary file a session writes, read back from it. *)
Definition session_totals (w : World) (environ : gmap string string)
  : option json :=
  match fst (run_session (codec := MiniJson.codec) w sample_ambient
               (sample_suite w environ) sample_ambient 0 fresh_state) with
  | Ok st =>
      match files (fs st) !! run_file sample_config with
      | Some txt =>
          match MiniJson.loads txt with
          | Some (JObj kvs) => snd <$> List.find (fun kv => String.eqb (fst kv) "totals") kvs
          | _ => None
          end
      | None => None
      end
  | Err _ => None
  end.

End Samples.

(* ===================================================================== *)
(** * Time stamps                                                         *)
(* ===================================================================== *)

(** The fields of the [datetime] that [_now_ist()] returns; its time zone is
    the fixed offset of five hours and thirty minutes. *)
Record DateTime : Type := mkDateTime {
  dt_year : nat;
  dt_month : nat;
  dt_day : nat;
  dt_hour : nat;
  dt_minute : nat;
  dt_second : nat
}.

(** A natural number in decimal. *)
Definition digits (n : nat) : string := NilZero.string_of_uint (Nat.to_uint n).

(** The formats [%02d] and [%04d]. *)
Definition pad2 (n : nat) : string :=
  if (n <? 10)%nat then "0" +:+ digits n else digits n.

Definition pad4 (n : nat) : string :=
  if (n <? 10)%nat then "000" +:+ digits n
  else if (n <? 100)%nat then "00" +:+ digits n
  else if (n <? 1000)%nat then "0" +:+ digits n
  else digits n.

(** [_now_iso_ist()] at the instant [dt]:
    [dt.isoformat(timespec="seconds")]. *)
Definition iso_ist (dt : DateTime) : string :=
  pad4 (dt_year dt) +:+ "-" +:+ pad2 (dt_month dt) +:+ "-" +:+ pad2 (dt_day dt)
  +:+ "T" +:+ pad2 (dt_hour dt) +:+ ":" +:+ pad2 (dt_minute dt) +:+ ":"
  +:+ pad2 (dt_second dt) +:+ "+05:30".

(** [_run_file_stamp()] at the instant [dt]:
    [dt.strftime("%Y-%m-%dT%H%M%S%z")].  The C library writes [%Y] without
    padding. *)
Definition file_stamp_ist (dt : DateTime) : string :=
  digits (dt_year dt) +:+ "-" +:+ pad2 (dt_month dt) +:+ "-" +:+ pad2 (dt_day dt)
  +:+ "T" +:+ pad2 (dt_hour dt) +:+ pad2 (dt_minute dt) +:+ pad2 (dt_second dt)
  +:+ "+0530".

(** The character [c] occurs in [s]. *)
Fixpoint occurs (c : ascii) (s : string) : bool :=
  match s with
  | EmptyString => false
  | String a s' => Ascii.eqb c a || occurs c s'
  end.

(** [s] without the occurrences of [c]. *)
Fixpoint remove_char (c : ascii) (s : string) : string :=
  match s with
  | EmptyString => EmptyString
  | String a s' => if Ascii.eqb c a then remove_char c s' else String a (remove_char c s')
  end.

(** The characters [_safe_filename] replaces. *)
Definition unsafe_chars : list ascii :=
  ["/"%char; "\"%char; "["%char; "]"%char; " "%char; ":"%char].

(** No character that [_safe_filename] replaces occurs in [s]. *)
Definition clean (s : string) : Prop :=
  Forall (fun c => occurs c s = false) unsafe_chars.

(** The process reads at the instant [dt]. *)
Definition ambient_at (dt : DateTime) (amb : Ambient) : Ambient :=
  {| now_iso := iso_ist dt;
     file_stamp := file_stamp_ist dt;
     environ := environ amb;
     python_version := python_version amb;
     os_platform := os_platform amb;
     cwd := cwd amb |}.

(* ===================================================================== *)
(** * More of the report store                                            *)
(* ===================================================================== *)

Section MoreStore.
Context {codec : JsonCodec}.

(** Several calls of [_append_jsonl] on one file. *)
Definition append_lines (fs : FileSystem) (file_path : Path)
    (records : list json) : FileSystem :=
  fold_left (fun fs' r => _append_jsonl fs' file_path r) records fs.
End MoreStore.

(* ===================================================================== *)
(** * More on the fixtures                                                *)
(* ===================================================================== *)

(** [s] starts with a white-space character. *)
Definition starts_with_space (s : string) : bool :=
  negb (space_width s =? 0)%nat.

(** [s] is one white-space character. *)
Definition one_space (s : string) : bool :=
  negb (space_width s =? 0)%nat && (space_width s =? String.length s)%nat.

(** [s] ends with a white-space character. *)
Fixpoint ends_with_space (s : string) : bool :=
  match s with
  | EmptyString => false
  | String _ s' => one_space s || ends_with_space s'
  end.

(** [out] is [raw] without the white space around it: white space only was
    removed, and [out] neither starts nor ends with white space. *)
Definition stripped_of (raw out : string) : Prop :=
  (exists pre post, all_space pre = true /\ all_space post = true
                    /\ raw = pre +:+ out +:+ post)
  /\ starts_with_space out = false
  /\ ends_with_space out = false.

(** The page actions of [logged_in_page] after its two checks, in order:
    the navigation and the four steps of [LoginPage.login]. *)
Definition fixture_actions (url : string) (creds : Credentials)
  : list PageAction :=
  [ Goto url;
    Fill (testid "login-username") (username creds);
    Fill (testid "login-password") (password creds);
    Click (testid "login-submit");
    WaitForLoadState "networkidle" ].

(** The actions that are attempted when [acts] are done one after the
    other, up to and including the first that fails, and its error. *)
Fixpoint attempt (w : World) (pg : Page) (acts : list PageAction)
  : list PageAction * option string :=
  match acts with
  | [] => ([], None)
  | a :: rest =>
      match page_action w pg a with
      | Ok _ => let '(done, e) := attempt w pg rest in (a :: done, e)
      | Err e => ([a], Some e)
      end
  end.

(* ===================================================================== *)
(** * More on the hooks                                                   *)
(* ===================================================================== *)

(** The reports of a test attached one after the other. *)
Definition attach_reports (item : Item) (reps : list TestReport) : Item :=
  fold_left pytest_runtest_makereport reps item.

(** The last report of [reps] for the phase [ph]. *)
Fixpoint last_report (ph : string) (reps : list TestReport) : option TestReport :=
  match reps with
  | [] => None
  | r :: rest =>
      match last_report ph rest with
      | Some r' => Some r'
      | None => if bool_decide (when r = ph) then Some r else None
      end
  end.

(** The durations of the reports that exist and have one, in order. *)
Fixpoint present_durations (reps : list (option TestReport)) : list spec_float :=
  match reps with
  | [] => []
  | Some r :: rest =>
      match duration r with
      | Some d => d :: present_durations rest
      | None => present_durations rest
      end
  | None :: rest => present_durations rest
  end.

(** [k] is an integer nearest to [q], the even one when [q] lies half way
    between two integers. *)
Definition nearest_even (q : Q) (k : Z) : Prop :=
  (Qabs (q - inject_Z k) <= 1 # 2)%Q
  /\ ((Qabs (q - inject_Z k) == 1 # 2)%Q -> Z.even k = true).

(** The failure text the runner's representation of a raised phase gives. *)
Definition failure_text (w : World) (r : Result unit) : option string :=
  match r with
  | Raised _ =>
      Some (match longrepr_of w r with
            | Str s => s
            | StrRaises => placeholder
            end)
  | _ => None
  end.

(** The phase whose result decides the record of a test: the call phase
    when setup passed, the setup phase otherwise. *)
Definition decisive_result (tc : TestCase) (t : list Event) : Result unit :=
  match tc_setup tc t with
  | (Returned pg, t1) => fst (tc_call tc pg t1)
  | (r, _) => forget r
  end.

Section SessionRecords.
Variable w : World.

(** The trace after the whole protocol of one test. *)
Definition trace_after (tc : TestCase) (t : list Event) : list Event :=
  snd (tc_finalizers tc (snd (run_setup_call w tc t))).

(** The records of the tests of a session, in order. *)
Fixpoint session_records (config : Config) (tcs : list TestCase)
    (t : list Event) : list TestExecutionRecord :=
  match tcs with
  | [] => []
  | tc :: rest =>
      build_record (tc_ambient tc) config (fst (run_setup_call w tc t))
      :: session_records config rest (trace_after tc t)
  end.
End SessionRecords.

(* ===================================================================== *)
(** * [pw_config.py]                                                      *)
(* ===================================================================== *)

(** [str.lower] on the ASCII letters. *)
Definition lower_char (c : ascii) : ascii :=
  let n := nat_of_ascii c in
  if (65 <=? n)%nat && (n <=? 90)%nat then ascii_of_nat (n + 32) else c.

Fixpoint lower (s : string) : string :=
  match s with
  | EmptyString => EmptyString
  | String c s' => String (lower_char c) (lower s')
  end.

(** [PW["headless"]] *)
Definition PW_headless (environ : gmap string string) : bool :=
  bool_decide (lower (getenv environ "HEADLESS" "true") = "true").

(** [a] is the lower-case letter [l] or its capital. *)
Definition letter_of (l a : ascii) : bool :=
  Ascii.eqb a l || (nat_of_ascii a + 32 =? nat_of_ascii l)%nat.

(** [v] is the word true in any mix of capitals and small letters. *)
Definition is_true_word (v : string) : bool :=
  match v with
  | String a (String b (String c (String d EmptyString))) =>
      letter_of "t" a && letter_of "r" b && letter_of "u" c && letter_of "e" d
  | _ => false
  end.

(* ===================================================================== *)
(** * Page objects and tests                                              *)
(* ===================================================================== *)

(** What the page answers when a locator is read:
    [locator.wait_for(state=...)] and [locator.inner_text()]. *)
Record PageReads : Type := mkReads {
  wait_for : Page -> string -> string -> Exc unit;
  inner_text : Page -> string -> Exc string
}.

(** [needle in hay] on strings. *)
Fixpoint contains (needle hay : string) : bool :=
  String.prefix needle hay
  || match hay with
     | EmptyString => false
     | String _ hay' => contains needle hay'
     end.

(** A failed [assert]. *)
Definition assertion_error : string := "AssertionError".

Module BuyGoldPage.
Section Methods.
Variable w : World.
Variable rd : PageReads.
Variable pg : Page.

Definition open : M unit :=
  page_do w pg (Click (testid "nav-buy-gold")) ;;;
  page_do w pg (WaitForLoadState "networkidle").

Definition buy_by_amount (amount : string) : M unit :=
  page_do w pg (Fill (testid "buy-amount") amount).

Definition buy_by_grams (grams : string) : M unit :=
  page_do w pg (Fill (testid "buy-grams") grams).

Definition confirm : M unit :=
  page_do w pg (Click (testid "buy-confirm")).

Definition expect_error_contains (text : string) : M unit :=
  lift_exc (wait_for rd pg (testid "buy-error") "visible") ;;;
  shown <- lift_exc (inner_text rd pg (testid "buy-error")) ;;
  if contains text shown then ret tt else raise assertion_error.
End Methods.
End BuyGoldPage.

Module OrderSuccessPage.
Section Methods.
Variable rd : PageReads.
Variable pg : Page.

Definition expect_success : M unit :=
  lift_exc (wait_for rd pg (testid "order-success-title") "visible").

Definition get_order_id : M string :=
  lift_exc (wait_for rd pg (testid "order-id") "visible") ;;;
  shown <- lift_exc (inner_text rd pg (testid "order-id")) ;;
  ret (strip shown).
End Methods.
End OrderSuccessPage.

Section Tests.
Variable w : World.
Variable rd : PageReads.

(** [test_buy_gold_happy_path_by_amount(logged_in_page)] *)
Definition test_buy_gold_happy_path_by_amount (pg : Page) : M unit :=
  BuyGoldPage.open w pg ;;;
  BuyGoldPage.buy_by_amount w pg "500000" ;;;
  BuyGoldPage.confirm w pg ;;;
  OrderSuccessPage.expect_success rd pg ;;;
  order_id <- OrderSuccessPage.get_order_id rd pg ;;
  if bool_decide (order_id <> "") then ret tt else raise assertion_error.

(** [test_buy_gold_happy_path_by_grams(logged_in_page)] *)
Definition test_buy_gold_happy_path_by_grams (pg : Page) : M unit :=
  BuyGoldPage.open w pg ;;;
  BuyGoldPage.buy_by_grams w pg "0.5" ;;;
  BuyGoldPage.confirm w pg ;;;
  OrderSuccessPage.expect_success rd pg ;;;
  order_id <- OrderSuccessPage.get_order_id rd pg ;;
  if bool_decide (order_id <> "") then ret tt else raise assertion_error.

(** [test_buy_gold_negative_insufficient_funds(logged_in_page)] *)
Definition test_buy_gold_negative_insufficient_funds (pg : Page) : M unit :=
  BuyGoldPage.open w pg ;;;
  BuyGoldPage.buy_by_amount w pg "999999999999" ;;;
  BuyGoldPage.confirm w pg ;;;
  BuyGoldPage.expect_error_contains rd pg "insufficient".
End Tests.

(** The page actions of a purchase up to the confirmation, for the input
    with the test id [field] filled with [value]. *)
Definition purchase_actions (field value : string) : list PageAction :=
  [ Click (testid "nav-buy-gold");
    WaitForLoadState "networkidle";
    Fill (testid field) value;
    Click (testid "buy-confirm") ].

(** Every action of [acts] succeeds on the page. *)
Definition all_ok (w : World) (pg : Page) (acts : list PageAction) : Prop :=
  Forall (fun a => is_ok (page_action w pg a) = true) acts.

(** How the receipt part of a happy-path test ends, read off the answers
    of the page. *)
Definition receipt_verdict (rd : PageReads) (pg : Page) : Result unit :=
  match wait_for rd pg (testid "order-success-title") "visible" with
  | Err e => Raised e
  | Ok _ =>
      match wait_for rd pg (testid "order-id") "visible" with
      | Err e => Raised e
      | Ok _ =>
          match inner_text rd pg (testid "order-id") with
          | Err e => Raised e
          | Ok shown =>
              if all_space shown then Raised assertion_error else Returned tt
          end
      end
  end.

Module PageSamples.

(** The application rejects the purchase and says so with a capital. *)
Definition reads_capital : PageReads :=
  {| wait_for := fun _ _ _ => Ok tt;
     inner_text := fun _ _ => Ok "Insufficient funds" |}.

Definition reads_lower : PageReads :=
  {| wait_for := fun _ _ _ => Ok tt;
     inner_text := fun _ _ => Ok "Order failed: insufficient balance" |}.

(** The receipt shows an order id with spaces around it. *)
Definition reads_receipt : PageReads :=
  {| wait_for := fun _ _ _ => Ok tt;
     inner_text := fun _ _ => Ok "  ORD-1042  " |}.

(** The three tests of the suite on the authenticated page. *)
Definition suite (w : World) (rd : PageReads) (environ : gmap string string)
  : list TestCase :=
  [ {| tc_nodeid := "tests/test_buy_gold_happy_amount.py::test_buy_gold_happy_path_by_amount";
       tc_setup := logged_in_page w Samples.sample_page (base_url environ)
                     (credentials environ);
       tc_call := test_buy_gold_happy_path_by_amount w rd;
       tc_finalizers := ret tt;
       tc_ambient := Samples.sample_ambient |};
    {| tc_nodeid := "tests/test_buy_gold_happy_grams.py::test_buy_gold_happy_path_by_grams";
       tc_setup := logged_in_page w Samples.sample_page (base_url environ)
                     (credentials environ);
       tc_call := test_buy_gold_happy_path_by_grams w rd;
       tc_finalizers := ret tt;
       tc_ambient := Samples.sample_ambient |};
    {| tc_nodeid := "tests/test_buy_gold_negative_insufficient_funds.py::test_buy_gold_negative_insufficient_funds";
       tc_setup := logged_in_page w Samples.sample_page (base_url environ)
                     (credentials environ);
       tc_call := test_buy_gold_negative_insufficient_funds w rd;
       tc_finalizers := ret tt;
       tc_ambient := Samples.sample_ambient |} ].

Definition outcomes (w : World) (rd : PageReads) (environ : gmap string string)
  : option (list (Outcome * option string)) :=
  let st := fst (run_tests (codec := MiniJson.codec) w (suite w rd environ)
                   (pytest_configure Samples.sample_ambient Samples.fresh_state) []) in
  map (fun r => (r_outcome r, r_error r)) <$> (_results <$> _PYTEST_CONFIG st).

End PageSamples.

(* ===================================================================== *)
(** * Sessions one after the other                                        *)
(* ===================================================================== *)

(** The config as [pytest_configure] leaves it. *)
Definition configured (amb : Ambient) : Config :=
  {| _run_started_at := now_iso amb;
     _run_stamp := file_stamp amb;
     _run_id := "run_" +:+ file_stamp amb;
     _results := [];
     _reports_dir := path_join (cwd amb) "reports";
     _reports_runs_dir := path_join (path_join (cwd amb) "reports") "runs";
     _reports_tests_dir := path_join (path_join (cwd amb) "reports") "tests";
     _reports_history_jsonl :=
       path_join (path_join (cwd amb) "reports") "history.jsonl" |}.

(** The records of [records] that go to the per-test file [p]. *)
Definition records_for (config : Config) (p : Path)
    (records : list TestExecutionRecord) : list json :=
  map record_to_json
    (filter (fun r => per_test_file config (r_nodeid r) = p) records).

(* ===================================================================== *)
(** * The reference codec loads back what it dumps                        *)
(* ===================================================================== *)

#[local] Arguments String.append !s1 s2 : simpl nomatch.

Lemma append_assoc (a b c : string) : (a +:+ b) +:+ c = a +:+ (b +:+ c).
Proof. induction a as [|x a IH]; [reflexivity|]. simpl. f_equal. exact IH. Qed.

Lemma append_nil_r (a : string) : a +:+ EmptyString = a.
Proof. induction a as [|x a IH]; [reflexivity|]. simpl. f_equal. exact IH. Qed.

Lemma length_append (a b : string) :
  String.length (a +:+ b) = String.length a + String.length b.
Proof. induction a as [|x a IH]; [reflexivity|]. simpl. f_equal. exact IH. Qed.

Module MiniJsonFacts.
Import MiniJson.

Lemma print_list (l : list json) :
  print (JList l) = "[" +:+ print_items l +:+ "]".
Proof. destruct l; reflexivity. Qed.

Lemma print_obj (kvs : list (string * json)) :
  print (JObj kvs) = "{" +:+ print_fields kvs +:+ "}".
Proof. destruct kvs; reflexivity. Qed.

Lemma jsize_list (l : list json) : jsize (JList l) = S (lsize l).
Proof. destruct l; reflexivity. Qed.

Lemma jsize_obj (kvs : list (string * json)) : jsize (JObj kvs) = S (fsize kvs).
Proof. destruct kvs; reflexivity. Qed.

(** ** String literals *)

Lemma read_string_escape (s rest : string) :
  read_string (escape s +:+ String dq rest) = Some (s, rest).
Proof.
  induction s as [|c s IH]; [reflexivity|].
  simpl escape.
  destruct (Ascii.eqb c dq) eqn:Hq; simpl.
  - apply Ascii.eqb_eq in Hq. subst c. simpl. rewrite IH. reflexivity.
  - destruct (Ascii.eqb c bs) eqn:Hb; simpl.
    + apply Ascii.eqb_eq in Hb. subst c. simpl. rewrite IH. reflexivity.
    + rewrite Hq, Hb, IH. reflexivity.
Qed.

(** ** Integer literals *)

Lemma span_num_uint (d : Decimal.uint) (rest : string) :
  safe rest ->
  span_num (NilEmpty.string_of_uint d +:+ rest)
  = (NilEmpty.string_of_uint d, rest).
Proof.
  intros Hs. induction d; simpl; try (rewrite IHd; reflexivity).
  destruct rest as [|c r]; [reflexivity|]. simpl in *. rewrite Hs. reflexivity.
Qed.

Lemma span_num_print_int (z : Z) (rest : string) :
  safe rest -> span_num (print_int z +:+ rest) = (print_int z, rest).
Proof.
  intros Hs. unfold print_int, Z.to_int.
  destruct z as [|p|p]; simpl.
  - destruct rest as [|c r]; [reflexivity|]. simpl in *. rewrite Hs. reflexivity.
  - unfold NilZero.string_of_uint.
    destruct (Pos.to_uint p) eqn:E;
      try (rewrite <- E; apply span_num_uint; assumption).
    destruct (Unsigned.to_uint_nonnil p E).
  - unfold NilZero.string_of_uint.
    destruct (Pos.to_uint p) eqn:E;
      try (rewrite <- E; rewrite span_num_uint by assumption; reflexivity).
    destruct (Unsigned.to_uint_nonnil p E).
Qed.

Lemma parse_int_print_int (z : Z) (rest : string) :
  safe rest -> parse_int (print_int z +:+ rest) = Some (z, rest).
Proof.
  intros Hs. unfold parse_int. rewrite span_num_print_int by assumption.
  unfold print_int. rewrite NilZero.isi.
  - rewrite DecimalZ.of_to. reflexivity.
  - destruct z as [|p|p]; simpl; try discriminate.
    intros [= E]. exact (Unsigned.to_uint_nonnil p E).
  - destruct z as [|p|p]; simpl; try discriminate.
    intros [= E]. exact (Unsigned.to_uint_nonnil p E).
Qed.

(** ** The first character of a printed value *)

Lemma starts_num_open (s : string) : starts_num s -> starts_open s.
Proof.
  destruct s as [|c s]; [contradiction|]. simpl.
  destruct c as [[] [] [] [] [] [] [] []]; intros H;
    solve [discriminate H | split; reflexivity].
Qed.

Lemma starts_num_app (a b : string) : starts_num a -> starts_num (a +:+ b).
Proof. destruct a; [contradiction|]. simpl. trivial. Qed.

Lemma starts_open_app (a b : string) : starts_open a -> starts_open (a +:+ b).
Proof. destruct a; [contradiction|]. simpl. trivial. Qed.

Lemma starts_num_uint (d : Decimal.uint) :
  d <> Decimal.Nil -> starts_num (NilEmpty.string_of_uint d).
Proof. destruct d; intros H; try reflexivity. contradiction. Qed.

Lemma starts_num_print_int (z : Z) : starts_num (print_int z).
Proof.
  unfold print_int, Z.to_int.
  destruct z as [|p|p]; try reflexivity.
  simpl. unfold NilZero.string_of_uint.
  destruct (Pos.to_uint p); reflexivity.
Qed.

Lemma starts_num_print_number (n : jnumber) : starts_num (print_number n).
Proof. destruct n; apply starts_num_app, starts_num_print_int. Qed.

Lemma starts_open_print (v : json) : starts_open (print v).
Proof.
  destruct v as [|[]|n|s|l|kvs]; try (split; reflexivity).
  apply starts_num_open, starts_num_print_number.
Qed.

Lemma starts_open_items (x : json) (l : list json) :
  starts_open (print_items (x :: l)).
Proof.
  destruct l; simpl; [|apply starts_open_app]; apply starts_open_print.
Qed.

Lemma expect_close_open (s : string) :
  starts_open s -> expect "]" s = None /\ expect "}" s = None.
Proof.
  destruct s as [|c s]; [contradiction|]. intros [H1 H2]. cbn [expect].
  rewrite H1, H2. split; reflexivity.
Qed.

(** A text that starts like an integer is parsed as a number. *)
Lemma parse_value_number (n : nat) (s : string) :
  starts_num s -> parse_value (S n) s = parse_number s.
Proof.
  destruct s as [|c s]; [contradiction|]. simpl starts_num.
  destruct c as [[] [] [] [] [] [] [] []]; intros H;
    solve [discriminate H | reflexivity].
Qed.

Lemma float_of_code_code (x : spec_float) :
  float_of_code (fst (float_code x)) (snd (float_code x)) = x.
Proof. destruct x as [[]|[]| |[] m e]; reflexivity. Qed.

Lemma parse_number_print (m : jnumber) (rest : string) :
  safe rest ->
  parse_number (print_number m +:+ rest)
  = Some (JNum m, rest).
Proof.
  intros Hs. unfold parse_number, print_number.
  destruct m as [z|x].
  - rewrite !append_assoc.
    rewrite parse_int_print_int by reflexivity.
    change ("e" +:+ print_int 0 +:+ rest)
      with (String "e" (print_int 0 +:+ rest)).
    cbn [expect]. change (Ascii.eqb "e" "e") with true. cbv iota.
    rewrite parse_int_print_int by assumption.
    rewrite Z.pow_0_r, Z.mul_1_r. reflexivity.
  - rewrite !append_assoc.
    rewrite parse_int_print_int by reflexivity.
    change ("p" +:+ print_int (snd (float_code x)) +:+ rest)
      with (String "p" (print_int (snd (float_code x)) +:+ rest)).
    cbn [expect]. change (Ascii.eqb "e" "p") with false.
    change (Ascii.eqb "p" "p") with true. cbv iota.
    rewrite parse_int_print_int by assumption.
    rewrite float_of_code_code. reflexivity.
Qed.

Lemma jsize_pos (v : json) : 1 <= jsize v.
Proof. destruct v; simpl; lia. Qed.

Lemma parse_string_print (n : nat) (s rest : string) :
  parse_value (S n) (print_string s +:+ rest) = Some (JStr s, rest).
Proof.
  unfold print_string.
  change (String dq (escape s +:+ String dq "") +:+ rest)
    with (String dq ((escape s +:+ String dq "") +:+ rest)).
  rewrite append_assoc.
  change (String dq "" +:+ rest) with (String dq rest).
  cbn [parse_value].
  change (Ascii.eqb dq "n") with false.
  change (Ascii.eqb dq "t") with false.
  change (Ascii.eqb dq "f") with false.
  change (Ascii.eqb dq dq) with true.
  cbv iota. rewrite read_string_escape. reflexivity.
Qed.

(** ** The parser inverts the printer, given enough fuel *)

Lemma parse_print_fuel (n : nat) :
  (forall v rest, jsize v <= n -> safe rest ->
     parse_value n (print v +:+ rest) = Some (v, rest))
  /\ (forall x l rest, lsize (x :: l) <= n ->
        parse_items n (print_items (x :: l) +:+ String "]" rest)
        = Some (x :: l, rest))
  /\ (forall k x l rest, fsize ((k, x) :: l) <= n ->
        parse_fields n (print_fields ((k, x) :: l) +:+ String "}" rest)
        = Some ((k, x) :: l, rest)).
Proof.
  induction n as [|n (IHv & IHl & IHf)].
  { repeat split; intros.
    - pose proof (jsize_pos v). lia.
    - simpl in *. lia.
    - simpl in *. lia. }
  repeat split.
  - intros v rest Hsz Hs.
    destruct v as [|[]|m|s|l|kvs]; try reflexivity.
    + rewrite parse_value_number
        by (apply starts_num_app, starts_num_print_number).
      apply parse_number_print. assumption.
    + apply parse_string_print.
    + destruct l as [|x l]; [reflexivity|].
      rewrite print_list, jsize_list in *.
      change ("[" +:+ print_items (x :: l) +:+ "]")
        with (String "[" (print_items (x :: l) +:+ "]")).
      change (String "[" (print_items (x :: l) +:+ "]") +:+ rest)
        with (String "[" ((print_items (x :: l) +:+ "]") +:+ rest)).
      rewrite append_assoc.
      change ("]" +:+ rest) with (String "]" rest).
      cbn [parse_value].
      change (Ascii.eqb "[" "n") with false.
      change (Ascii.eqb "[" "t") with false.
      change (Ascii.eqb "[" "f") with false.
      change (Ascii.eqb "[" dq) with false.
      change (Ascii.eqb "[" "[") with true.
      cbv iota.
      destruct (expect_close_open (print_items (x :: l) +:+ String "]" rest))
        as [-> _]; [apply starts_open_app, starts_open_items|].
      rewrite IHl by lia. reflexivity.
    + destruct kvs as [|[k x] l]; [reflexivity|].
      rewrite print_obj, jsize_obj in *.
      change ("{" +:+ print_fields ((k, x) :: l) +:+ "}")
        with (String "{" (print_fields ((k, x) :: l) +:+ "}")).
      change (String "{" (print_fields ((k, x) :: l) +:+ "}") +:+ rest)
        with (String "{" ((print_fields ((k, x) :: l) +:+ "}") +:+ rest)).
      rewrite append_assoc.
      change ("}" +:+ rest) with (String "}" rest).
      cbn [parse_value].
      change (Ascii.eqb "{" "n") with false.
      change (Ascii.eqb "{" "t") with false.
      change (Ascii.eqb "{" "f") with false.
      change (Ascii.eqb "{" dq) with false.
      change (Ascii.eqb "{" "[") with false.
      change (Ascii.eqb "{" "{") with true.
      cbv iota.
      destruct (expect_close_open (print_fields ((k, x) :: l) +:+ String "}" rest))
        as [_ ->].
      { destruct l as [|[] ?]; split; reflexivity. }
      rewrite IHf by lia. reflexivity.
  - intros x l rest Hsz. cbn [parse_items].
    destruct l as [|y l].
    + cbn [print_items]. cbn [lsize] in Hsz.
      rewrite IHv by (try reflexivity; lia).
      change (Ascii.eqb "]" ",") with false.
      change (Ascii.eqb "]" "]") with true. reflexivity.
    + change (print_items (x :: y :: l))
        with (print x +:+ "," +:+ print_items (y :: l)).
      rewrite !append_assoc.
      change ("," +:+ print_items (y :: l) +:+ String "]" rest)
        with (String "," (print_items (y :: l) +:+ String "]" rest)).
      cbn [lsize] in Hsz.
      rewrite IHv by (try reflexivity; lia).
      change (Ascii.eqb "," ",") with true. cbv iota.
      rewrite IHl by (cbn [lsize]; lia). reflexivity.
  - intros k x l rest Hsz. cbn [parse_fields].
    assert (Hhead : forall tail,
               print_string k +:+ ":" +:+ tail
               = String dq (escape k +:+ String dq (String ":" tail))).
    { intros tail. unfold print_string.
      change (String dq (escape k +:+ String dq "") +:+ ":" +:+ tail)
        with (String dq ((escape k +:+ String dq "") +:+ ":" +:+ tail)).
      rewrite append_assoc. reflexivity. }
    destruct l as [|[k' y] l].
    + cbn [print_fields]. rewrite !append_assoc, Hhead.
      cbn [expect]. change (Ascii.eqb dq dq) with true. cbv iota.
      rewrite read_string_escape.
      cbn [expect]. change (Ascii.eqb ":" ":") with true. cbv iota.
      cbn [fsize] in Hsz.
      rewrite IHv by (try reflexivity; lia).
      change (Ascii.eqb "}" ",") with false.
      change (Ascii.eqb "}" "}") with true. reflexivity.
    + change (print_fields ((k, x) :: (k', y) :: l))
        with (print_string k +:+ ":" +:+ print x +:+ ","
              +:+ print_fields ((k', y) :: l)).
      rewrite !append_assoc, Hhead.
      cbn [expect]. change (Ascii.eqb dq dq) with true. cbv iota.
      rewrite read_string_escape.
      cbn [expect]. change (Ascii.eqb ":" ":") with true. cbv iota.
      change ("," +:+ print_fields ((k', y) :: l) +:+ String "}" rest)
        with (String "," (print_fields ((k', y) :: l) +:+ String "}" rest)).
      cbn [fsize] in Hsz.
      rewrite IHv by (try reflexivity; lia).
      change (Ascii.eqb "," ",") with true. cbv iota.
      rewrite IHf by (cbn [fsize]; lia). reflexivity.
Qed.

Lemma length_starts_num (s : string) : starts_num s -> 1 <= String.length s.
Proof. destruct s; [contradiction|]. simpl. lia. Qed.

(** The fuel a value needs is bounded by the length of its text. *)
Lemma jsize_le_length (n : nat) :
  (forall v, jsize v <= n -> jsize v <= String.length (print v))
  /\ (forall l, lsize l <= n -> lsize l <= String.length (print_items l) + 1)
  /\ (forall l, fsize l <= n -> fsize l <= String.length (print_fields l) + 1).
Proof.
  induction n as [|n (IHv & IHl & IHf)].
  { repeat split.
    - intros v H. pose proof (jsize_pos v). lia.
    - intros [|x l] H; simpl in *; lia.
    - intros [|[k x] l] H; simpl in *; lia. }
  repeat split.
  - intros v Hsz.
    destruct v as [|[]|m|s|l|kvs]; try (simpl; lia).
    + simpl jsize. apply length_starts_num, starts_num_print_number.
    + rewrite print_list, jsize_list in *.
      rewrite !length_append.
      change (String.length "[") with 1. change (String.length "]") with 1.
      specialize (IHl l). lia.
    + rewrite print_obj, jsize_obj in *.
      rewrite !length_append.
      change (String.length "{") with 1. change (String.length "}") with 1.
      specialize (IHf kvs). lia.
  - intros [|x [|y l]] Hsz; [simpl; lia| |].
    + cbn [lsize print_items] in *. specialize (IHv x). lia.
    + change (print_items (x :: y :: l))
        with (print x +:+ "," +:+ print_items (y :: l)).
      rewrite !length_append.
      change (String.length ",") with 1.
      change (lsize (x :: y :: l)) with (S (jsize x + lsize (y :: l))) in *.
      specialize (IHv x). specialize (IHl (y :: l)). lia.
  - intros [|[k x] [|[k' y] l]] Hsz; [simpl; lia| |].
    + cbn [fsize print_fields] in *.
      rewrite !length_append. specialize (IHv x). lia.
    + change (print_fields ((k, x) :: (k', y) :: l))
        with (print_string k +:+ ":" +:+ print x +:+ ","
              +:+ print_fields ((k', y) :: l)).
      rewrite !length_append.
      change (String.length ",") with 1.
      change (fsize ((k, x) :: (k', y) :: l))
        with (S (jsize x + fsize ((k', y) :: l))) in *.
      specialize (IHv x). specialize (IHf ((k', y) :: l)). lia.
Qed.

(** The reference codec satisfies the contract of the [json] module. *)
Lemma loads_dumps : codec_law codec.
Proof.
  intros indent v. simpl. unfold loads, dumps.
  assert (Hsz : jsize v <= S (String.length (print v))).
  { pose proof (proj1 (jsize_le_length (jsize v)) v (le_n _)). lia. }
  pose proof (proj1 (parse_print_fuel (S (String.length (print v))))
                v EmptyString Hsz I) as H.
  rewrite append_nil_r in H. rewrite H. reflexivity.
Qed.
End MiniJsonFacts.

(* ===================================================================== *)
(** * Outcome reduction                                                   *)
(* ===================================================================== *)

Lemma final_outcome_spec (rs rc rt : option TestReport) :
  final_outcome rs rc rt =
  spec_reduction (_phase_outcome rs) (_phase_outcome rc) (_phase_outcome rt).
Proof.
  unfold final_outcome.
  destruct (_phase_outcome rs) as [[]|], (_phase_outcome rc) as [[]|],
    (_phase_outcome rt) as [[]|]; reflexivity.
Qed.

(** C1: the final outcome is the first-match reduction of the three phase
    outcomes (setup failed, call failed, teardown failed, setup or call
    skipped, otherwise passed); the three sample triples of the
    specification reduce to failed, skipped and passed. *)
Theorem C1_reduction_first_match :
  (forall rs rc rt : option TestReport,
     final_outcome rs rc rt =
     spec_reduction (_phase_outcome rs) (_phase_outcome rc) (_phase_outcome rt))
  /\ (forall w1 w2 w3 d1 d2 d3 l1 l2 l3,
        final_outcome (Some (mkReport w1 (Some passed) d1 l1))
                      (Some (mkReport w2 (Some failed) d2 l2))
                      (Some (mkReport w3 (Some passed) d3 l3)) = failed)
  /\ (forall w1 d1 l1,
        final_outcome (Some (mkReport w1 (Some skipped) d1 l1)) None None = skipped)
  /\ (forall w1 w2 w3 d1 d2 d3 l1 l2 l3,
        final_outcome (Some (mkReport w1 (Some passed) d1 l1))
                      (Some (mkReport w2 (Some passed) d2 l2))
                      (Some (mkReport w3 (Some passed) d3 l3)) = passed).
Proof.
  split; [exact final_outcome_spec|].
  repeat split; intros; reflexivity.
Qed.

(** On three reports the reduction puts a failed teardown before a skip:
    with setup or call skipped the result is skipped exactly when none of
    the three reports is failed. *)
Lemma skip_unless_a_report_failed (rs rc rt : option TestReport) :
  _phase_outcome rs = Some skipped \/ _phase_outcome rc = Some skipped ->
  final_outcome rs rc rt =
    if is_outcome (_phase_outcome rs) failed
       || is_outcome (_phase_outcome rc) failed
       || is_outcome (_phase_outcome rt) failed
    then failed else skipped.
Proof.
  intros H. unfold final_outcome.
  destruct (_phase_outcome rs) as [[]|], (_phase_outcome rc) as [[]|],
    (_phase_outcome rt) as [[]|]; simpl; try reflexivity;
    destruct H; discriminate.
Qed.

(* ===================================================================== *)
(** * The error text of a record                                          *)
(* ===================================================================== *)

Lemma first_failed_spec (rs rc rt : option TestReport) :
  first_failed [rc; rs; rt] = spec_error_detail rs rc rt.
Proof.
  unfold spec_error_detail, stringify, placeholder. simpl.
  destruct rc as [c|], rs as [s|], rt as [t|]; simpl;
    repeat match goal with
           | |- context [is_outcome ?x failed] => destruct (is_outcome x failed)
           end; reflexivity.
Qed.

Lemma final_failed_iff (rs rc rt : option TestReport) :
  final_outcome rs rc rt = failed <->
  is_Some (spec_error_detail rs rc rt).
Proof.
  rewrite final_outcome_spec. unfold spec_error_detail.
  destruct rs as [s|], rc as [c|], rt as [t|]; simpl;
    repeat match goal with
           | |- context [outcome ?r] => destruct (outcome r) as [[]|]
           end; simpl; split; intros H;
    try discriminate; try reflexivity; try (eexists; reflexivity);
    try (destruct H as [? H]; discriminate).
Qed.

Lemma error_text_spec (rs rc rt : option TestReport) :
  let final := final_outcome rs rc rt in
  let e := error_text final rs rc rt in
  (is_Some e <-> final = failed)
  /\ (final = failed -> e = spec_error_detail rs rc rt)
  /\ (final <> failed -> e = None).
Proof.
  cbv zeta. unfold error_text. split_and!.
  - split.
    + intros He. case_bool_decide; [assumption|]. destruct He; discriminate.
    + intros Hf. rewrite bool_decide_eq_true_2 by assumption.
      rewrite first_failed_spec. apply final_failed_iff. assumption.
  - intros Hf. rewrite bool_decide_eq_true_2 by assumption.
    apply first_failed_spec.
  - intros Hf. rewrite bool_decide_eq_false_2 by assumption. reflexivity.
Qed.

(** C9: the record of an item is built from the item's own three report
    slots: its outcome is their reduction, and its error is present exactly
    when that outcome is failed; it is then the text of the first failing
    slot in the order call, setup, teardown, and the fixed placeholder
    where stringifying the failure raises; the error entry of the written
    document is that text, or null when there is none. *)
Theorem C9_error_iff_failed (amb : Ambient) (config : Config) (item : Item) :
  let slots := default ∅ (_rep_by_phase item) in
  let rs := slots !! "setup" in
  let rc := slots !! "call" in
  let rt := slots !! "teardown" in
  let record := build_record amb config item in
  r_outcome record
  = spec_reduction (_phase_outcome rs) (_phase_outcome rc) (_phase_outcome rt)
  /\ (is_Some (r_error record) <-> r_outcome record = failed)
  /\ (r_outcome record = failed -> r_error record = spec_error_detail rs rc rt)
  /\ (r_outcome record <> failed -> r_error record = None)
  /\ json_get "error" (record_to_json record)
     = Some (json_of_option_string (r_error record))
  /\ (forall a b c : option TestReport,
        let final := final_outcome a b c in
        let e := error_text final a b c in
        (is_Some e <-> final = failed)
        /\ (final = failed -> e = spec_error_detail a b c)
        /\ (final <> failed -> e = None))
  /\ (forall w o d, stringify (mkReport w o d StrRaises)
                    = "Test failed (unable to stringify longrepr).")
  /\ (forall w o d s, stringify (mkReport w o d (Str s)) = s).
Proof.
  cbv zeta.
  set (slots := default ∅ (_rep_by_phase item)).
  destruct (error_text_spec (slots !! "setup") (slots !! "call")
              (slots !! "teardown")) as (H1 & H2 & H3).
  split_and!.
  - apply final_outcome_spec.
  - exact H1.
  - exact H2.
  - exact H3.
  - reflexivity.
  - exact error_text_spec.
  - reflexivity.
  - reflexivity.
Qed.

Example error_of_a_failed_call :
  let rs := Some (mkReport "setup" (Some passed) (Some Samples.quarter_second)
                    (Str "None")) in
  let rc := Some (mkReport "call" (Some failed) (Some Samples.quarter_second)
                    StrRaises) in
  let rt := Some (mkReport "teardown" (Some failed) None (Str "teardown broke")) in
  error_text (final_outcome rs rc rt) rs rc rt
  = Some "Test failed (unable to stringify longrepr)."
  /\ error_text (final_outcome rs None rt) rs None rt = Some "teardown broke"
  /\ error_text (final_outcome rs None None) rs None None = None.
Proof. repeat split. Qed.

(* ===================================================================== *)
(** * The run summary                                                     *)
(* ===================================================================== *)

Lemma count_outcome_filter (o : Outcome) (results : list TestExecutionRecord) :
  count_outcome o results
  = length (filter (fun r => r_outcome r = o) results).
Proof.
  induction results as [|r rest IH]; [reflexivity|].
  simpl. rewrite filter_cons. rewrite IH.
  case_bool_decide; case_decide; try contradiction; reflexivity.
Qed.

Lemma count_outcome_partition (results : list TestExecutionRecord) :
  count_outcome passed results + count_outcome failed results
  + count_outcome skipped results = length results.
Proof.
  induction results as [|r rest IH]; [reflexivity|].
  simpl. destruct (r_outcome r); simpl; lia.
Qed.

(** The document of a record holds every field of the record: two records
    with the same document are the same record. *)
Lemma record_to_json_inj (r r' : TestExecutionRecord) :
  record_to_json r = record_to_json r' -> r = r'.
Proof.
  destruct r as [a1 a2 a3 a4 a5 a6 a7 [e1 e2 e3 e4]],
           r' as [b1 b2 b3 b4 b5 b6 b7 [f1 f2 f3 f4]].
  unfold record_to_json. simpl. intros H.
  injection H as <- <- <- <- Ho <- He <- <- <- <-.
  assert (a5 = b5) as <- by (destruct a5, b5; try reflexivity; discriminate Ho).
  assert (a7 = b7) as <-.
  { destruct a7, b7; try discriminate He; [|reflexivity].
    injection He as <-. reflexivity. }
  reflexivity.
Qed.

Lemma records_to_json_inj (rs rs' : list TestExecutionRecord) :
  map record_to_json rs = map record_to_json rs' -> rs = rs'.
Proof.
  revert rs'. induction rs as [|r rs IH]; intros [|r' rs'] H;
    try discriminate; [reflexivity|].
  cbn [map] in H.
  assert (H1 : record_to_json r = record_to_json r') by congruence.
  assert (H2 : map record_to_json rs = map record_to_json rs') by congruence.
  f_equal; [apply record_to_json_inj; exact H1 | apply IH; exact H2].
Qed.

Lemma elem_of_with_parents (p q : Path) :
  p ∈ with_parents q <-> p <> [] /\ p `prefix_of` q.
Proof.
  unfold with_parents. rewrite list_elem_of_fmap. split.
  - intros (n & -> & Hn). apply elem_of_seq in Hn. split.
    + intros H. apply (f_equal (@length string)) in H.
      rewrite length_take in H. simpl in H. lia.
    + exists (drop n q). symmetry. apply take_drop.
  - intros (Hne & k & ->). exists (length p). split.
    + rewrite take_app_length. reflexivity.
    + apply elem_of_seq. rewrite length_app.
      destruct p; [contradiction|]. simpl. lia.
Qed.

Lemma parent_path_join (p : Path) (name : string) :
  parent (path_join p name) = p.
Proof. unfold parent, path_join. apply removelast_last. Qed.

(** [pytest_configure] leaves the directory of every file the hooks write:
    the one of the run summaries, the one of the per-test histories, and the
    one of the global log. *)
Lemma pytest_configure_dirs (amb : Ambient) (st : State) :
  let st1 := pytest_configure amb st in
  _PYTEST_CONFIG st1 = Some (configured amb)
  /\ parent (run_file (configured amb)) ∈ dirs (fs st1)
  /\ (forall node, parent (per_test_file (configured amb) node) ∈ dirs (fs st1))
  /\ parent (_reports_history_jsonl (configured amb)) ∈ dirs (fs st1).
Proof.
  cbv zeta. split; [reflexivity|].
  assert (Hne : forall (p : Path) (x : string), p ++ [x] <> []).
  { intros p x H. apply (f_equal (@length string)) in H.
    rewrite length_app in H. simpl in H. lia. }
  split_and!; [|intros node|];
    unfold run_file, per_test_file; simpl _reports_history_jsonl;
    rewrite parent_path_join;
    unfold pytest_configure, _ensure_dir, configured, path_join; simpl;
    rewrite !elem_of_union, !elem_of_list_to_set, !elem_of_with_parents.
  - left. right. split; [apply Hne | reflexivity].
  - right. split; [apply Hne | reflexivity].
  - right. split; [apply Hne | exists ["tests"]; reflexivity].
Qed.

(** C5: when the run ends the summary is written into the run file, whose
    directory [pytest_configure] created: the document holds under totals
    the numbers of collected records that are passed, failed and skipped and
    their total number, and under results the documents of the collected
    records in order, which determine the records; the three counts add up
    to the total; the totals are computed from the records at that moment,
    the run state keeping the records only. *)
Theorem C5_summary_totals {codec : JsonCodec}
    (amb : Ambient) (st : State) (config : Config) (exitstatus : Z) :
  codec_law codec ->
  _PYTEST_CONFIG st = Some config ->
  parent (run_file config) ∈ dirs (fs st) ->
  let collected := _results config in
  let count := fun o => length (filter (fun r => r_outcome r = o) collected) in
  exists (st' : State) (txt : string) (doc totals : json),
    pytest_sessionfinish amb st exitstatus = Ok st'
    /\ _PYTEST_CONFIG st' = Some config
    /\ files (fs st') !! run_file config = Some txt
    /\ json_loads txt = Some doc
    /\ json_get "totals" doc = Some totals
    /\ json_get "total" totals = Some (jnat (length collected))
    /\ json_get "passed" totals = Some (jnat (count passed))
    /\ json_get "failed" totals = Some (jnat (count failed))
    /\ json_get "skipped" totals = Some (jnat (count skipped))
    /\ json_get "results" doc = Some (JList (map record_to_json collected))
    /\ (forall others, map record_to_json others = map record_to_json collected ->
          others = collected)
    /\ length collected = count passed + count failed + count skipped
    /\ (forall amb0 st0,
          exists config0,
            _PYTEST_CONFIG (pytest_configure amb0 st0) = Some config0
            /\ _results config0 = []
            /\ parent (run_file config0) ∈ dirs (fs (pytest_configure amb0 st0))).
Proof.
  intros law Hc _. cbv zeta.
  unfold pytest_sessionfinish. rewrite Hc.
  eexists. eexists. exists (summary_to_json (run_summary amb config exitstatus)).
  eexists.
  split_and!.
  - reflexivity.
  - reflexivity.
  - simpl. apply lookup_insert_eq.
  - apply law.
  - reflexivity.
  - reflexivity.
  - simpl. rewrite count_outcome_filter. reflexivity.
  - simpl. rewrite count_outcome_filter. reflexivity.
  - simpl. rewrite count_outcome_filter. reflexivity.
  - reflexivity.
  - intros others H. apply records_to_json_inj. exact H.
  - rewrite <- !count_outcome_filter. symmetry. apply count_outcome_partition.
  - intros amb0 st0. exists (configured amb0).
    destruct (pytest_configure_dirs amb0 st0) as (H1 & H2 & _).
    split_and!; [exact H1 | reflexivity | exact H2].
Qed.

Lemma C5_summary_totals_witness :
  let st := Samples.collected_state in
  let config :=
    with_results Samples.sample_config
      [ Samples.sample_record "tests/test_buy.py::test_a" passed;
        Samples.sample_record "tests/test_buy.py::test_b" failed;
        Samples.sample_record "tests/test_buy.py::test_c" passed ] in
  codec_law MiniJson.codec
  /\ _PYTEST_CONFIG st = Some config
  /\ parent (run_file config) ∈ dirs (fs st)
  /\ exists (st' : State) (txt : string) (doc totals : json),
       pytest_sessionfinish (codec := MiniJson.codec) Samples.sample_ambient st 1
       = Ok st'
       /\ files (fs st') !! run_file config = Some txt
       /\ json_loads (JsonCodec := MiniJson.codec) txt = Some doc
       /\ json_get "totals" doc = Some totals
       /\ json_get "total" totals = Some (jnat 3)
       /\ json_get "passed" totals = Some (jnat 2)
       /\ json_get "failed" totals = Some (jnat 1)
       /\ json_get "skipped" totals = Some (jnat 0).
Proof.
  cbv zeta.
  assert (Hc : _PYTEST_CONFIG Samples.collected_state
               = Some (with_results Samples.sample_config
                         [ Samples.sample_record "tests/test_buy.py::test_a" passed;
                           Samples.sample_record "tests/test_buy.py::test_b" failed;
                           Samples.sample_record "tests/test_buy.py::test_c" passed ]))
    by reflexivity.
  assert (Hd : parent (run_file
                 (with_results Samples.sample_config
                    [ Samples.sample_record "tests/test_buy.py::test_a" passed;
                      Samples.sample_record "tests/test_buy.py::test_b" failed;
                      Samples.sample_record "tests/test_buy.py::test_c" passed ]))
               ∈ dirs (fs Samples.collected_state)).
  { unfold run_file. rewrite parent_path_join.
    change (["home"; "qa"; "project"; "reports"; "runs"]
            ∈ ({[ ["home"; "qa"; "project"; "reports"; "runs"] ]} : gset Path)).
    apply elem_of_singleton. reflexivity. }
  split_and!; [exact MiniJsonFacts.loads_dumps | exact Hc | exact Hd |].
  destruct (C5_summary_totals (codec := MiniJson.codec) Samples.sample_ambient
              Samples.collected_state _ 1 MiniJsonFacts.loads_dumps Hc Hd)
    as (st' & txt & doc & totals & H1 & _ & H3 & H4 & H5 & H6 & H7 & H8 & H9 & _).
  exists st', txt, doc, totals. split_and!; assumption.
Defined.

(* ===================================================================== *)
(** * The reachability probe                                              *)
(* ===================================================================== *)

Lemma _is_reachable_spec (w : World) (url : string) (timeout : Q)
    (t : list Event) :
  _is_reachable w url timeout t =
  match spec_probe_target w url with
  | Some (host, p) =>
      (Returned (is_ok (create_connection w host p timeout)),
       t ++ [EvConnect host p timeout])
  | None => (Returned false, t)
  end.
Proof.
  unfold _is_reachable, spec_probe_target, try_except, bind, lift_exc, connect,
    ret, raise.
  destruct (urlparse w url) as [parsed|e]; [|reflexivity].
  destruct (hostname parsed) as [host|]; [|reflexivity].
  case_bool_decide.
  - destruct (port parsed); reflexivity.
  - destruct (port parsed) as [[n|]|e]; simpl; try reflexivity;
      match goal with
      | |- context [create_connection w ?h ?p ?q] =>
          destruct (create_connection w h p q)
      end; reflexivity.
Qed.

(** C6: the probe returns a boolean on every URL and never raises or skips;
    a URL that does not parse, a missing or empty host name, a malformed
    port and a failed connection all give false; without an explicit port
    it connects to port 443 for the https scheme and to port 80 otherwise. *)
Theorem C6_probe_total (w : World) (url : string) (timeout : Q)
    (t : list Event) :
  (exists b : bool, fst (_is_reachable w url timeout t) = Returned b)
  /\ (forall e, urlparse w url = Err e ->
        _is_reachable w url timeout t = (Returned false, t))
  /\ (forall parsed, urlparse w url = Ok parsed ->
        hostname parsed = None \/ hostname parsed = Some "" ->
        _is_reachable w url timeout t = (Returned false, t))
  /\ (forall parsed e, urlparse w url = Ok parsed -> port parsed = Err e ->
        _is_reachable w url timeout t = (Returned false, t))
  /\ (forall host p e, spec_probe_target w url = Some (host, p) ->
        create_connection w host p timeout = Err e ->
        _is_reachable w url timeout t
        = (Returned false, t ++ [EvConnect host p timeout]))
  /\ (forall parsed host, urlparse w url = Ok parsed ->
        hostname parsed = Some host -> host <> "" ->
        port parsed = Ok None ->
        let p := if bool_decide (scheme parsed = "https") then 443%Z else 80%Z in
        _is_reachable w url timeout t
        = (Returned (is_ok (create_connection w host p timeout)),
           t ++ [EvConnect host p timeout])).
Proof.
  rewrite _is_reachable_spec. unfold spec_probe_target.
  split.
  { destruct (urlparse w url) as [parsed|]; [|eexists; reflexivity].
    destruct (hostname parsed) as [host|]; [|eexists; reflexivity].
    destruct (port parsed) as [explicit|]; try case_bool_decide;
      eexists; reflexivity. }
  repeat split.
  - intros e ->. reflexivity.
  - intros parsed -> [->| ->]; [reflexivity|].
    destruct (port parsed); reflexivity.
  - intros parsed e -> H. rewrite H.
    destruct (hostname parsed); reflexivity.
  - intros host p e -> H. rewrite H. reflexivity.
  - intros parsed host -> Hh Hne Hp. rewrite Hh, Hp.
    rewrite bool_decide_eq_false_2 by assumption. reflexivity.
Qed.

(* ===================================================================== *)
(** * The authenticated-page fixture                                      *)
(* ===================================================================== *)

Lemma page_events_app (t u : list Event) :
  page_events (t ++ u) = page_events t ++ page_events u.
Proof. unfold page_events. apply List.filter_app. Qed.

Lemma _is_reachable_returns (w : World) (url : string) (q : Q) (t : list Event) :
  exists b, _is_reachable w url q t = (Returned b, snd (_is_reachable w url q t)).
Proof.
  rewrite _is_reachable_spec.
  destruct (spec_probe_target w url) as [[host p]|]; eexists; reflexivity.
Qed.

Lemma _is_reachable_page_events (w : World) (url : string) (q : Q)
    (t : list Event) :
  page_events (snd (_is_reachable w url q t)) = page_events t.
Proof.
  rewrite _is_reachable_spec.
  destruct (spec_probe_target w url) as [[host p]|]; simpl; [|reflexivity].
  rewrite page_events_app. simpl. apply app_nil_r.
Qed.

Lemma logged_in_page_unreachable (w : World) (pg : Page) (url : string)
    (creds : Credentials) (t : list Event) :
  fst (_is_reachable w url 2 t) = Returned false ->
  logged_in_page w pg url creds t
  = (Skipped (unreachable_reason url), snd (_is_reachable w url 2 t)).
Proof.
  intros H. unfold logged_in_page, bind.
  destruct (_is_reachable w url 2 t) as [r t']. simpl in H. subst r.
  reflexivity.
Qed.

Lemma logged_in_page_no_credentials (w : World) (pg : Page) (url : string)
    (creds : Credentials) (t : list Event) :
  username creds = "" \/ password creds = "" ->
  fst (_is_reachable w url 2 t) = Returned true ->
  logged_in_page w pg url creds t
  = (Skipped missing_credentials_reason, snd (_is_reachable w url 2 t)).
Proof.
  intros Hc H. unfold logged_in_page, bind.
  destruct (_is_reachable w url 2 t) as [r t']. simpl in H. subst r.
  simpl negb. cbv iota.
  assert (bool_decide (username creds = "") || bool_decide (password creds = "")
          = true) as ->; [|reflexivity].
  apply orb_true_iff. rewrite !bool_decide_eq_true. exact Hc.
Qed.

Lemma logged_in_page_skips (w : World) (pg : Page) (url : string)
    (creds : Credentials) (t : list Event) :
  username creds = "" \/ password creds = "" ->
  (exists reason, fst (logged_in_page w pg url creds t) = Skipped reason)
  /\ page_events (snd (logged_in_page w pg url creds t)) = page_events t.
Proof.
  intros Hc.
  destruct (_is_reachable_returns w url 2 t) as [[] Hb].
  - rewrite logged_in_page_no_credentials by (try assumption; now rewrite Hb).
    split; [eexists; reflexivity|]. apply _is_reachable_page_events.
  - rewrite logged_in_page_unreachable by now rewrite Hb.
    split; [eexists; reflexivity|]. apply _is_reachable_page_events.
Qed.

Lemma mentions_unreachable_reason (url : string) :
  mentions (unreachable_reason url) url.
Proof.
  exists "BASE_URL not reachable: ".
  exists (". " +:+
    "Start your local app (if using localhost) or set BASE_URL to a reachable staging/demo URL.").
  reflexivity.
Qed.

Lemma run_setup_call_skipped (w : World) (tc : TestCase) (t t1 : list Event)
    (reason : string) :
  tc_setup tc t = (Skipped reason, t1) ->
  run_setup_call w tc t
  = ({| nodeid := tc_nodeid tc;
        _rep_by_phase :=
          Some {[ "setup" := make_report w (tc_nodeid tc) "setup" (Skipped reason) ]} |},
     t1).
Proof. intros H. unfold run_setup_call. rewrite H. reflexivity. Qed.

Lemma build_record_only_setup (amb : Ambient) (config : Config) (node : string)
    (rep : TestReport) :
  let item := {| nodeid := node; _rep_by_phase := Some {[ "setup" := rep ]} |} in
  r_outcome (build_record amb config item) = final_outcome (Some rep) None None
  /\ r_error (build_record amb config item)
     = error_text (final_outcome (Some rep) None None) (Some rep) None None.
Proof.
  cbv zeta. unfold build_record. simpl.
  rewrite lookup_singleton_eq.
  rewrite !lookup_singleton_ne by discriminate.
  split; reflexivity.
Qed.

(** C7: with an unreachable base URL the authenticated-page fixture raises a
    skip whose reason mentions the URL, without any page action; the setup
    report is skipped, no call report exists, the record of the test is
    skipped without an error text, and the test body is never run. *)
Theorem C7_unreachable_base_url_skips {codec : JsonCodec}
    (w : World) (tc : TestCase) (pg : Page) (url : string)
    (creds : Credentials) (st : State) (config : Config) (t : list Event) :
  tc_setup tc = logged_in_page w pg url creds ->
  fst (_is_reachable w url 2 t) = Returned false ->
  _PYTEST_CONFIG st = Some config ->
  let probed := snd (_is_reachable w url 2 t) in
  let item := fst (run_setup_call w tc t) in
  let record := build_record (tc_ambient tc) config item in
  logged_in_page w pg url creds t = (Skipped (unreachable_reason url), probed)
  /\ mentions (unreachable_reason url) url
  /\ page_events probed = page_events t
  /\ run_setup_call w tc t = (item, probed)
  /\ default ∅ (_rep_by_phase item) !! "setup"
     = Some (make_report w (tc_nodeid tc) "setup"
               (Skipped (unreachable_reason url)))
  /\ default ∅ (_rep_by_phase item) !! "call" = None
  /\ r_outcome record = skipped
  /\ r_error record = None
  /\ r_nodeid record = tc_nodeid tc
  /\ (exists st' item' t',
        run_test w tc st t = (st', item', t')
        /\ _results <$> _PYTEST_CONFIG st' = Some (_results config ++ [record]))
  /\ (forall body : Page -> M unit,
        run_test w (with_call tc body) st t = run_test w tc st t).
Proof.
  intros Hsetup Hdown Hconf. cbv zeta.
  pose proof (logged_in_page_unreachable w pg url creds t Hdown) as Hskip.
  assert (Hrun : run_setup_call w tc t
          = ({| nodeid := tc_nodeid tc;
                _rep_by_phase :=
                  Some {[ "setup" := make_report w (tc_nodeid tc) "setup"
                                       (Skipped (unreachable_reason url)) ]} |},
             snd (_is_reachable w url 2 t))).
  { apply run_setup_call_skipped. rewrite Hsetup. exact Hskip. }
  rewrite Hrun. simpl fst.
  destruct (build_record_only_setup (tc_ambient tc) config (tc_nodeid tc)
              (make_report w (tc_nodeid tc) "setup"
                 (Skipped (unreachable_reason url)))) as [Ho He].
  split_and!.
  - exact Hskip.
  - apply mentions_unreachable_reason.
  - apply _is_reachable_page_events.
  - reflexivity.
  - simpl. apply lookup_singleton_eq.
  - simpl. apply lookup_singleton_ne. discriminate.
  - rewrite Ho. reflexivity.
  - rewrite He. reflexivity.
  - reflexivity.
  - unfold run_test. rewrite Hrun.
    destruct (tc_finalizers tc (snd (_is_reachable w url 2 t))) as [r3 t3].
    do 3 eexists. split; [reflexivity|].
    unfold pytest_runtest_teardown. rewrite Hconf. reflexivity.
  - intros body. unfold run_test.
    assert (Hrun' : run_setup_call w (with_call tc body) t
                    = run_setup_call w tc t).
    { rewrite Hrun.
      apply (run_setup_call_skipped w (with_call tc body)). simpl.
      rewrite Hsetup. exact Hskip. }
    rewrite Hrun'. reflexivity.
Qed.

Lemma C7_unreachable_base_url_skips_witness :
  let w := Samples.world_down in
  let tc := Samples.sample_test w Samples.sample_environ in
  let url := base_url Samples.sample_environ in
  let st := mkState (Some Samples.sample_config) Samples.empty_fs in
  let item := fst (run_setup_call w tc []) in
  tc_setup tc
  = logged_in_page w Samples.sample_page url (credentials Samples.sample_environ)
  /\ fst (_is_reachable w url 2 []) = Returned false
  /\ _PYTEST_CONFIG st = Some Samples.sample_config
  /\ r_outcome (build_record (tc_ambient tc) Samples.sample_config item) = skipped
  /\ r_error (build_record (tc_ambient tc) Samples.sample_config item) = None.
Proof.
  cbv zeta.
  assert (H1 : tc_setup (Samples.sample_test Samples.world_down Samples.sample_environ)
               = logged_in_page Samples.world_down Samples.sample_page
                   (base_url Samples.sample_environ)
                   (credentials Samples.sample_environ)) by reflexivity.
  assert (H2 : fst (_is_reachable Samples.world_down
                      (base_url Samples.sample_environ) 2 [])
               = Returned false) by (vm_compute; reflexivity).
  assert (H3 : _PYTEST_CONFIG (mkState (Some Samples.sample_config) Samples.empty_fs)
               = Some Samples.sample_config) by reflexivity.
  pose proof (C7_unreachable_base_url_skips (codec := MiniJson.codec)
                Samples.world_down _ _ _ _ _ _ [] H1 H2 H3) as H.
  cbv zeta in H.
  destruct H as (_ & _ & _ & _ & _ & _ & Ho & He & _).
  split_and!; assumption.
Defined.

Lemma login_extends (w : World) (pg : Page) (user pass : string)
    (t : list Event) :
  exists u, snd (login w pg user pass t) = t ++ u.
Proof.
  unfold login, bind, page_do.
  repeat match goal with
         | |- context [page_action w pg ?a] => destruct (page_action w pg a)
         end; simpl; rewrite <- ?app_assoc; eexists; reflexivity.
Qed.

Lemma missing_reason_distinct (url : string) :
  missing_credentials_reason <> unreachable_reason url.
Proof. discriminate. Qed.

(** C8: when the user name or the password is absent or empty the fixture
    raises a skip and drives the page not at all; with a reachable URL the
    reason is the missing-credentials one, which differs from every
    unreachable-URL reason, and the trace holds the probe only; with
    credentials present the first page action after the probe is the
    navigation to the base URL. *)
Theorem C8_missing_credentials_skip (w : World) (pg : Page) (url : string)
    (creds : Credentials) (t : list Event) :
  username creds = "" \/ password creds = "" ->
  let r := logged_in_page w pg url creds t in
  let probe := _is_reachable w url 2 t in
  (exists reason, fst r = Skipped reason)
  /\ page_events (snd r) = page_events t
  /\ (fst probe = Returned true ->
      r = (Skipped missing_credentials_reason, snd probe))
  /\ (forall u, missing_credentials_reason <> unreachable_reason u)
  /\ (forall environ : gmap string string,
        environ !! "TEST_USER" = None \/ environ !! "TEST_USER" = Some "" ->
        username (credentials environ) = "")
  /\ (forall environ : gmap string string,
        environ !! "TEST_PASS" = None \/ environ !! "TEST_PASS" = Some "" ->
        password (credentials environ) = "")
  /\ (forall creds' : Credentials,
        username creds' <> "" -> password creds' <> "" ->
        fst probe = Returned true ->
        exists rest,
          snd (logged_in_page w pg url creds' t)
          = snd probe ++ EvPage pg (Goto url) :: rest).
Proof.
  intros Hc. cbv zeta.
  destruct (logged_in_page_skips w pg url creds t Hc) as [Hs Hp].
  split_and!.
  - exact Hs.
  - exact Hp.
  - intros Hr. apply logged_in_page_no_credentials; assumption.
  - exact missing_reason_distinct.
  - intros environ [H|H]; unfold credentials, getenv; simpl; rewrite H;
      reflexivity.
  - intros environ [H|H]; unfold credentials, getenv; simpl; rewrite H;
      reflexivity.
  - intros creds' Hu Hpw Hr. unfold logged_in_page, bind.
    destruct (_is_reachable w url 2 t) as [b t1]. simpl in Hr. subst b.
    rewrite !bool_decide_eq_false_2 by assumption.
    cbn [negb orb snd]. unfold page_do at 1.
    destruct (page_action w pg (Goto url)); [|exists []; reflexivity].
    destruct (login_extends w pg (username creds') (password creds')
                (t1 ++ [EvPage pg (Goto url)])) as [u Hu'].
    destruct (login w pg (username creds') (password creds')
                (t1 ++ [EvPage pg (Goto url)])) as [[] t2]; simpl in *;
      subst t2; rewrite <- List.app_assoc; eexists; reflexivity.
Qed.

Lemma C8_missing_credentials_skip_witness :
  let w := Samples.world_up in
  let creds := {| username := "alice"; password := "" |} in
  (username creds = "" \/ password creds = "")
  /\ logged_in_page w Samples.sample_page "http://localhost:3000" creds []
     = (Skipped missing_credentials_reason,
        [EvConnect "localhost" 3000 2]).
Proof.
  cbv zeta.
  assert (Hc : username {| username := "alice"; password := "" |} = ""
               \/ password {| username := "alice"; password := "" |} = "")
    by (right; reflexivity).
  split; [exact Hc|].
  pose proof (C8_missing_credentials_skip Samples.world_up Samples.sample_page
                "http://localhost:3000" _ [] Hc) as H.
  cbv zeta in H. destruct H as (_ & _ & H & _).
  apply H. vm_compute. reflexivity.
Defined.

(* ===================================================================== *)
(** * Credentials read from the environment                               *)
(* ===================================================================== *)

(** What follows a white-space character does not change its width. *)
Lemma space_width_app (a b : string) :
  space_width a <> 0 -> space_width (a +:+ b) = space_width a.
Proof.
  destruct a as [|c [|d [|e a]]]; simpl; try contradiction;
    destruct (is_space c); try reflexivity; try contradiction;
    destruct b as [|x [|y b]]; simpl; try contradiction;
    try destruct (is_space2 c d); try reflexivity; try contradiction.
Qed.

(** A text that starts with a white-space character is that character
    followed by the rest. *)
Lemma space_width_split (s : string) :
  space_width s <> 0 ->
  exists w r, s = w +:+ r /\ String.length w = space_width s
              /\ space_width w = space_width s.
Proof.
  destruct s as [|c [|d [|e s]]]; simpl; try contradiction.
  - destruct (is_space c) eqn:Hc; [|contradiction]. intros _.
    exists (String c ""), "". simpl. rewrite Hc. auto.
  - destruct (is_space c) eqn:Hc.
    + intros _. exists (String c ""), (String d ""). simpl. rewrite Hc. auto.
    + destruct (is_space2 c d) eqn:Hd; [|contradiction]. intros _.
      exists (String c (String d "")), "". simpl. rewrite Hc, Hd. auto.
  - destruct (is_space c) eqn:Hc.
    + intros _. exists (String c ""), (String d (String e s)). simpl.
      rewrite Hc. auto.
    + destruct (is_space2 c d) eqn:Hd.
      * intros _. exists (String c (String d "")), (String e s). simpl.
        rewrite Hc, Hd. auto.
      * destruct (is_space3 c d e) eqn:He; [|contradiction]. intros _.
        exists (String c (String d (String e ""))), s. simpl.
        rewrite Hc, Hd, He. auto.
Qed.

Lemma all_space_aux_skip (a b : string) :
  all_space_aux (String.length a) (a +:+ b) = all_space b.
Proof.
  induction a as [|c a IH]; [|exact IH].
  unfold all_space. destruct b; reflexivity.
Qed.

Lemma lstrip_aux_skip (a b : string) :
  lstrip_aux (String.length a) (a +:+ b) = lstrip b.
Proof.
  induction a as [|c a IH]; [|exact IH].
  unfold lstrip. destruct b; reflexivity.
Qed.

Lemma all_space_cons (w r : string) :
  is_one_space w -> all_space (w +:+ r) = all_space r.
Proof.
  intros [Hn Hl]. pose proof (space_width_app w r Hn) as Hw.
  destruct w as [|c w]; [contradiction|].
  unfold all_space at 1. change (String c w +:+ r) with (String c (w +:+ r)) in *.
  cbn [all_space_aux]. rewrite Hw, Hl. simpl String.length.
  apply all_space_aux_skip.
Qed.

Lemma lstrip_cons (w r : string) :
  is_one_space w -> lstrip (w +:+ r) = lstrip r.
Proof.
  intros [Hn Hl]. pose proof (space_width_app w r Hn) as Hw.
  destruct w as [|c w]; [contradiction|].
  unfold lstrip at 1. change (String c w +:+ r) with (String c (w +:+ r)) in *.
  cbn [lstrip_aux]. rewrite Hw, Hl. simpl String.length.
  apply lstrip_aux_skip.
Qed.

(** A text either starts with no white space, or is a white-space
    character followed by a shorter text. *)
Lemma space_cases (s : string) :
  space_width s = 0
  \/ exists w r, s = w +:+ r /\ is_one_space w
                 /\ String.length r < String.length s.
Proof.
  destruct (space_width s) as [|k] eqn:E; [left; reflexivity|right].
  destruct (space_width_split s) as (w & r & Hs & Hl & Hw); [lia|].
  exists w, r. split; [exact Hs|]. split.
  - split; lia.
  - rewrite Hs, length_append. lia.
Qed.

Lemma all_space_no_space (s : string) :
  space_width s = 0 -> all_space s = bool_decide (s = "").
Proof.
  intros H. destruct s as [|c s]; [reflexivity|].
  unfold all_space. cbn [all_space_aux]. rewrite H. reflexivity.
Qed.

Lemma lstrip_no_space (s : string) : space_width s = 0 -> lstrip s = s.
Proof.
  intros H. destruct s as [|c s]; [reflexivity|].
  unfold lstrip. cbn [lstrip_aux]. rewrite H. reflexivity.
Qed.

Lemma string_length_ind (P : string -> Prop) :
  (forall s, (forall r, String.length r < String.length s -> P r) -> P s) ->
  forall s, P s.
Proof.
  intros H s. remember (String.length s) as n eqn:E. revert s E.
  induction n as [n IH] using lt_wf_ind. intros s ->. apply H.
  intros r Hr. apply (IH _ Hr). reflexivity.
Qed.

Lemma all_space_app (a b : string) :
  all_space a = true -> all_space b = true -> all_space (a +:+ b) = true.
Proof.
  induction a as [a IH] using string_length_ind. intros Ha Hb.
  destruct (space_cases a) as [H0|(w & r & -> & Hw & Hlen)].
  - rewrite all_space_no_space in Ha by exact H0.
    apply bool_decide_eq_true in Ha. subst a. exact Hb.
  - rewrite all_space_cons in Ha by exact Hw.
    rewrite append_assoc, all_space_cons by exact Hw.
    apply IH; assumption.
Qed.

Lemma lstrip_all_space (s : string) : all_space s = true -> lstrip s = "".
Proof.
  induction s as [s IH] using string_length_ind. intros Hs.
  destruct (space_cases s) as [H0|(w & r & -> & Hw & Hlen)].
  - rewrite all_space_no_space in Hs by exact H0.
    apply bool_decide_eq_true in Hs. subst s. reflexivity.
  - rewrite all_space_cons in Hs by exact Hw.
    rewrite lstrip_cons by exact Hw. apply IH; assumption.
Qed.

Lemma strip_all_space (s : string) : all_space s = true -> strip s = "".
Proof. intros H. unfold strip. rewrite lstrip_all_space by assumption. reflexivity. Qed.

(** C10: the credentials are stripped of white space when read, so a
    TEST_USER or TEST_PASS made of white-space characters only (those of
    [str.isspace], the no-break space and the other Unicode spaces among
    them) gives the same credentials as the variable left unset, an empty
    credential, and the fixture skips; with a reachable URL the reason is
    the missing-credentials one. *)
Theorem C10_blank_credentials_are_missing (w : World) (pg : Page) (url : string)
    (environ : gmap string string) (s : string) (t : list Event) :
  environ !! "TEST_USER" = Some s \/ environ !! "TEST_PASS" = Some s ->
  all_space s = true ->
  let creds := credentials environ in
  let probe := _is_reachable w url 2 t in
  (environ !! "TEST_USER" = Some s ->
     username creds = ""
     /\ creds = credentials (delete "TEST_USER" environ))
  /\ (environ !! "TEST_PASS" = Some s ->
        password creds = ""
        /\ creds = credentials (delete "TEST_PASS" environ))
  /\ (exists reason, fst (logged_in_page w pg url creds t) = Skipped reason)
  /\ page_events (snd (logged_in_page w pg url creds t)) = page_events t
  /\ (fst probe = Returned true ->
      logged_in_page w pg url creds t
      = (Skipped missing_credentials_reason, snd probe)).
Proof.
  intros Hk Hs. cbv zeta.
  pose proof (strip_all_space s Hs) as Hstrip.
  assert (Hu : environ !! "TEST_USER" = Some s ->
               username (credentials environ) = ""
               /\ credentials environ = credentials (delete "TEST_USER" environ)).
  { intros H. unfold credentials, getenv.
    rewrite lookup_delete_eq, lookup_delete_ne by discriminate.
    rewrite H. simpl. rewrite Hstrip. split; reflexivity. }
  assert (Hp : environ !! "TEST_PASS" = Some s ->
               password (credentials environ) = ""
               /\ credentials environ = credentials (delete "TEST_PASS" environ)).
  { intros H. unfold credentials, getenv.
    rewrite lookup_delete_eq, lookup_delete_ne by discriminate.
    rewrite H. simpl. rewrite Hstrip. split; reflexivity. }
  assert (Hc : username (credentials environ) = ""
               \/ password (credentials environ) = "").
  { destruct Hk as [H|H]; [left; apply Hu | right; apply Hp]; exact H. }
  destruct (logged_in_page_skips w pg url (credentials environ) t Hc) as [H1 H2].
  split_and!; try assumption.
  intros Hr. apply logged_in_page_no_credentials; assumption.
Qed.

Lemma C10_blank_credentials_are_missing_witness :
  let environ := Samples.blank_environ in
  (environ !! "TEST_USER" = Some Samples.blank_password
   \/ environ !! "TEST_PASS" = Some Samples.blank_password)
  /\ all_space Samples.blank_password = true
  /\ logged_in_page Samples.world_up Samples.sample_page "http://localhost:3000"
       (credentials environ) []
     = (Skipped missing_credentials_reason, [EvConnect "localhost" 3000 2]).
Proof.
  cbv zeta.
  assert (Hk : Samples.blank_environ !! "TEST_USER" = Some Samples.blank_password
               \/ Samples.blank_environ !! "TEST_PASS" = Some Samples.blank_password)
    by (right; vm_compute; reflexivity).
  assert (Hs : all_space Samples.blank_password = true) by reflexivity.
  split_and!; [exact Hk | exact Hs |].
  pose proof (C10_blank_credentials_are_missing Samples.world_up
                Samples.sample_page "http://localhost:3000"
                Samples.blank_environ Samples.blank_password [] Hk Hs) as H.
  cbv zeta in H. destruct H as (_ & _ & _ & _ & H).
  apply H. vm_compute. reflexivity.
Defined.

(* ===================================================================== *)
(** * The report store                                                    *)
(* ===================================================================== *)

Section StoreFacts.
Context {codec : JsonCodec}.
Hypothesis law : codec_law codec.

Lemma load_array_corrupt (fs0 : FileSystem) (p : Path) (txt : string) :
  files fs0 !! p = Some txt -> parses_as_list txt = false ->
  load_array fs0 p = [].
Proof.
  unfold load_array, parses_as_list. intros -> H.
  destruct (json_loads txt) as [[]|]; try reflexivity. discriminate.
Qed.

Lemma files_append_json_array (fs0 : FileSystem) (p : Path) (r : json) :
  files (_append_json_array fs0 p r) !! p
  = Some (json_dumps (Some 2%nat) (JList (load_array fs0 p ++ [r]))).
Proof. unfold _append_json_array, write_text. simpl. apply lookup_insert_eq. Qed.

Lemma load_array_append (fs0 : FileSystem) (p q : Path) (r : json) :
  load_array (_append_json_array fs0 q r) p
  = if decide (p = q) then load_array fs0 p ++ [r] else load_array fs0 p.
Proof.
  case_decide as Hpq.
  - subst q. unfold load_array at 1. rewrite files_append_json_array.
    rewrite law. reflexivity.
  - unfold load_array, _append_json_array, write_text. simpl.
    rewrite lookup_insert_ne by congruence. reflexivity.
Qed.

Lemma load_array_append_all (fs0 : FileSystem) (p : Path) (rs : list json) :
  load_array (append_all fs0 p rs) p = load_array fs0 p ++ rs.
Proof.
  revert fs0. induction rs as [|r rs IH]; intros fs0; simpl.
  - symmetry. apply app_nil_r.
  - unfold append_all in *. simpl. rewrite IH, load_array_append.
    rewrite decide_True by reflexivity.
    rewrite <- List.app_assoc. reflexivity.
Qed.

Lemma files_append_all (fs0 : FileSystem) (p : Path) (r : json) (rs : list json) :
  files (append_all fs0 p (r :: rs)) !! p
  = Some (json_dumps (Some 2%nat) (JList (load_array fs0 p ++ r :: rs))).
Proof.
  revert fs0 r. induction rs as [|r' rs IH]; intros fs0 r.
  - apply files_append_json_array.
  - change (append_all fs0 p (r :: r' :: rs))
      with (append_all (_append_json_array fs0 p r) p (r' :: rs)).
    rewrite IH, load_array_append, decide_True by reflexivity.
    rewrite <- List.app_assoc. reflexivity.
Qed.
End StoreFacts.

(** C4: appending to a history file whose text does not load as a JSON
    list starts from the empty list: after the first append the file holds
    the dump of a one-element array, which loads back as that array, and
    after N appends it holds the N appended records and nothing else. *)
Theorem C4_corrupted_history_restarts {codec : JsonCodec}
    (fs0 : FileSystem) (p : Path) (txt : string)
    (first : json) (more : list json) :
  codec_law codec ->
  files fs0 !! p = Some txt ->
  parses_as_list txt = false ->
  let fs1 := _append_json_array fs0 p first in
  let fsN := append_all fs0 p (first :: more) in
  files fs1 !! p = Some (json_dumps (Some 2%nat) (JList [first]))
  /\ json_loads (json_dumps (Some 2%nat) (JList [first])) = Some (JList [first])
  /\ load_array fs1 p = [first]
  /\ (exists text, files fsN !! p = Some text
                   /\ json_loads text = Some (JList (first :: more)))
  /\ load_array fsN p = first :: more
  /\ length (load_array fsN p) = S (length more).
Proof.
  intros law Hfile Hbad. cbv zeta.
  pose proof (load_array_corrupt fs0 p txt Hfile Hbad) as H0.
  split_and!.
  - rewrite files_append_json_array, H0. reflexivity.
  - apply law.
  - rewrite load_array_append by assumption.
    rewrite decide_True by reflexivity. rewrite H0. reflexivity.
  - exists (json_dumps (Some 2%nat) (JList (first :: more))).
    split; [|apply law].
    rewrite files_append_all by assumption. rewrite H0. reflexivity.
  - rewrite load_array_append_all by assumption. rewrite H0. reflexivity.
  - rewrite load_array_append_all by assumption. rewrite H0. reflexivity.
Qed.

Lemma C4_corrupted_history_restarts_witness :
  let first := record_to_json (Samples.sample_record "tests/test_buy.py::test_a" passed) in
  let second := record_to_json (Samples.sample_record "tests/test_buy.py::test_a" failed) in
  codec_law MiniJson.codec
  /\ files Samples.corrupted_fs !! Samples.history_path = Some Samples.corrupted_text
  /\ parses_as_list (codec := MiniJson.codec) Samples.corrupted_text = false
  /\ load_array (codec := MiniJson.codec)
       (append_all (codec := MiniJson.codec) Samples.corrupted_fs
          Samples.history_path [first; second])
       Samples.history_path
     = [first; second].
Proof.
  cbv zeta.
  assert (H1 : files Samples.corrupted_fs !! Samples.history_path
               = Some Samples.corrupted_text) by (vm_compute; reflexivity).
  assert (H2 : parses_as_list (codec := MiniJson.codec) Samples.corrupted_text
               = false) by (vm_compute; reflexivity).
  split_and!; [exact MiniJsonFacts.loads_dumps | exact H1 | exact H2 |].
  pose proof (C4_corrupted_history_restarts (codec := MiniJson.codec)
                Samples.corrupted_fs Samples.history_path
                Samples.corrupted_text
                (record_to_json (Samples.sample_record "tests/test_buy.py::test_a" passed))
                [record_to_json (Samples.sample_record "tests/test_buy.py::test_a" failed)]
                MiniJsonFacts.loads_dumps H1 H2) as H.
  cbv zeta in H. destruct H as (_ & _ & _ & _ & H & _). exact H.
Defined.

(* ===================================================================== *)
(** * One record per test                                                 *)
(* ===================================================================== *)



Section RunFacts.
Context {codec : JsonCodec}.
Variable w : World.

Lemma files_append_jsonl (fs0 : FileSystem) (h : Path) (r : json) :
  default "" (files (_append_jsonl fs0 h r) !! h)
  = default "" (files fs0 !! h) +:+ json_dumps None r +:+ newline.
Proof.
  unfold _append_jsonl, write_text. simpl. rewrite lookup_insert_eq.
  reflexivity.
Qed.

Lemma files_append_jsonl_ne (fs0 : FileSystem) (h p : Path) (r : json) :
  p <> h -> files (_append_jsonl fs0 h r) !! p = files fs0 !! p.
Proof.
  intros H. unfold _append_jsonl, write_text. simpl.
  apply lookup_insert_ne. congruence.
Qed.

Lemma files_append_json_array_ne (fs0 : FileSystem) (q p : Path) (r : json) :
  p <> q -> files (_append_json_array fs0 q r) !! p = files fs0 !! p.
Proof.
  intros H. unfold _append_json_array, write_text. simpl.
  apply lookup_insert_ne. congruence.
Qed.


(** What one call of the hook does to a configured state. *)
Lemma teardown_configured (amb : Ambient) (st : State) (config : Config)
    (item : Item) :
  _PYTEST_CONFIG st = Some config ->
  pytest_runtest_teardown amb st item
  = let record := build_record amb config item in
    {| _PYTEST_CONFIG := Some (with_results config (_results config ++ [record]));
       fs := _append_jsonl
               (_append_json_array (fs st)
                  (per_test_file config (nodeid item)) (record_to_json record))
               (_reports_history_jsonl config) (record_to_json record) |}.
Proof. intros H. unfold pytest_runtest_teardown. rewrite H. reflexivity. Qed.

(** Before [pytest_configure] the hook returns at once and writes nothing. *)
Lemma teardown_unconfigured (amb : Ambient) (st : State) (item : Item) :
  _PYTEST_CONFIG st = None -> pytest_runtest_teardown amb st item = st.
Proof. intros H. unfold pytest_runtest_teardown. rewrite H. reflexivity. Qed.

Lemma run_test_state (tc : TestCase) (st : State) (t : list Event) :
  fst (fst (run_test w tc st t))
  = pytest_runtest_teardown (tc_ambient tc) st (fst (run_setup_call w tc t)).
Proof.
  unfold run_test.
  destruct (run_setup_call w tc t) as [item t2].
  destruct (tc_finalizers tc t2). reflexivity.
Qed.

Lemma run_tests_cons (tc : TestCase) (rest : list TestCase) (st : State)
    (t : list Event) :
  run_tests w (tc :: rest) st t
  = run_tests w rest (fst (fst (run_test w tc st t))) (snd (run_test w tc st t)).
Proof. simpl. destruct (run_test w tc st t) as [[st' item'] t']. reflexivity. Qed.

Lemma run_test_item (tc : TestCase) (st : State) (t : list Event) :
  snd (fst (run_test w tc st t))
  = pytest_runtest_makereport (fst (run_setup_call w tc t))
      (make_report w (tc_nodeid tc) "teardown"
         (fst (tc_finalizers tc (snd (run_setup_call w tc t))))).
Proof.
  unfold run_test.
  destruct (run_setup_call w tc t) as [item t2]. simpl.
  destruct (tc_finalizers tc t2). reflexivity.
Qed.

Lemma run_tests_app (a b : list TestCase) :
  forall (st : State) (t : list Event),
    run_tests w (a ++ b) st t
    = run_tests w b (fst (run_tests w a st t)) (snd (run_tests w a st t)).
Proof.
  induction a as [|tc a IH]; intros st t; [reflexivity|].
  rewrite <- app_comm_cons, !run_tests_cons. apply IH.
Qed.

(** The hook creates no directory and removes none. *)
Lemma teardown_dirs (amb : Ambient) (st : State) (item : Item) :
  dirs (fs (pytest_runtest_teardown amb st item)) = dirs (fs st).
Proof.
  unfold pytest_runtest_teardown. destruct (_PYTEST_CONFIG st); reflexivity.
Qed.

Lemma run_tests_dirs (tcs : list TestCase) :
  forall (st : State) (t : list Event),
    dirs (fs (fst (run_tests w tcs st t))) = dirs (fs st).
Proof.
  induction tcs as [|tc rest IH]; intros st t; [reflexivity|].
  rewrite run_tests_cons, IH, run_test_state. apply teardown_dirs.
Qed.

(** An interrupted session leaves the state that the tests which reached
    the teardown hook leave when they run to their end. *)
Lemma run_until_abort_reached (finished : list TestCase)
    (last : option (TestCase * AbortPoint)) (st : State) (t : list Event) :
  run_until_abort w finished last st t
  = fst (run_tests w (reached_hook finished last) st t).
Proof.
  unfold run_until_abort, reached_hook.
  destruct last as [[tc []]|].
  - rewrite app_nil_r. destruct (run_tests w finished st t). reflexivity.
  - rewrite run_tests_app.
    destruct (run_tests w finished st t) as [st' t']. cbn [fst snd].
    rewrite run_tests_cons. cbn [run_tests fst abort_test].
    symmetry. apply run_test_state.
  - rewrite app_nil_r. destruct (run_tests w finished st t). reflexivity.
Qed.

Hypothesis law : codec_law codec.

End RunFacts.

Lemma build_record_verdict (w : World) (tc : TestCase) (amb : Ambient)
    (config : Config) (t : list Event) :
  let record := build_record amb config (fst (run_setup_call w tc t)) in
  r_outcome record = phase_outcome_of (decisive_result tc t)
  /\ r_error record = failure_text w (decisive_result tc t)
  /\ r_nodeid record = tc_nodeid tc
  /\ r_run_id record = _run_id config
  /\ r_run_started_at record = _run_started_at config
  /\ r_recorded_at record = now_iso amb.
Proof.
  cbv zeta. unfold decisive_result, run_setup_call.
  destruct (tc_setup tc t) as [[pg|e|r] t1];
    [destruct (tc_call tc pg t1) as [[[]|e|r] t2]| |];
    unfold build_record; simpl;
    repeat first [ rewrite lookup_insert_eq
                 | rewrite lookup_insert_ne by discriminate
                 | rewrite lookup_empty ];
    split_and!; reflexivity.
Qed.

(** A test with a skipped setup or call report is one whose deciding phase
    raised a skip, whatever its teardown report is. *)
Lemma skipped_phase_decides (w : World) (tc : TestCase) (t : list Event)
    (rep_teardown : TestReport) :
  when rep_teardown = "teardown" ->
  let item := pytest_runtest_makereport (fst (run_setup_call w tc t))
                rep_teardown in
  let slots := default ∅ (_rep_by_phase item) in
  _phase_outcome (slots !! "setup") = Some skipped
  \/ _phase_outcome (slots !! "call") = Some skipped ->
  exists reason, decisive_result tc t = Skipped reason.
Proof.
  intros Hw. cbv zeta. unfold decisive_result, run_setup_call.
  destruct (tc_setup tc t) as [[pg|e|r] t1];
    [destruct (tc_call tc pg t1) as [[[]|e|r] t2]| |];
    simpl; rewrite Hw;
    repeat first [ rewrite lookup_insert_eq
                 | rewrite lookup_insert_ne by discriminate
                 | rewrite lookup_empty ];
    simpl; intros [H|H]; try discriminate; eexists; reflexivity.
Qed.

(** C2: a test whose setup or call report is skipped is recorded as
    skipped, without an error text, whatever its teardown phase does, also
    when the teardown report is failed: the record is built in the teardown
    hook from the setup and call reports, before the finalizers run and the
    teardown report exists. *)
Theorem C2_skip_beats_teardown_failure {codec : JsonCodec} (w : World)
    (tc : TestCase) (st : State) (config : Config) (t : list Event) :
  _PYTEST_CONFIG st = Some config ->
  let st' := fst (fst (run_test w tc st t)) in
  let item' := snd (fst (run_test w tc st t)) in
  let slots := default ∅ (_rep_by_phase item') in
  _phase_outcome (slots !! "setup") = Some skipped
  \/ _phase_outcome (slots !! "call") = Some skipped ->
  exists record : TestExecutionRecord,
    _results <$> _PYTEST_CONFIG st' = Some (_results config ++ [record])
    /\ r_nodeid record = tc_nodeid tc
    /\ r_outcome record = skipped
    /\ r_error record = None
    /\ json_get "outcome" (record_to_json record) = Some (JStr "skipped")
    /\ json_get "error" (record_to_json record) = Some JNull.
Proof.
  intros Hc. cbv zeta. rewrite run_test_item, run_test_state. intros Hs.
  destruct (skipped_phase_decides w tc t
              (make_report w (tc_nodeid tc) "teardown"
                 (fst (tc_finalizers tc (snd (run_setup_call w tc t)))))
              eq_refl Hs) as [reason Hd].
  destruct (build_record_verdict w tc (tc_ambient tc) config t)
    as (Ho & He & Hn & _).
  rewrite Hd in Ho, He. simpl in Ho, He.
  exists (build_record (tc_ambient tc) config (fst (run_setup_call w tc t))).
  split_and!.
  - rewrite (teardown_configured _ _ _ _ Hc). reflexivity.
  - exact Hn.
  - exact Ho.
  - exact He.
  - unfold record_to_json, json_get. simpl. rewrite Ho. reflexivity.
  - unfold record_to_json, json_get. simpl. rewrite He. reflexivity.
Qed.

Lemma C2_skip_beats_teardown_failure_witness :
  let w := Samples.world_down in
  let tc := Samples.sample_test_failing_teardown w Samples.good_environ in
  let st := mkState (Some Samples.sample_config) Samples.empty_fs in
  let run := run_test (codec := MiniJson.codec) w tc st [] in
  let slots := default ∅ (_rep_by_phase (snd (fst run))) in
  _PYTEST_CONFIG st = Some Samples.sample_config
  /\ (_phase_outcome (slots !! "setup") = Some skipped
      \/ _phase_outcome (slots !! "call") = Some skipped)
  /\ _phase_outcome (slots !! "teardown") = Some failed
  /\ exists record : TestExecutionRecord,
       _results <$> _PYTEST_CONFIG (fst (fst run)) = Some [record]
       /\ r_outcome record = skipped
       /\ r_error record = None.
Proof.
  cbv zeta.
  assert (Hc : _PYTEST_CONFIG (mkState (Some Samples.sample_config) Samples.empty_fs)
               = Some Samples.sample_config) by reflexivity.
  assert (Hs : let slots :=
                 default ∅ (_rep_by_phase
                   (snd (fst (run_test (codec := MiniJson.codec) Samples.world_down
                                (Samples.sample_test_failing_teardown
                                   Samples.world_down Samples.good_environ)
                                (mkState (Some Samples.sample_config) Samples.empty_fs)
                                [])))) in
               _phase_outcome (slots !! "setup") = Some skipped
               \/ _phase_outcome (slots !! "call") = Some skipped)
    by (left; vm_compute; reflexivity).
  split_and!; [exact Hc | exact Hs | vm_compute; reflexivity |].
  destruct (C2_skip_beats_teardown_failure (codec := MiniJson.codec)
              Samples.world_down
              (Samples.sample_test_failing_teardown Samples.world_down
                 Samples.good_environ)
              _ _ [] Hc Hs) as (record & H1 & _ & H3 & H4 & _).
  exists record. split_and!; assumption.
Defined.




(* ===================================================================== *)
(** * The harness on the sample suite                                     *)
(* ===================================================================== *)

Example safe_filename_of_a_node :
  _safe_filename "tests/test_x.py::test_a[p 1:2]" = "tests__test_x.py__test_a_p_1_2_".
Proof. reflexivity. Qed.

Example unquoted_text_does_not_load :
  json_loads (JsonCodec := MiniJson.codec) "not a list" = None
  /\ json_loads (JsonCodec := MiniJson.codec) Samples.corrupted_text
     = Some (JStr "not a list").
Proof. split; vm_compute; reflexivity. Qed.

Example strip_keeps_inner_space : strip "  ab c  " = "ab c".
Proof. reflexivity. Qed.

Example strip_removes_unicode_spaces :
  strip (Samples.blank_password +:+ "ORD 1042" +:+ Samples.blank_password)
  = "ORD 1042"
  /\ strip Samples.blank_password = ""
  /\ all_space Samples.blank_password = true
  /\ all_space (String (ascii_of_nat 160) "") = false.
Proof. split_and!; vm_compute; reflexivity. Qed.

Example probe_default_port_https :
  _is_reachable Samples.world_up "https://shop.example" 2 []
  = (Returned true, [EvConnect "shop.example" 443 2]).
Proof. vm_compute. reflexivity. Qed.

Example login_steps_when_up :
  page_events
    (snd (logged_in_page Samples.world_up Samples.sample_page
            "http://localhost:3000" {| username := "alice"; password := "s3cret" |} []))
  = [ EvPage Samples.sample_page (Goto "http://localhost:3000");
      EvPage Samples.sample_page (Fill (testid "login-username") "alice");
      EvPage Samples.sample_page (Fill (testid "login-password") "s3cret");
      EvPage Samples.sample_page (Click (testid "login-submit"));
      EvPage Samples.sample_page (WaitForLoadState "networkidle") ].
Proof. vm_compute. reflexivity. Qed.

Example suite_is_skipped_when_down :
  Samples.session_outcomes Samples.world_down Samples.good_environ
  = Some [(skipped, None); (skipped, None); (skipped, None)].
Proof. vm_compute. reflexivity. Qed.

Example suite_passes_when_up :
  Samples.session_outcomes Samples.world_up Samples.good_environ
  = Some [(passed, None); (passed, None); (passed, None)].
Proof. vm_compute. reflexivity. Qed.

Example suite_fails_when_page_is_broken :
  Samples.session_outcomes Samples.world_broken Samples.good_environ
  = Some [(failed, Some "TimeoutError: page.goto");
          (failed, Some "TimeoutError: page.goto");
          (failed, Some "TimeoutError: page.goto")].
Proof. vm_compute. reflexivity. Qed.

Example summary_file_totals_when_down :
  Samples.session_totals Samples.world_down Samples.good_environ
  = Some (JObj [("total", jnat 3); ("passed", jnat 0);
                ("failed", jnat 0); ("skipped", jnat 3)]).
Proof. vm_compute. reflexivity. Qed.

(* ===================================================================== *)
(** * File names and time stamps                                          *)
(* ===================================================================== *)

Lemma occurs_app (c : ascii) (a b : string) :
  occurs c (a +:+ b) = occurs c a || occurs c b.
Proof.
  induction a as [|x a IH]; [reflexivity|].
  simpl. rewrite IH. apply orb_assoc.
Qed.

(** The output of a replacement holds characters of the input and of the
    new text only. *)
Lemma occurs_replace_aux (c : ascii) (old new : string) :
  occurs c new = false ->
  forall (s : string) (skip : nat),
    occurs c s = false -> occurs c (replace_aux old new skip s) = false.
Proof.
  intros Hnew. induction s as [|a s IH]; intros skip Hs; [reflexivity|].
  simpl in Hs. apply orb_false_iff in Hs. destruct Hs as [Ha Hs].
  cbn [replace_aux]. destruct skip as [|k]; [|apply IH; exact Hs].
  destruct (String.prefix old (String a s)).
  - rewrite occurs_app, Hnew. apply IH. exact Hs.
  - simpl. rewrite Ha. apply IH. exact Hs.
Qed.

(** Replacing a single character removes it. *)
Lemma occurs_replace_char (c : ascii) (new : string) :
  occurs c new = false ->
  forall (s : string) (skip : nat),
    occurs c (replace_aux (String c EmptyString) new skip s) = false.
Proof.
  intros Hnew. induction s as [|a s IH]; intros skip; [reflexivity|].
  cbn [replace_aux]. destruct skip as [|k]; [|apply IH].
  cbn [String.prefix]. destruct (ascii_dec c a) as [->|Hne].
  - assert (String.prefix "" s = true) as -> by (destruct s; reflexivity).
    rewrite occurs_app, Hnew. apply IH.
  - simpl. rewrite (proj2 (Ascii.eqb_neq c a) Hne). apply IH.
Qed.

(** A replacement whose old text starts with a character that does not occur
    changes nothing. *)
Lemma replace_absent (c : ascii) (old' new s : string) :
  occurs c s = false -> replace (String c old') new s = s.
Proof.
  unfold replace. induction s as [|a s IH]; intros Hs; [reflexivity|].
  simpl in Hs. apply orb_false_iff in Hs. destruct Hs as [Ha Hs].
  cbn [replace_aux String.prefix].
  destruct (ascii_dec c a) as [->|Hne].
  - rewrite Ascii.eqb_refl in Ha. discriminate.
  - rewrite IH by exact Hs. reflexivity.
Qed.

Lemma clean_app (a b : string) : clean a -> clean b -> clean (a +:+ b).
Proof.
  unfold clean. rewrite !Forall_forall. intros Ha Hb c Hc.
  rewrite occurs_app, (Ha c Hc), (Hb c Hc). reflexivity.
Qed.

Lemma clean_uint (d : Decimal.uint) : clean (NilEmpty.string_of_uint d).
Proof.
  unfold clean, unsafe_chars.
  induction d; simpl; repeat constructor;
    repeat match goal with
           | H : Forall _ (_ :: _) |- _ => inversion H; clear H; subst
           end; assumption.
Qed.

Lemma clean_digits (n : nat) : clean (digits n).
Proof.
  unfold digits, NilZero.string_of_uint.
  destruct (Nat.to_uint n) eqn:E; try (rewrite <- E; apply clean_uint).
  repeat constructor.
Qed.

Lemma clean_pad2 (n : nat) : clean (pad2 n).
Proof.
  unfold pad2. destruct (n <? 10)%nat; [apply clean_app|];
    try apply clean_digits. repeat constructor.
Qed.

Lemma remove_char_app (c : ascii) (a b : string) :
  remove_char c (a +:+ b) = remove_char c a +:+ remove_char c b.
Proof.
  induction a as [|x a IH]; [reflexivity|].
  simpl. destruct (Ascii.eqb c x); simpl; rewrite IH; reflexivity.
Qed.

Lemma remove_char_absent (c : ascii) (s : string) :
  occurs c s = false -> remove_char c s = s.
Proof.
  induction s as [|x s IH]; [reflexivity|]. simpl. intros H.
  apply orb_false_iff in H. destruct H as [-> H]. rewrite IH by exact H.
  reflexivity.
Qed.

Lemma clean_no_colon (s : string) : clean s -> occurs ":" s = false.
Proof.
  unfold clean, unsafe_chars. rewrite Forall_forall. intros H. apply H.
  repeat (first [left | right]). 
Qed.

Lemma safe_filename_clean (text : string) : clean (_safe_filename text).
Proof.
  unfold clean, unsafe_chars, _safe_filename, replace.
  repeat constructor;
    repeat first [ apply occurs_replace_char; reflexivity
                 | apply occurs_replace_aux; [reflexivity|] ].
Qed.

(** X1: the name [_safe_filename] gives holds none of the characters it
    replaces: no slash, backslash, bracket, space or colon. *)
Theorem X1_safe_filename_is_clean (text : string) :
  Forall (fun c => occurs c (_safe_filename text) = false)
    ["/"%char; "\"%char; "["%char; "]"%char; " "%char; ":"%char].
Proof. exact (safe_filename_clean text). Qed.

Lemma safe_filename_clean_id (text : string) :
  clean text -> _safe_filename text = text.
Proof.
  unfold clean, unsafe_chars. intros H.
  repeat match goal with
         | H : Forall _ (_ :: _) |- _ => inversion H; clear H; subst
         end.
  unfold _safe_filename.
  rewrite (replace_absent "/") by assumption.
  rewrite (replace_absent "\") by assumption.
  rewrite (replace_absent ":" ":") by assumption.
  rewrite (replace_absent "[") by assumption.
  rewrite (replace_absent "]") by assumption.
  rewrite (replace_absent " ") by assumption.
  rewrite (replace_absent ":" "") by assumption.
  reflexivity.
Qed.

(** X2: [_safe_filename] leaves a name unchanged exactly when the name
    holds none of the replaced characters, and applying it twice is the
    same as applying it once. *)
Theorem X2_safe_filename_fixpoints (text : string) :
  (_safe_filename text = text <-> clean text)
  /\ _safe_filename (_safe_filename text) = _safe_filename text.
Proof.
  split; [split|].
  - intros H. rewrite <- H. apply safe_filename_clean.
  - apply safe_filename_clean_id.
  - apply safe_filename_clean_id, safe_filename_clean.
Qed.

Lemma pad4_large (n : nat) : 1000 <= n -> pad4 n = digits n.
Proof.
  intros H. unfold pad4.
  destruct (Nat.ltb_spec n 10); [lia|].
  destruct (Nat.ltb_spec n 100); [lia|].
  destruct (Nat.ltb_spec n 1000); [lia|]. reflexivity.
Qed.

Lemma clean_file_stamp (dt : DateTime) : clean (file_stamp_ist dt).
Proof.
  unfold file_stamp_ist.
  repeat first [ apply clean_digits | apply clean_pad2
               | apply clean_app | solve [repeat constructor] ].
Qed.

(** X3: the file stamp of an instant holds no colon and none of the other
    characters [_safe_filename] replaces, so neither does the name of the
    run file; from the year 1000 on it is the ISO time stamp of the same
    instant with its colons removed. *)
Theorem X3_file_stamp_has_no_colon (dt : DateTime) :
  occurs ":" (file_stamp_ist dt) = false
  /\ clean ("run_" +:+ file_stamp_ist dt +:+ ".json")
  /\ (1000 <= dt_year dt ->
      file_stamp_ist dt = remove_char ":" (iso_ist dt)).
Proof.
  pose proof (clean_file_stamp dt) as Hc.
  split_and!.
  - apply clean_no_colon, Hc.
  - apply clean_app; [repeat constructor|].
    apply clean_app; [exact Hc | repeat constructor].
  - intros Hy. unfold iso_ist, file_stamp_ist.
    rewrite pad4_large by exact Hy.
    rewrite !remove_char_app.
    rewrite !(remove_char_absent ":" (pad2 _))
      by (apply clean_no_colon, clean_pad2).
    rewrite (remove_char_absent ":" (digits _))
      by (apply clean_no_colon, clean_digits).
    reflexivity.
Qed.

Example stamps_of_an_instant :
  let dt := mkDateTime 2026 2 16 0 49 11 in
  iso_ist dt = "2026-02-16T00:49:11+05:30"
  /\ file_stamp_ist dt = "2026-02-16T004911+0530".
Proof. split; reflexivity. Qed.

(* ===================================================================== *)
(** * More on the report store                                            *)
(* ===================================================================== *)

(** X4: appending to a history file that holds a JSON list keeps the
    elements it holds, in order, and puts the record last; a missing file
    gives a one-element list; no other file and no directory changes. *)
Theorem X4_append_keeps_history {codec : JsonCodec} (fs0 : FileSystem)
    (p : Path) (r : json) :
  codec_law codec ->
  (forall txt l, files fs0 !! p = Some txt -> json_loads txt = Some (JList l) ->
     load_array (_append_json_array fs0 p r) p = l ++ [r])
  /\ (files fs0 !! p = None -> load_array (_append_json_array fs0 p r) p = [r])
  /\ (forall q, q <> p -> files (_append_json_array fs0 p r) !! q = files fs0 !! q)
  /\ dirs (_append_json_array fs0 p r) = dirs fs0.
Proof.
  intros law. split_and!.
  - intros txt l Hf Hl. rewrite load_array_append by exact law.
    rewrite decide_True by reflexivity.
    unfold load_array. rewrite Hf, Hl. reflexivity.
  - intros Hf. rewrite load_array_append by exact law.
    rewrite decide_True by reflexivity.
    unfold load_array. rewrite Hf. reflexivity.
  - intros q Hq. apply files_append_json_array_ne. exact Hq.
  - reflexivity.
Qed.

Lemma X4_append_keeps_history_witness :
  let first := record_to_json (Samples.sample_record "tests/test_buy.py::test_a" passed) in
  let second := record_to_json (Samples.sample_record "tests/test_buy.py::test_a" failed) in
  let fs1 := _append_json_array (codec := MiniJson.codec) Samples.empty_fs
               Samples.history_path first in
  codec_law MiniJson.codec
  /\ load_array (codec := MiniJson.codec)
       (_append_json_array (codec := MiniJson.codec) fs1 Samples.history_path second)
       Samples.history_path
     = [first; second].
Proof.
  cbv zeta. split; [exact MiniJsonFacts.loads_dumps|].
  pose proof (X4_append_keeps_history (codec := MiniJson.codec)
                (_append_json_array (codec := MiniJson.codec) Samples.empty_fs
                   Samples.history_path
                   (record_to_json (Samples.sample_record "tests/test_buy.py::test_a" passed)))
                Samples.history_path
                (record_to_json (Samples.sample_record "tests/test_buy.py::test_a" failed))
                MiniJsonFacts.loads_dumps) as (H & _).
  apply (H (json_dumps (JsonCodec := MiniJson.codec) (Some 2%nat)
              (JList [record_to_json (Samples.sample_record "tests/test_buy.py::test_a" passed)]))
           [record_to_json (Samples.sample_record "tests/test_buy.py::test_a" passed)]).
  - vm_compute. reflexivity.
  - apply MiniJsonFacts.loads_dumps.
Defined.

Lemma append_lines_text {codec : JsonCodec} (rs : list json) :
  forall (fs0 : FileSystem) (h : Path),
    default "" (files (append_lines fs0 h rs) !! h)
    = default "" (files fs0 !! h) +:+ jsonl_lines rs.
Proof.
  induction rs as [|r rs IH]; intros fs0 h.
  - simpl. symmetry. apply append_nil_r.
  - unfold append_lines in *. simpl. rewrite IH, files_append_jsonl.
    rewrite !append_assoc. reflexivity.
Qed.

Lemma append_lines_other {codec : JsonCodec} (rs : list json) :
  forall (fs0 : FileSystem) (h q : Path),
    q <> h -> files (append_lines fs0 h rs) !! q = files fs0 !! q.
Proof.
  induction rs as [|r rs IH]; intros fs0 h q Hq; [reflexivity|].
  unfold append_lines in *. simpl. rewrite IH by exact Hq.
  apply files_append_jsonl_ne. exact Hq.
Qed.

(** X5: the global log is append-only: after any number of calls of
    [_append_jsonl] the file holds its former text followed by one line per
    record, in the order of the calls; a missing file is created; no other
    file changes. *)
Theorem X5_log_is_append_only {codec : JsonCodec} (fs0 : FileSystem)
    (h : Path) (rs : list json) :
  default "" (files (append_lines fs0 h rs) !! h)
  = default "" (files fs0 !! h) +:+ jsonl_lines rs
  /\ (forall r, is_Some (files (_append_jsonl fs0 h r) !! h))
  /\ (forall q, q <> h -> files (append_lines fs0 h rs) !! q = files fs0 !! q)
  /\ dirs (append_lines fs0 h rs) = dirs fs0.
Proof.
  split_and!.
  - apply append_lines_text.
  - intros r. unfold _append_jsonl, write_text. simpl.
    rewrite lookup_insert_eq. eexists. reflexivity.
  - intros q Hq. apply append_lines_other. exact Hq.
  - revert fs0. induction rs as [|r rs IH]; intros fs0; [reflexivity|].
    unfold append_lines in *. simpl. rewrite IH. reflexivity.
Qed.

Lemma append_inv_tail (a b c : string) : a +:+ c = b +:+ c -> a = b.
Proof.
  revert b. induction a as [|x a IH]; intros [|y b] H.
  - reflexivity.
  - apply (f_equal String.length) in H. simpl in H.
    rewrite length_append in H. lia.
  - apply (f_equal String.length) in H. simpl in H.
    rewrite length_append in H. lia.
  - simpl in H. injection H as -> H. f_equal. apply IH. exact H.
Qed.

(** X6: the three files of the report store never coincide: whatever the
    node ids and the stamp, a per-test history, the run summary and the
    global log are different paths; two tests share a history file exactly
    when [_safe_filename] gives them the same name. *)
Theorem X6_sinks_are_distinct (amb : Ambient) (st : State) :
  exists config,
    _PYTEST_CONFIG (pytest_configure amb st) = Some config
    /\ forall node node',
         per_test_file config node <> _reports_history_jsonl config
         /\ per_test_file config node <> run_file config
         /\ run_file config <> _reports_history_jsonl config
         /\ (per_test_file config node = per_test_file config node'
             <-> _safe_filename node = _safe_filename node').
Proof.
  eexists. split; [reflexivity|]. intros node node'.
  unfold per_test_file, run_file, path_join. simpl.
  split_and!.
  - intros H. apply (f_equal (@length string)) in H.
    rewrite !length_app in H. simpl in H. lia.
  - rewrite <- !List.app_assoc. intros H. apply app_inv_head in H.
    discriminate.
  - intros H. apply (f_equal (@length string)) in H.
    rewrite !length_app in H. simpl in H. lia.
  - split.
    + intros H. apply app_inv_head in H. injection H as H.
      apply append_inv_tail in H. exact H.
    + intros ->. reflexivity.
Qed.

(** X7: [pytest_configure] creates the runs and the tests directory with
    all their parents and nothing else, keeps the directories that exist,
    and changes no file. *)
Theorem X7_configure_creates_directories (amb : Ambient) (st : State)
    (p : Path) :
  (p ∈ dirs (fs (pytest_configure amb st))
   <-> p ∈ dirs (fs st)
       \/ (p <> []
           /\ (p `prefix_of` cwd amb ++ ["reports"; "runs"]
               \/ p `prefix_of` cwd amb ++ ["reports"; "tests"])))
  /\ files (fs (pytest_configure amb st)) = files (fs st).
Proof.
  split; [|reflexivity].
  unfold pytest_configure, _ensure_dir, path_join. simpl.
  rewrite !elem_of_union, !elem_of_list_to_set, !elem_of_with_parents.
  rewrite <- !List.app_assoc. simpl. tauto.
Qed.

(* ===================================================================== *)
(** * More on the probe and the fixtures                                  *)
(* ===================================================================== *)

(** X8: one probe makes at most one connection attempt and no page action;
    it answers true only after an attempt; an explicit port is used as it
    is, whatever the scheme. *)
Theorem X8_probe_connects_at_most_once (w : World) (url : string) (q : Q)
    (t : list Event) :
  (exists evs,
     snd (_is_reachable w url q t) = t ++ evs
     /\ length evs <= 1
     /\ page_events evs = []
     /\ (fst (_is_reachable w url q t) = Returned true -> length evs = 1))
  /\ (forall parsed host n,
        urlparse w url = Ok parsed -> hostname parsed = Some host ->
        host <> "" -> port parsed = Ok (Some n) ->
        _is_reachable w url q t
        = (Returned (is_ok (create_connection w host n q)),
           t ++ [EvConnect host n q])).
Proof.
  rewrite _is_reachable_spec. split.
  - destruct (spec_probe_target w url) as [[host p]|].
    + exists [EvConnect host p q]. simpl. split_and!; auto.
    + exists []. simpl. rewrite app_nil_r. split_and!; auto. discriminate.
  - intros parsed host n Hu Hh Hne Hp. unfold spec_probe_target.
    rewrite Hu, Hh, Hp. rewrite bool_decide_eq_false_2 by exact Hne.
    reflexivity.
Qed.

Lemma lstrip_spec (s : string) :
  (exists pre, all_space pre = true /\ s = pre +:+ lstrip s)
  /\ starts_with_space (lstrip s) = false.
Proof.
  induction s as [s IH] using string_length_ind.
  destruct (space_cases s) as [H0|(w & r & -> & Hw & Hlen)].
  - rewrite lstrip_no_space by exact H0. split.
    + exists "". split; reflexivity.
    + unfold starts_with_space. rewrite H0. reflexivity.
  - rewrite lstrip_cons by exact Hw.
    destruct (IH r Hlen) as [(pre & Hpre & Hr) Hst]. split; [|exact Hst].
    exists (w +:+ pre). split.
    + rewrite all_space_cons by exact Hw. exact Hpre.
    + rewrite append_assoc, <- Hr. reflexivity.
Qed.

Lemma rstrip_split (s : string) :
  exists post, all_space post = true /\ s = rstrip s +:+ post.
Proof.
  induction s as [|c s (post & Hpost & Hs)].
  - exists "". split; reflexivity.
  - cbn [rstrip]. destruct (all_space (String c s)) eqn:E.
    + exists (String c s). split; [exact E | reflexivity].
    + exists post. split; [exact Hpost|]. simpl. f_equal. exact Hs.
Qed.

Lemma one_space_spec (w : string) : one_space w = true <-> is_one_space w.
Proof.
  unfold one_space, is_one_space.
  rewrite andb_true_iff, negb_true_iff, !Nat.eqb_neq, Nat.eqb_eq. tauto.
Qed.

Lemma rstrip_spec (s : string) :
  (exists post, all_space post = true /\ s = rstrip s +:+ post)
  /\ ends_with_space (rstrip s) = false.
Proof.
  split; [apply rstrip_split|].
  induction s as [|c s IH]; [reflexivity|].
  cbn [rstrip]. destruct (all_space (String c s)) eqn:E; [reflexivity|].
  cbn [ends_with_space]. rewrite IH, orb_false_r.
  destruct (one_space (String c (rstrip s))) eqn:H1; [|reflexivity].
  apply one_space_spec in H1.
  destruct (rstrip_split s) as (post & Hpost & Hs).
  assert (Hall : all_space (String c (rstrip s) +:+ post) = true)
    by (rewrite all_space_cons by exact H1; exact Hpost).
  change (String c (rstrip s) +:+ post) with (String c (rstrip s +:+ post)) in Hall.
  rewrite <- Hs in Hall. congruence.
Qed.

Lemma rstrip_keeps_head (s : string) :
  starts_with_space s = false -> starts_with_space (rstrip s) = false.
Proof.
  unfold starts_with_space. rewrite !negb_false_iff, !Nat.eqb_eq. intros H.
  destruct (rstrip_split s) as (post & _ & Hs).
  destruct (space_width (rstrip s)) as [|k] eqn:E; [reflexivity|].
  pose proof (space_width_app (rstrip s) post ltac:(lia)) as Hw.
  rewrite <- Hs in Hw. lia.
Qed.

Lemma strip_spec (s : string) : stripped_of s (strip s).
Proof.
  unfold stripped_of, strip.
  destruct (lstrip_spec s) as [(pre & Hpre & Hs) Hst].
  destruct (rstrip_spec (lstrip s)) as [(post & Hpost & Hl) Hend].
  split_and!.
  - exists pre, post. split_and!; try assumption.
    rewrite <- Hl. exact Hs.
  - apply rstrip_keeps_head. exact Hst.
  - exact Hend.
Qed.

Lemma strip_empty_iff (s : string) : strip s = "" <-> all_space s = true.
Proof.
  split; [|apply strip_all_space].
  intros H. destruct (strip_spec s) as [(pre & post & Hpre & Hpost & Hs) _].
  rewrite H in Hs. rewrite Hs. apply all_space_app; assumption.
Qed.

(** X9: a credential is the value of its variable without the white-space
    characters around it (those of [str.isspace], of one, two or three
    bytes), the empty string when the variable is unset; it is empty exactly
    when the variable is unset or holds white space only. *)
Theorem X9_credentials_are_stripped (environ : gmap string string) :
  let c := credentials environ in
  stripped_of (getenv environ "TEST_USER" "") (username c)
  /\ stripped_of (getenv environ "TEST_PASS" "") (password c)
  /\ (username c = ""
      <-> environ !! "TEST_USER" = None
          \/ exists v, environ !! "TEST_USER" = Some v /\ all_space v = true)
  /\ (password c = ""
      <-> environ !! "TEST_PASS" = None
          \/ exists v, environ !! "TEST_PASS" = Some v /\ all_space v = true).
Proof.
  cbv zeta. unfold credentials. simpl.
  split_and!; try apply strip_spec.
  - rewrite strip_empty_iff. unfold getenv.
    destruct (environ !! "TEST_USER") as [v|]; simpl.
    + split; [intros H; right; exists v; auto|].
      intros [H|(v' & [= <-] & H)]; [discriminate | exact H].
    + split; [left; reflexivity | reflexivity].
  - rewrite strip_empty_iff. unfold getenv.
    destruct (environ !! "TEST_PASS") as [v|]; simpl.
    + split; [intros H; right; exists v; auto|].
      intros [H|(v' & [= <-] & H)]; [discriminate | exact H].
    + split; [left; reflexivity | reflexivity].
Qed.

Lemma logged_in_page_attempt (w : World) (pg : Page) (url : string)
    (creds : Credentials) (t : list Event) :
  fst (_is_reachable w url 2 t) = Returned true ->
  username creds <> "" -> password creds <> "" ->
  logged_in_page w pg url creds t
  = (match snd (attempt w pg (fixture_actions url creds)) with
     | None => Returned pg
     | Some e => Raised e
     end,
     snd (_is_reachable w url 2 t)
     ++ map (EvPage pg) (fst (attempt w pg (fixture_actions url creds)))).
Proof.
  intros Hr Hu Hp. unfold logged_in_page, login, bind.
  destruct (_is_reachable w url 2 t) as [b t1]. simpl in Hr. subst b.
  rewrite !bool_decide_eq_false_2 by assumption.
  cbn [negb orb snd fst]. unfold page_do, fixture_actions.
  cbn [attempt].
  repeat match goal with
         | |- context [page_action w pg ?a] => destruct (page_action w pg a)
         end; simpl; rewrite <- ?List.app_assoc; reflexivity.
Qed.

(** X10: past its two checks the fixture navigates and logs in, one page
    action after the other; it stops at the first action that fails and
    raises its error, attempting nothing after it; when all succeed it
    returns the page it was given. *)
Theorem X10_fixture_stops_at_first_failure (w : World) (pg : Page)
    (url : string) (creds : Credentials) (t : list Event) :
  fst (_is_reachable w url 2 t) = Returned true ->
  username creds <> "" -> password creds <> "" ->
  let '(attempted, error) := attempt w pg (fixture_actions url creds) in
  logged_in_page w pg url creds t
  = (match error with
     | None => Returned pg
     | Some e => Raised e
     end,
     snd (_is_reachable w url 2 t) ++ map (EvPage pg) attempted).
Proof.
  intros Hr Hu Hp.
  pose proof (logged_in_page_attempt w pg url creds t Hr Hu Hp) as H.
  destruct (attempt w pg (fixture_actions url creds)) as [attempted error].
  exact H.
Qed.

Lemma X10_fixture_stops_at_first_failure_witness :
  let creds := {| username := "alice"; password := "s3cret" |} in
  fst (_is_reachable Samples.world_up "http://localhost:3000" 2 []) = Returned true
  /\ username creds <> "" /\ password creds <> ""
  /\ logged_in_page Samples.world_up Samples.sample_page "http://localhost:3000" creds []
     = (Returned Samples.sample_page,
        EvConnect "localhost" 3000 2
          :: map (EvPage Samples.sample_page)
               (fixture_actions "http://localhost:3000" creds)).
Proof.
  cbv zeta.
  assert (H1 : fst (_is_reachable Samples.world_up "http://localhost:3000" 2 [])
               = Returned true) by (vm_compute; reflexivity).
  assert (H2 : username {| username := "alice"; password := "s3cret" |} <> "")
    by discriminate.
  assert (H3 : password {| username := "alice"; password := "s3cret" |} <> "")
    by discriminate.
  split_and!; try assumption.
  exact (X10_fixture_stops_at_first_failure Samples.world_up Samples.sample_page
           "http://localhost:3000" _ [] H1 H2 H3).
Defined.

Lemma attempt_none (w : World) (pg : Page) (acts : list PageAction) :
  snd (attempt w pg acts) = None
  <-> Forall (fun a => is_ok (page_action w pg a) = true) acts.
Proof.
  induction acts as [|a rest IH]; simpl.
  - split; [constructor | reflexivity].
  - destruct (page_action w pg a) eqn:E.
    + destruct (attempt w pg rest) as [done e]. simpl in *. rewrite IH.
      split; [intros H; constructor; [rewrite E; reflexivity | exact H]|].
      intros H. inversion H. assumption.
    + simpl. split; [discriminate|]. intros H. inversion H as [|? ? Ha].
      rewrite E in Ha. discriminate.
Qed.

(** X11: the fixture hands a page to the test only when the base URL was
    reachable, both credentials are non-empty and the navigation and every
    step of the login succeeded; the page is then the one it was given. *)
Theorem X11_fixture_returns_only_when_logged_in (w : World) (pg pg' : Page)
    (url : string) (creds : Credentials) (t : list Event) :
  fst (logged_in_page w pg url creds t) = Returned pg'
  <-> pg' = pg
      /\ fst (_is_reachable w url 2 t) = Returned true
      /\ username creds <> "" /\ password creds <> ""
      /\ Forall (fun a => is_ok (page_action w pg a) = true)
           (fixture_actions url creds).
Proof.
  destruct (_is_reachable_returns w url 2 t) as [b Hb].
  assert (Hfst : fst (_is_reachable w url 2 t) = Returned b)
    by (rewrite Hb; reflexivity).
  destruct b.
  - destruct (decide (username creds = "")) as [Hu|Hu];
      [|destruct (decide (password creds = "")) as [Hp|Hp]].
    + rewrite logged_in_page_no_credentials by auto.
      split; [discriminate | intros (_ & _ & H & _); contradiction].
    + rewrite logged_in_page_no_credentials by auto.
      split; [discriminate | intros (_ & _ & _ & H & _); contradiction].
    + rewrite logged_in_page_attempt by assumption.
      pose proof (attempt_none w pg (fixture_actions url creds)) as HA.
      destruct (snd (attempt w pg (fixture_actions url creds))) as [e|];
        cbn [fst].
      * split; [discriminate|]. intros (_ & _ & _ & _ & H).
        apply HA in H. discriminate.
      * split; [|intros (-> & _); reflexivity].
        intros [= <-]. split_and!; auto. apply HA. reflexivity.
  - rewrite logged_in_page_unreachable by exact Hfst.
    split; [discriminate|]. intros (_ & H & _). rewrite Hfst in H.
    discriminate.
Qed.

(* ===================================================================== *)
(** * More on the hooks                                                   *)
(* ===================================================================== *)

(** X13: however many reports are attached to an item, each phase keeps the
    last report made for it; a phase without a new report keeps what the
    item had; the node id does not change. *)
Theorem X13_last_report_per_phase (reps : list TestReport) :
  forall (item : Item) (ph : string),
    default ∅ (_rep_by_phase (attach_reports item reps)) !! ph
    = match last_report ph reps with
      | Some r => Some r
      | None => default ∅ (_rep_by_phase item) !! ph
      end
    /\ nodeid (attach_reports item reps) = nodeid item.
Proof.
  induction reps as [|r rest IH]; intros item ph; [split; reflexivity|].
  unfold attach_reports in *. simpl.
  destruct (IH (pytest_runtest_makereport item r) ph) as [H1 H2].
  split; [|exact H2]. rewrite H1.
  destruct (last_report ph rest); [reflexivity|].
  simpl. case_bool_decide as Hw.
  - subst ph. apply lookup_insert_eq.
  - apply lookup_insert_ne. exact Hw.
Qed.

Lemma round_half_even_nearest (q : Q) : nearest_even q (round_half_even q).
Proof.
  destruct q as [n d]. unfold nearest_even, round_half_even. cbn [Qnum Qden].
  pose proof (Z.div_mod n (Zpos d) ltac:(lia)) as Hdm.
  pose proof (Z.mod_pos_bound n (Zpos d) ltac:(lia)) as Hb.
  set (f := (n / Zpos d)%Z) in *. set (m := (n mod Zpos d)%Z) in *.
  assert (Hle : forall k : Z,
             (Qabs ((n # d) - inject_Z k) <= 1 # 2)%Q
             <-> (2 * Z.abs (n - k * Zpos d) <= Zpos d)%Z).
  { intros k. unfold Qle, Qabs, Qminus, Qplus, Qopp, inject_Z. cbn [Qnum Qden].
    rewrite Pos.mul_1_r. split; intros H; lia. }
  assert (Heq : forall k : Z,
             (Qabs ((n # d) - inject_Z k) == 1 # 2)%Q
             <-> (2 * Z.abs (n - k * Zpos d) = Zpos d)%Z).
  { intros k. unfold Qeq, Qabs, Qminus, Qplus, Qopp, inject_Z. cbn [Qnum Qden].
    rewrite Pos.mul_1_r. split; intros H; lia. }
  destruct (Z.ltb_spec (2 * m) (Zpos d)) as [H1|H1].
  - split; [apply Hle; nia|]. intros H. apply Heq in H. nia.
  - destruct (Z.ltb_spec (Zpos d) (2 * m)) as [H2|H2].
    + split; [apply Hle; nia|]. intros H. apply Heq in H. nia.
    + destruct (Z.even f) eqn:He.
      * split; [apply Hle; nia | intros _; exact He].
      * split; [apply Hle; nia|]. intros _.
        rewrite Z.even_add, He. reflexivity.
Qed.

Lemma round_half_even_nonneg (q : Q) : (0 <= q)%Q -> (0 <= round_half_even q)%Z.
Proof.
  intros H. unfold round_half_even.
  assert (Hn : (0 <= Qnum q)%Z).
  { unfold Qle in H. simpl in H. lia. }
  pose proof (Z.div_pos (Qnum q) (Zpos (Qden q)) Hn ltac:(lia)) as Hf.
  repeat match goal with
         | |- context [if ?b then _ else _] => destruct b
         end; lia.
Qed.

Lemma millionths_nonneg (m : positive) (e : Z) : (0 <= millionths m e)%Q.
Proof.
  unfold millionths.
  apply Qmult_le_0_compat; [|discriminate].
  apply Qmult_le_0_compat; [discriminate|].
  apply Qpower_0_le. discriminate.
Qed.

Lemma sum_durations_fold (reps : list (option TestReport)) :
  forall acc : spec_float,
    sum_durations reps acc = fold_left float_add (present_durations reps) acc.
Proof.
  induction reps as [|[r|] reps IH]; intros acc; simpl;
    [reflexivity| |apply IH].
  destruct (duration r); simpl; apply IH.
Qed.

Lemma total_duration_fold (rs rc rt : option TestReport) :
  total_duration rs rc rt
  = fold_left float_add (present_durations [rs; rc; rt]) (S754_zero false).
Proof. unfold total_duration. apply sum_durations_fold. Qed.

(** X15: the duration of a record is the sum of the durations of the setup,
    call and teardown reports of its item that exist and have one, added as
    floats from the left, starting at zero, and rounded as [round(x, 6)]
    does: a finite sum of mantissa [m] and exponent [e] gives the float
    nearest to [k] millionths, with the sign of the sum, where [k] is the
    whole number nearest to the exact value of the sum in millionths, the
    even one at a tie; a zero, an infinity and NaN are kept as they are.
    The document of the record holds this float. *)
Theorem X15_duration_sums_present_phases (amb : Ambient) (config : Config)
    (item : Item) :
  let slots := default ∅ (_rep_by_phase item) in
  let total :=
    fold_left float_add
      (present_durations [slots !! "setup"; slots !! "call"; slots !! "teardown"])
      (S754_zero false) in
  let record := build_record amb config item in
  r_duration_seconds record = round6 total
  /\ json_get "duration_seconds" (record_to_json record)
     = Some (JNum (JFloat (round6 total)))
  /\ (forall s m e,
        exists k : Z,
          round6 (S754_finite s m e) = float_of_millionths s k
          /\ (0 <= k)%Z
          /\ nearest_even (millionths m e) k)
  /\ (forall s, round6 (S754_zero s) = S754_zero s)
  /\ (forall s, round6 (S754_infinity s) = S754_infinity s)
  /\ round6 S754_nan = S754_nan.
Proof.
  cbv zeta. split_and!; try reflexivity.
  - unfold build_record. cbn [r_duration_seconds].
    apply f_equal, total_duration_fold.
  - unfold build_record, record_to_json, json_get.
    cbn [r_duration_seconds List.find fst snd String.eqb Ascii.eqb Bool.eqb
         fmap option_fmap option_map].
    do 3 apply f_equal. apply f_equal, total_duration_fold.
  - intros s m e. exists (round_half_even (millionths m e)). split_and!.
    + reflexivity.
    + apply round_half_even_nonneg, millionths_nonneg.
    + apply round_half_even_nearest.
Qed.

(** The sum of two durations that lies just under a tie, and two exact
    ties: [round(0.6563431 + 1.3788104, 6)] is [2.035153],
    [round(0.0078125, 6)] is [0.007812] and [round(0.0234375, 6)] is
    [0.023438]. *)
Example rounding_of_sums_and_ties :
  round6 (float_add (S754_finite false 5911813081174392 (-53))
                    (S754_finite false 6209610003654565 (-52)))
  = S754_finite false 4582757146220974 (-51)
  /\ round6 (S754_finite false 4503599627370496 (-59))
     = S754_finite false 9006622793988689 (-60)
  /\ round6 (S754_finite false 6755399441055744 (-58))
     = S754_finite false 6755543556243820 (-58).
Proof. split_and!; vm_compute; reflexivity. Qed.

(** X16: the record of a test is decided by its call phase when setup
    passed and by its setup phase otherwise: the outcome is that phase's,
    the error is its failure text when it raised and absent otherwise; what
    the finalizers do never enters the record, which is the one the run
    collects. *)
Theorem X16_record_follows_decisive_phase {codec : JsonCodec} (w : World)
    (tc : TestCase) (st : State) (config : Config) (t : list Event) :
  _PYTEST_CONFIG st = Some config ->
  let record := build_record (tc_ambient tc) config (fst (run_setup_call w tc t)) in
  r_outcome record = phase_outcome_of (decisive_result tc t)
  /\ r_error record = failure_text w (decisive_result tc t)
  /\ _results <$> _PYTEST_CONFIG (fst (fst (run_test w tc st t)))
     = Some (_results config ++ [record])
  /\ (forall finalizers : M unit,
        fst (fst (run_test w
                    {| tc_nodeid := tc_nodeid tc; tc_setup := tc_setup tc;
                       tc_call := tc_call tc; tc_finalizers := finalizers;
                       tc_ambient := tc_ambient tc |} st t))
        = fst (fst (run_test w tc st t))).
Proof.
  intros Hc. cbv zeta.
  destruct (build_record_verdict w tc (tc_ambient tc) config t)
    as (Ho & He & _).
  split_and!; [exact Ho | exact He | |].
  - rewrite run_test_state, (teardown_configured _ _ _ _ Hc). reflexivity.
  - intros finalizers. rewrite !run_test_state. reflexivity.
Qed.

Lemma X16_record_follows_decisive_phase_witness :
  let w := Samples.world_broken in
  let tc := Samples.sample_test w Samples.good_environ in
  let st := mkState (Some Samples.sample_config) Samples.empty_fs in
  let record := build_record (tc_ambient tc) Samples.sample_config
                  (fst (run_setup_call w tc [])) in
  _PYTEST_CONFIG st = Some Samples.sample_config
  /\ r_outcome record = failed
  /\ r_error record = Some "TimeoutError: page.goto".
Proof.
  cbv zeta.
  assert (Hc : _PYTEST_CONFIG (mkState (Some Samples.sample_config) Samples.empty_fs)
               = Some Samples.sample_config) by reflexivity.
  split; [exact Hc|].
  pose proof (X16_record_follows_decisive_phase (codec := MiniJson.codec)
                Samples.world_broken
                (Samples.sample_test Samples.world_broken Samples.good_environ)
                _ _ [] Hc) as H.
  cbv zeta in H. destruct H as (Ho & He & _).
  split.
  - rewrite Ho. vm_compute. reflexivity.
  - rewrite He. vm_compute. reflexivity.
Defined.

(* ===================================================================== *)
(** * A whole session                                                     *)
(* ===================================================================== *)

Section SessionFacts.
Context {codec : JsonCodec}.
Variable w : World.

Lemma run_test_trace (tc : TestCase) (st : State) (t : list Event) :
  snd (run_test w tc st t) = trace_after w tc t.
Proof.
  unfold run_test, trace_after.
  destruct (run_setup_call w tc t) as [item t2]. simpl.
  destruct (tc_finalizers tc t2). reflexivity.
Qed.

Lemma session_records_with_results (tcs : list TestCase) :
  forall (config : Config) (rs : list TestExecutionRecord) (t : list Event),
    session_records w (with_results config rs) tcs t
    = session_records w config tcs t.
Proof.
  induction tcs as [|tc rest IH]; intros config rs t; [reflexivity|].
  simpl. rewrite IH. reflexivity.
Qed.

Lemma run_tests_results (tcs : list TestCase) :
  forall (st : State) (t : list Event) (config : Config),
    _PYTEST_CONFIG st = Some config ->
    _PYTEST_CONFIG (fst (run_tests w tcs st t))
    = Some (with_results config
              (_results config ++ session_records w config tcs t)).
Proof.
  induction tcs as [|tc rest IH]; intros st t config Hc.
  - simpl. rewrite Hc, app_nil_r. destruct config; reflexivity.
  - rewrite run_tests_cons, run_test_state, run_test_trace.
    rewrite (teardown_configured _ _ _ _ Hc). cbv zeta.
    erewrite IH by reflexivity.
    rewrite session_records_with_results. simpl.
    rewrite <- List.app_assoc. reflexivity.
Qed.

Lemma session_records_spec (config : Config) (tcs : list TestCase) :
  forall t : list Event,
    map r_nodeid (session_records w config tcs t) = map tc_nodeid tcs
    /\ Forall (fun r => r_run_id r = _run_id config
                        /\ r_run_started_at r = _run_started_at config)
         (session_records w config tcs t).
Proof.
  induction tcs as [|tc rest IH]; intros t; [split; constructor|].
  destruct (IH (trace_after w tc t)) as [H1 H2].
  destruct (build_record_verdict w tc (tc_ambient tc) config t)
    as (_ & _ & Hn & Hr & Hs & _).
  simpl. split.
  - rewrite H1. f_equal. exact Hn.
  - constructor; [split; assumption | exact H2].
Qed.
End SessionFacts.

(** X14: every record a session collects carries the run id and the start
    time that [pytest_configure] set, the run id being the text run_
    followed by the file stamp; the summary written at the end carries the
    same run id, so each record points to its summary. *)
Theorem X14_records_share_the_run_id {codec : JsonCodec} (w : World)
    (amb : Ambient) (tcs : list TestCase) (amb_end : Ambient)
    (exitstatus : Z) (st0 : State) :
  exists st config,
    fst (run_session w amb tcs amb_end exitstatus st0) = Ok st
    /\ _PYTEST_CONFIG st = Some config
    /\ _run_id config = "run_" +:+ file_stamp amb
    /\ s_run_id (run_summary amb_end config exitstatus) = _run_id config
    /\ Forall (fun r => r_run_id r = "run_" +:+ file_stamp amb
                        /\ r_run_started_at r = now_iso amb)
         (_results config).
Proof.
  unfold run_session.
  destruct (run_tests w tcs (pytest_configure amb st0) []) as [st2 t] eqn:E.
  pose proof (run_tests_results w tcs (pytest_configure amb st0) [] _ eq_refl)
    as Hc.
  rewrite E in Hc. simpl fst in Hc.
  unfold pytest_sessionfinish. simpl fst. rewrite Hc.
  eexists. eexists. split; [reflexivity|]. split; [reflexivity|].
  split_and!; try reflexivity.
  simpl. eapply Forall_impl; [apply session_records_spec|].
  intros r [H1 H2]. split; assumption.
Qed.

(** A session that is not interrupted. *)
Lemma run_session_uninterrupted {codec : JsonCodec} (w : World)
    (amb : Ambient) (tcs : list TestCase) (amb_end : Ambient)
    (exitstatus : Z) (st0 : State) :
  fst (run_session w amb tcs amb_end exitstatus st0)
  = run_interrupted_session w amb tcs None amb_end exitstatus st0.
Proof.
  unfold run_session, run_interrupted_session, run_until_abort.
  destruct (run_tests w tcs (pytest_configure amb st0) []). reflexivity.
Qed.

(** X17: a session, interrupted or not, ends with its summary in the run
    file, whose directory [pytest_configure] created: the document lists
    under results the records of the tests that reached the teardown hook,
    one for one and in order, and gives under totals their number, split
    into passed, failed and skipped; a test that was interrupted before the
    teardown hook is not in it; writing the summary changes no per-test
    history and not the log. *)
Theorem X17_session_writes_its_summary {codec : JsonCodec} (w : World)
    (amb : Ambient) (finished : list TestCase)
    (last : option (TestCase * AbortPoint)) (amb_end : Ambient)
    (exitstatus : Z) (st0 : State) :
  codec_law codec ->
  let st2 := run_until_abort w finished last (pytest_configure amb st0) [] in
  let reached := reached_hook finished last in
  exists (st : State) (config : Config) (txt : string) (doc totals : json)
         (p f s : nat),
    run_interrupted_session w amb finished last amb_end exitstatus st0 = Ok st
    /\ _PYTEST_CONFIG st = Some config
    /\ map r_nodeid (_results config) = map tc_nodeid reached
    /\ parent (run_file config) ∈ dirs (fs st2)
    /\ files (fs st) !! run_file config = Some txt
    /\ json_loads txt = Some doc
    /\ json_get "run_id" doc = Some (JStr ("run_" +:+ file_stamp amb))
    /\ json_get "results" doc = Some (JList (map record_to_json (_results config)))
    /\ json_get "totals" doc = Some totals
    /\ json_get "total" totals = Some (jnat (length reached))
    /\ json_get "passed" totals = Some (jnat p)
    /\ json_get "failed" totals = Some (jnat f)
    /\ json_get "skipped" totals = Some (jnat s)
    /\ p + f + s = length reached
    /\ (forall q, q <> run_file config ->
          files (fs st) !! q = files (fs st2) !! q).
Proof.
  intros law. cbv zeta. unfold run_interrupted_session.
  rewrite run_until_abort_reached.
  set (tcs := reached_hook finished last).
  pose proof (run_tests_results w tcs (pytest_configure amb st0) []
                (configured amb) eq_refl) as Hc.
  destruct (pytest_configure_dirs amb st0) as (_ & Hd & _).
  pose proof (run_tests_dirs w tcs (pytest_configure amb st0) []) as Hdirs.
  set (st2 := fst (run_tests w tcs (pytest_configure amb st0) [])) in *.
  unfold pytest_sessionfinish. rewrite Hc.
  set (config := with_results (configured amb)
                   (_results (configured amb)
                    ++ session_records w (configured amb) tcs [])).
  assert (Hlen : length (_results config) = length tcs).
  { rewrite <- (length_map r_nodeid). simpl.
    rewrite (proj1 (session_records_spec w _ tcs [])). apply length_map. }
  eexists. exists config. eexists.
  exists (summary_to_json (run_summary amb_end config exitstatus)).
  eexists.
  exists (count_outcome passed (_results config)),
    (count_outcome failed (_results config)),
    (count_outcome skipped (_results config)).
  split_and!.
  - reflexivity.
  - reflexivity.
  - simpl. apply session_records_spec.
  - rewrite Hdirs. exact Hd.
  - simpl. apply lookup_insert_eq.
  - apply law.
  - reflexivity.
  - reflexivity.
  - reflexivity.
  - unfold json_get, run_summary. simpl. rewrite <- Hlen. reflexivity.
  - reflexivity.
  - reflexivity.
  - reflexivity.
  - rewrite count_outcome_partition. exact Hlen.
  - intros q Hq. cbn [fs files write_text]. apply lookup_insert_ne.
    intros E'. apply Hq. symmetry. exact E'.
Qed.

Lemma X17_session_writes_its_summary_witness :
  let w := Samples.world_up in
  let suite := Samples.sample_suite w Samples.good_environ in
  let last := Samples.sample_test_named w Samples.good_environ
                "tests/test_buy.py::test_late" in
  codec_law MiniJson.codec
  /\ exists (st : State) (txt : string) (doc totals : json),
       run_interrupted_session (codec := MiniJson.codec) w Samples.sample_ambient
         suite (Some (last, BeforeTeardownHook)) Samples.sample_ambient 2
         Samples.fresh_state = Ok st
       /\ files (fs st) !! run_file Samples.sample_config = Some txt
       /\ json_loads (JsonCodec := MiniJson.codec) txt = Some doc
       /\ json_get "totals" doc = Some totals
       /\ json_get "total" totals = Some (jnat 3).
Proof.
  cbv zeta. split; [exact MiniJsonFacts.loads_dumps|].
  destruct (X17_session_writes_its_summary (codec := MiniJson.codec)
              Samples.world_up Samples.sample_ambient
              (Samples.sample_suite Samples.world_up Samples.good_environ)
              (Some (Samples.sample_test_named Samples.world_up
                       Samples.good_environ "tests/test_buy.py::test_late",
                     BeforeTeardownHook))
              Samples.sample_ambient 2 Samples.fresh_state
              MiniJsonFacts.loads_dumps)
    as (st & config & txt & doc & totals & p & f & s
        & H1 & H2 & _ & _ & H5 & H6 & _ & _ & H9 & H10 & _).
  exists st, txt, doc, totals.
  assert (Hcfg : run_file config = run_file Samples.sample_config).
  { unfold run_interrupted_session, pytest_sessionfinish in H1.
    destruct (_PYTEST_CONFIG _) as [c|] eqn:E in H1; [|discriminate].
    injection H1 as <-. simpl in H2. injection H2 as <-.
    revert E. vm_compute. intros [= <-]. reflexivity. }
  rewrite Hcfg in H5.
  split_and!; assumption.
Defined.

(* ===================================================================== *)
(** * The configuration                                                   *)
(* ===================================================================== *)

Lemma lower_char_t (a : ascii) : Ascii.eqb (lower_char a) "t" = letter_of "t" a.
Proof. destruct a as [[] [] [] [] [] [] [] []]; reflexivity. Qed.

Lemma lower_char_r (a : ascii) : Ascii.eqb (lower_char a) "r" = letter_of "r" a.
Proof. destruct a as [[] [] [] [] [] [] [] []]; reflexivity. Qed.

Lemma lower_char_u (a : ascii) : Ascii.eqb (lower_char a) "u" = letter_of "u" a.
Proof. destruct a as [[] [] [] [] [] [] [] []]; reflexivity. Qed.

Lemma lower_char_e (a : ascii) : Ascii.eqb (lower_char a) "e" = letter_of "e" a.
Proof. destruct a as [[] [] [] [] [] [] [] []]; reflexivity. Qed.

Lemma lower_is_true (v : string) :
  lower v = "true" <-> is_true_word v = true.
Proof.
  destruct v as [|a [|b [|c [|d [|e v]]]]]; simpl;
    try (split; discriminate).
  rewrite <- lower_char_t, <- lower_char_r, <- lower_char_u, <- lower_char_e.
  rewrite !andb_true_iff, !Ascii.eqb_eq. split.
  - intros [= -> -> -> ->]. auto.
  - intros [[[-> ->] ->] ->]. reflexivity.
Qed.

(** X18: the browser runs headless exactly when HEADLESS is unset or is the
    word true in any mix of capitals and small letters; every other value,
    1 and yes among them, gives a visible browser. *)
Theorem X18_headless_only_for_true (environ : gmap string string) :
  (PW_headless environ = true
   <-> environ !! "HEADLESS" = None
       \/ exists v, environ !! "HEADLESS" = Some v /\ is_true_word v = true)
  /\ (forall v, environ !! "HEADLESS" = Some v -> String.length v <> 4 ->
        PW_headless environ = false).
Proof.
  unfold PW_headless, getenv. split.
  - rewrite bool_decide_eq_true, lower_is_true.
    destruct (environ !! "HEADLESS") as [v|]; simpl.
    + split; [intros H; right; exists v; auto|].
      intros [H|(v' & [= <-] & H)]; [discriminate | exact H].
    + split; [left; reflexivity | reflexivity].
  - intros v -> Hlen. simpl. apply bool_decide_eq_false. rewrite lower_is_true.
    destruct v as [|a [|b [|c [|d [|e v]]]]]; simpl in *;
      try discriminate. contradiction.
Qed.

(* ===================================================================== *)
(** * The tests of the suite                                              *)
(* ===================================================================== *)

Lemma prefix_app (a b : string) :
  String.prefix a b = true <-> exists r, b = a +:+ r.
Proof.
  revert b. induction a as [|x a IH]; intros b.
  - destruct b; simpl; split; try reflexivity; intros _; eexists; reflexivity.
  - destruct b as [|y b]; simpl.
    + split; [discriminate | intros [r H]; discriminate].
    + destruct (ascii_dec x y) as [->|Hne].
      * rewrite IH. split; intros [r H]; exists r.
        -- rewrite H. reflexivity.
        -- injection H as H. exact H.
      * split; [discriminate|]. intros [r H]. injection H as H _.
        congruence.
Qed.

Lemma contains_mentions (needle hay : string) :
  contains needle hay = true <-> mentions hay needle.
Proof.
  unfold mentions. induction hay as [|c hay IH].
  - cbn [contains]. rewrite orb_false_r, prefix_app. split.
    + intros [r H]. exists "", r. exact H.
    + intros (pre & post & H). destruct pre; [exists post; exact H|].
      discriminate.
  - cbn [contains]. rewrite orb_true_iff, IH, prefix_app. split.
    + intros [[r H]|(pre & post & H)].
      * exists "", r. exact H.
      * exists (String c pre), post. simpl. rewrite H. reflexivity.
    + intros (pre & post & H). destruct pre as [|x pre].
      * left. exists post. exact H.
      * right. exists pre, post. simpl in H. injection H as _ H. exact H.
Qed.

Section TestFacts.
Variable w : World.
Variable rd : PageReads.
Variable pg : Page.

(** The steps of a purchase run one after the other and stop at the first
    that fails. *)
Lemma purchase_by_amount_then {A} (value : string) (k : M A) (t : list Event) :
  (BuyGoldPage.open w pg ;;; BuyGoldPage.buy_by_amount w pg value ;;;
   BuyGoldPage.confirm w pg ;;; k) t
  = match attempt w pg (purchase_actions "buy-amount" value) with
    | (done, None) => k (t ++ map (EvPage pg) done)
    | (done, Some e) => (Raised e, t ++ map (EvPage pg) done)
    end.
Proof.
  unfold BuyGoldPage.open, BuyGoldPage.buy_by_amount, BuyGoldPage.confirm,
    bind, page_do, purchase_actions.
  cbn [attempt].
  repeat match goal with
         | |- context [page_action w pg ?a] => destruct (page_action w pg a)
         end; simpl; rewrite <- ?List.app_assoc; reflexivity.
Qed.

Lemma purchase_by_grams_then {A} (value : string) (k : M A) (t : list Event) :
  (BuyGoldPage.open w pg ;;; BuyGoldPage.buy_by_grams w pg value ;;;
   BuyGoldPage.confirm w pg ;;; k) t
  = match attempt w pg (purchase_actions "buy-grams" value) with
    | (done, None) => k (t ++ map (EvPage pg) done)
    | (done, Some e) => (Raised e, t ++ map (EvPage pg) done)
    end.
Proof.
  unfold BuyGoldPage.open, BuyGoldPage.buy_by_grams, BuyGoldPage.confirm,
    bind, page_do, purchase_actions.
  cbn [attempt].
  repeat match goal with
         | |- context [page_action w pg ?a] => destruct (page_action w pg a)
         end; simpl; rewrite <- ?List.app_assoc; reflexivity.
Qed.

(** What the receipt part of a happy-path test does. *)
Lemma receipt_check (t : list Event) :
  fst ((OrderSuccessPage.expect_success rd pg ;;;
        order_id <- OrderSuccessPage.get_order_id rd pg ;;
        if bool_decide (order_id <> "") then ret tt else raise assertion_error) t)
  = receipt_verdict rd pg.
Proof.
  unfold receipt_verdict, OrderSuccessPage.expect_success, OrderSuccessPage.get_order_id,
    bind, lift_exc, ret, raise.
  destruct (wait_for rd pg (testid "order-success-title") "visible");
    [|reflexivity].
  destruct (wait_for rd pg (testid "order-id") "visible"); [|reflexivity].
  destruct (inner_text rd pg (testid "order-id")) as [shown|]; [|reflexivity].
  simpl. destruct (all_space shown) eqn:Hs.
  - rewrite (strip_all_space shown Hs).
    rewrite bool_decide_eq_false_2 by (intros H; apply H; reflexivity).
    reflexivity.
  - rewrite bool_decide_eq_true_2; [reflexivity|].
    intros H. apply strip_empty_iff in H. congruence.
Qed.

Lemma error_check (text : string) (t : list Event) :
  fst (BuyGoldPage.expect_error_contains rd pg text t)
  = match wait_for rd pg (testid "buy-error") "visible" with
    | Err e => Raised e
    | Ok _ =>
        match inner_text rd pg (testid "buy-error") with
        | Err e => Raised e
        | Ok shown =>
            if contains text shown then Returned tt else Raised assertion_error
        end
    end.
Proof.
  unfold BuyGoldPage.expect_error_contains, bind, lift_exc, ret, raise.
  destruct (wait_for rd pg (testid "buy-error") "visible"); [|reflexivity].
  destruct (inner_text rd pg (testid "buy-error")) as [shown|]; [|reflexivity].
  simpl. destruct (contains text shown); reflexivity.
Qed.
End TestFacts.

Lemma attempt_then_returned {A} (w : World) (pg : Page)
    (acts : list PageAction) (k : M A) (t : list Event) (verdict : Result A) :
  (forall t', fst (k t') = verdict) ->
  fst (match attempt w pg acts with
       | (done, None) => k (t ++ map (EvPage pg) done)
       | (done, Some e) => (Raised e, t ++ map (EvPage pg) done)
       end)
  = match snd (attempt w pg acts) with
    | None => verdict
    | Some e => Raised e
    end.
Proof.
  intros Hk. destruct (attempt w pg acts) as [done [e|]]; simpl; [reflexivity|].
  apply Hk.
Qed.

(** X19: the insufficient-funds test passes exactly when the four steps of
    the purchase succeed, the error box becomes visible and its text holds
    the word insufficient in small letters; with any other text shown it
    fails on its assertion, and it never skips. *)
Theorem X19_negative_test_needs_the_word (w : World) (rd : PageReads)
    (pg : Page) (t : list Event) :
  let r := fst (test_buy_gold_negative_insufficient_funds w rd pg t) in
  let steps := purchase_actions "buy-amount" "999999999999" in
  let box := testid "buy-error" in
  (r = Returned tt
   <-> all_ok w pg steps
       /\ is_ok (wait_for rd pg box "visible") = true
       /\ exists shown, inner_text rd pg box = Ok shown
                        /\ mentions shown "insufficient")
  /\ (forall shown,
        all_ok w pg steps -> is_ok (wait_for rd pg box "visible") = true ->
        inner_text rd pg box = Ok shown -> ~ mentions shown "insufficient" ->
        r = Raised assertion_error)
  /\ (forall reason, r <> Skipped reason).
Proof.
  cbv zeta. unfold test_buy_gold_negative_insufficient_funds, all_ok.
  rewrite purchase_by_amount_then.
  rewrite (attempt_then_returned w pg _ _ t _
             (fun t' => error_check rd pg "insufficient" t')).
  pose proof (attempt_none w pg (purchase_actions "buy-amount" "999999999999"))
    as HA.
  destruct (snd (attempt w pg (purchase_actions "buy-amount" "999999999999")))
    as [e|].
  { split_and!.
    - split; [discriminate|]. intros (H & _). apply HA in H. discriminate.
    - intros shown H. apply HA in H. discriminate.
    - intros reason. discriminate. }
  destruct (wait_for rd pg (testid "buy-error") "visible") as [[]|e].
  2:{ split_and!.
      - split; [discriminate | intros (_ & H & _); discriminate].
      - intros shown _ H. discriminate.
      - intros reason. discriminate. }
  destruct (inner_text rd pg (testid "buy-error")) as [shown|e].
  2:{ split_and!.
      - split; [discriminate | intros (_ & _ & s & H & _); discriminate].
      - intros shown _ _ H. discriminate.
      - intros reason. discriminate. }
  pose proof (contains_mentions "insufficient" shown) as Hm.
  destruct (contains "insufficient" shown).
  - split_and!.
    + split; [|reflexivity]. intros _. split_and!; try reflexivity.
      * apply HA. reflexivity.
      * exists shown. split; [reflexivity|]. apply Hm. reflexivity.
    + intros s _ _ [= <-] Hn. exfalso. apply Hn, Hm. reflexivity.
    + intros reason. discriminate.
  - split_and!.
    + split; [discriminate|]. intros (_ & _ & s & [= <-] & H).
      apply Hm in H. discriminate.
    + reflexivity.
    + intros reason. discriminate.
Qed.

Lemma happy_verdict (w : World) (rd : PageReads) (pg : Page)
    (steps : list PageAction) (r : Result unit) :
  r = match snd (attempt w pg steps) with
      | None => receipt_verdict rd pg
      | Some e => Raised e
      end ->
  (r = Returned tt
   <-> all_ok w pg steps
       /\ is_ok (wait_for rd pg (testid "order-success-title") "visible") = true
       /\ is_ok (wait_for rd pg (testid "order-id") "visible") = true
       /\ exists shown, inner_text rd pg (testid "order-id") = Ok shown
                        /\ all_space shown = false)
  /\ (forall shown,
        all_ok w pg steps ->
        is_ok (wait_for rd pg (testid "order-success-title") "visible") = true ->
        is_ok (wait_for rd pg (testid "order-id") "visible") = true ->
        inner_text rd pg (testid "order-id") = Ok shown ->
        all_space shown = true ->
        r = Raised assertion_error).
Proof.
  intros ->. unfold all_ok, receipt_verdict.
  pose proof (attempt_none w pg steps) as HA.
  destruct (snd (attempt w pg steps)) as [e|].
  { split; [split; [discriminate|]|].
    - intros (H & _). apply HA in H. discriminate.
    - intros shown H. apply HA in H. discriminate. }
  destruct (wait_for rd pg (testid "order-success-title") "visible") as [[]|e].
  2:{ split; [split; [discriminate | intros (_ & H & _); discriminate]|].
      intros shown _ H. discriminate. }
  destruct (wait_for rd pg (testid "order-id") "visible") as [[]|e].
  2:{ split; [split; [discriminate | intros (_ & _ & H & _); discriminate]|].
      intros shown _ _ H. discriminate. }
  destruct (inner_text rd pg (testid "order-id")) as [shown|e].
  2:{ split; [split; [discriminate|]|].
      - intros (_ & _ & _ & s & H & _). discriminate.
      - intros shown _ _ _ H. discriminate. }
  destruct (all_space shown) eqn:Hs.
  - split; [split; [discriminate|]|].
    + intros (_ & _ & _ & s & [= <-] & H). congruence.
    + reflexivity.
  - split; [split; [|reflexivity]|].
    + intros _. split_and!; try reflexivity.
      * apply HA. reflexivity.
      * exists shown. auto.
    + intros s _ _ _ [= <-] H. congruence.
Qed.

(** X20: each of the two happy-path tests passes exactly when the four
    steps of the purchase succeed, the success title and the order id become
    visible and the order id shown is not blank; an order id of white space
    only fails the test on its assertion. *)
Theorem X20_happy_tests_need_an_order_id (w : World) (rd : PageReads)
    (pg : Page) (t : list Event) :
  let by_amount := fst (test_buy_gold_happy_path_by_amount w rd pg t) in
  let by_grams := fst (test_buy_gold_happy_path_by_grams w rd pg t) in
  let title_ok := is_ok (wait_for rd pg (testid "order-success-title") "visible") in
  let id_ok := is_ok (wait_for rd pg (testid "order-id") "visible") in
  let shown_id := inner_text rd pg (testid "order-id") in
  (by_amount = Returned tt
   <-> all_ok w pg (purchase_actions "buy-amount" "500000")
       /\ title_ok = true /\ id_ok = true
       /\ exists shown, shown_id = Ok shown /\ all_space shown = false)
  /\ (by_grams = Returned tt
      <-> all_ok w pg (purchase_actions "buy-grams" "0.5")
          /\ title_ok = true /\ id_ok = true
          /\ exists shown, shown_id = Ok shown /\ all_space shown = false)
  /\ (forall shown,
        all_ok w pg (purchase_actions "buy-amount" "500000") ->
        title_ok = true -> id_ok = true -> shown_id = Ok shown ->
        all_space shown = true -> by_amount = Raised assertion_error)
  /\ (forall shown,
        all_ok w pg (purchase_actions "buy-grams" "0.5") ->
        title_ok = true -> id_ok = true -> shown_id = Ok shown ->
        all_space shown = true -> by_grams = Raised assertion_error).
Proof.
  cbv zeta.
  assert (Ha : fst (test_buy_gold_happy_path_by_amount w rd pg t)
               = match snd (attempt w pg (purchase_actions "buy-amount" "500000")) with
                 | None => receipt_verdict rd pg
                 | Some e => Raised e
                 end).
  { unfold test_buy_gold_happy_path_by_amount.
    rewrite purchase_by_amount_then.
    apply (attempt_then_returned w pg _ _ t _ (fun t' => receipt_check rd pg t')). }
  assert (Hg : fst (test_buy_gold_happy_path_by_grams w rd pg t)
               = match snd (attempt w pg (purchase_actions "buy-grams" "0.5")) with
                 | None => receipt_verdict rd pg
                 | Some e => Raised e
                 end).
  { unfold test_buy_gold_happy_path_by_grams.
    rewrite purchase_by_grams_then.
    apply (attempt_then_returned w pg _ _ t _ (fun t' => receipt_check rd pg t')). }
  destruct (happy_verdict w rd pg _ _ Ha) as [A1 A2].
  destruct (happy_verdict w rd pg _ _ Hg) as [G1 G2].
  split_and!; assumption.
Qed.

Example capital_letter_fails_the_negative_test :
  PageSamples.outcomes Samples.world_up PageSamples.reads_capital Samples.good_environ
  = Some [(passed, None); (passed, None); (failed, Some "AssertionError")]
  /\ PageSamples.outcomes Samples.world_up PageSamples.reads_lower Samples.good_environ
     = Some [(passed, None); (passed, None); (passed, None)]
  /\ PageSamples.outcomes Samples.world_down PageSamples.reads_lower Samples.good_environ
     = Some [(skipped, None); (skipped, None); (skipped, None)].
Proof. split_and!; vm_compute; reflexivity. Qed.

(* ===================================================================== *)
(** * The environment snapshot of a record                                *)
(* ===================================================================== *)

(** X12: the environment of a record holds the raw variables: its base URL
    is the URL the fixtures use exactly when BASE_URL is set; with BASE_URL
    unset the record holds the empty string while the fixtures go to the
    local default; its headless entry is the text of HEADLESS as given, or
    true when unset. *)
Theorem X12_record_environment_is_raw (amb : Ambient) (config : Config)
    (item : Item) :
  let env := r_environment (build_record amb config item) in
  (env_base_url env = base_url (environ amb)
   <-> is_Some (environ amb !! "BASE_URL"))
  /\ (environ amb !! "BASE_URL" = None ->
      env_base_url env = ""
      /\ base_url (environ amb) = "http://localhost:3000")
  /\ (forall v, environ amb !! "HEADLESS" = Some v -> env_headless env = v)
  /\ (environ amb !! "HEADLESS" = None -> env_headless env = "true")
  /\ (PW_headless (environ amb) = true
      <-> is_true_word (env_headless env) = true).
Proof.
  cbv zeta. unfold build_record, base_url, PW_headless, getenv. simpl.
  split_and!.
  - destruct (environ amb !! "BASE_URL"); simpl.
    + split; [eexists; reflexivity | reflexivity].
    + split; [discriminate | intros [? H]; discriminate].
  - intros ->. split; reflexivity.
  - intros v ->. reflexivity.
  - intros ->. reflexivity.
  - rewrite bool_decide_eq_true. apply lower_is_true.
Qed.

(* ===================================================================== *)
(** * Sessions one after the other                                        *)
(* ===================================================================== *)

Lemma jsonl_lines_app {codec : JsonCodec} (a b : list json) :
  jsonl_lines (a ++ b) = jsonl_lines a +:+ jsonl_lines b.
Proof.
  induction a as [|r a IH]; [reflexivity|].
  simpl. rewrite IH, !append_assoc. reflexivity.
Qed.

Lemma records_for_app (config : Config) (p : Path)
    (a b : list TestExecutionRecord) :
  records_for config p (a ++ b) = records_for config p a ++ records_for config p b.
Proof. unfold records_for. rewrite filter_app, map_app. reflexivity. Qed.




Section TwoSessions.
Context {codec : JsonCodec}.
Variable w : World.
Hypothesis law : codec_law codec.

End TwoSessions.


